(* ===== verification/_CoqProject ===== *)
-Q . S2P
Prelude.v
Format.v
Model.v
Host.v
Micro.v
Cycles.v
Compensation.v
Ties.v
Scoring.v
Predict.v
Floats.v
Pipeline.v
Page.v
App.v
