(* ===== verification/Prelude.v ===== *)
(** * Casino Analyzer (src/Hacker.py): a verified model

    ** The program

    [src/Hacker.py] is a Streamlit page around one class, [CasinoAnalyzer].
    The page keeps an ordered history of baccarat outcomes ('C' player,
    'V' banker, 'E' tie) in the session state, and on every run passes it
    through a fixed pipeline:

      history -> four detectors -> patterns
              -> assess_risk, detect_manipulation -> two assessments
              -> make_prediction -> one recommendation.

    Every stage is a pure function of its arguments; the only state of the
    program is the history list that the page's buttons append to, clear or
    pop.  One run of [main] reads the buttons, updates the history, ends
    with a hint when the history is empty, and otherwise displays the
    history, analyses it and writes the four parts of the analysis.
    Streamlit runs the script once when the page is opened and again
    after every interaction, with the session state of the previous run.

    ** The files

    - [Prelude] (this file): the Python idioms the source uses, as
      executable definitions with their lemmas: negative slices ([lastn]),
      slices ([slice]), [range], [list.count] ([count]), true division of
      integers ([ratio]), comparisons of numbers as booleans, the
      insertion-ordered [Counter], [max] with a key ([py_max], first
      maximum wins), decimal rendering of integers inside f-strings
      ([fmt_nat]), and exceptions as values ([result]).  It also holds the
      development's tactics and the hint database [casino].
    - [Format]: the format [:.1f] of line 364 on exact numbers ([fmt1]):
      rounding to the nearest tenth with ties to even
      ([round_half_even]) and the numeral of the result, with a reader
      of such numerals ([read1]) to say what the text denotes.
    - [Model]: the data of the program.  [Outcome] is the alphabet of the
      history; [Level] the four risk tiers; [PatternType] the value of a
      pattern's 'type' key; [Pattern] the dictionaries the detectors
      build, with the keys every pattern has as fields and the keys that
      depend on the type in [Extra]; [RiskAssessment],
      [ManipulationAssessment] and [Prediction] the three result
      dictionaries.  [wf_pattern] is the invariant every detector
      establishes; [pattern_equiv] and [prediction_equiv] identify
      dictionaries whose numbers are equal as rationals.
    - [Host]: the session history of [main]: [init_history] (lines
      297-298), the five button tests [press] (lines 303-316) and the
      displayed line [history_display] (lines 321-322).  Its
      specification is a step relation on histories ([step]) and the
      sessions of single clicks ([click], [session]).
    - [Micro]: [analyze_micro_patterns] (lines 9-41).
    - [Cycles]: [detect_hidden_cycles] (lines 43-66).
    - [Compensation]: [analyze_compensation_patterns] (lines 68-110).
    - [Ties]: [analyze_strategic_ties] and its local
      [get_sequence_length] (lines 112-165).
    - [Scoring]: [assess_risk] and [detect_manipulation] (lines 167-226),
      each a left fold of a one-pattern step over the pattern list.
    - [Predict]: [predict_next_in_cycle] and [make_prediction]
      (lines 228-290), the latter in the [result] monad because it indexes
      pattern dictionaries with keys that only some kinds carry.  Its
      specification is the inductive relation [chooses], the decision
      chain with one constructor per outcome.
    - [Floats]: the floats of the program on the kernel's binary64
      numbers: the comparisons of the detectors and of
      [detect_manipulation], and the confidence with its format
      ([frequency_confidence_float], [format_1f]).
    - [Pipeline]: the composition performed by [main] (lines 328-340) as
      [analyze], the interface [Detector] that the four detectors
      implement, and the end-to-end theorems.
    - [Page]: one run of [main] (lines 293-369) as a function from the
      session state and the values of the buttons to the new history and
      the list of calls made to Streamlit ([Output]): the widgets
      ([widgets]), the history line or the hint, the spinner and the four
      sections of the result ([write_patterns], [write_risk],
      [write_manipulation], [write_prediction]).
    - [App]: the script under Streamlit's reruns.  [script] is one run
      under the host, [rerun], [loop] and [app] the loop of runs as an
      interaction tree over the events [pageE] (the page shown, the
      exception that ended a run, the next interaction).  Of all this
      only the call of [main] (lines 370-371) is code of the source: the
      rest is modelled from what the specification says of the host,
      which calls the analysis whenever the history changes and renders
      the result.  That the user may leave, which ends the loop, is a
      device of the model.  The specification of the loop is the
      coinductive predicate [serves]; its theorems are about [main]
      under the host so described.

    ** Correspondence of data

    - A history is [list Outcome], oldest first, as [self.results].
      The source holds one-character strings; the page only ever appends
      'C', 'V' or 'E', so the alphabet is an enumeration and [to_str]
      gives the character back.  [''.join] of a window of outcomes is
      represented by the window itself ([join] renders it; it is injective
      on windows, [Model.join_inj]).
    - Python integers that count things are [nat].  Python floats are
      exact rationals [Q]: every float in the program is a quotient of two
      small integers, possibly scaled by 20 or 100 and shifted by an
      integer, and every comparison of such a value is against a decimal
      constant from which it differs by much more than one unit in the
      last place or to which it is equal as a real number with both sides
      correctly rounded; so each branch taken on floats is the branch
      taken on rationals.  [Floats] proves this by evaluating each such
      comparison on binary64 for every input the program can produce.
      One float reaches the user, the confidence of a bet, through the
      format [:.1f]; the model writes the exact confidence rounded to one
      decimal, and [Floats] proves that this is the text the program
      writes for the binary64 number, for every confidence the page can
      show.  Strengths and predictabilities are never shown.
    - A dictionary with a fixed set of keys is a [Record]; a key that is
      present only for some pattern types is a partial projection
      ([repetitions], [favored_color], ...), and indexing with it is
      [KeyError] when absent, as in Python.
    - [Counter] is an association list in first-insertion order, because
      [max] and [most_common(1)] break ties by that order.

    ** Where Python can raise

    The model has one exception, [KeyError], raised where the source
    indexes a pattern dictionary with a key that only some pattern types
    carry (lines 243-260); [Predict.make_prediction_total] and
    [Pipeline.analyze_closed_form] show that it is never raised on what
    the detectors report.  The other operations that can raise in Python
    stand behind a test of the source that the model has too, and are
    total functions in the model:
    - [before[-1]], [before[-2]] and [after[0]] (lines 136, 149) are
      [neg_index] and list lookup, which give an option; the length
      tests of the same conditions come first, as in the source.
      [seq[-1]] (line 122) follows the test that [seq] is not empty,
      which is a match on the list.
    - [last6[i]] (line 16) is a lookup at positions below six of a list
      of six, the history holding at least six outcomes (line 11).
    - [most_common(1)[0]] (line 269) is read only after the test that a
      non-tie outcome exists (line 266); [most_common1] gives an option,
      whose case [None] is that test.
    - [list.pop()] (line 316) is [pop], applied only to a history that
      the test of line 315 has found non-empty; [pop []] is [[]].
    - The divisions (lines 21, 35, 83, 270, 286, 289) divide by 3, by
      5, by a window size of 12, 15 or 18, by the number of non-tie
      outcomes after the test of line 266, and by the length of a
      cycle, which line 282 tests first; [ratio] with a divisor of 0 is
      the dividend.
    - [results[-n:]] is [lastn n], which for [n = 0] is the empty list
      where Python gives the whole list; the source uses 6, 8, 12, 15
      and 18.
    - The six keys every pattern has are fields of [Pattern], so the
      default of [p.get('predictability', 0)] (line 207) and that of
      [color_map.get(r, '⬜')] (line 322) are never taken.
    - A run of [main] that raises is the exception alone in the model;
      Python would have made the calls before it.  No run raises
      ([Page.main_closed_form]).

    ** What the theorems show

    - [Host]: a click changes the history by one of four operations
      and every such operation is a click ([click_step]); entering a
      list of outcomes appends it; every history is reached from every
      other by a clear and the entries ([session_reaches]); undo after
      entering restores the history; a run in which several buttons
      report a click, which Streamlit does not produce but the script
      defines, does what the clicks do one after the other in the order
      of the tests ([press_clicks]); the displayed line determines the
      history ([history_display_roundtrip]).
    - [Micro]: the 2x2 check and the alternation check, each as an
      equation on the outcomes it reads ([micro_double_spec],
      [micro_alternation_spec]); locality; the alternation check reads
      the oldest six of the last eight non-tie outcomes, so the two most
      recent never change what it reports
      ([micro_alternation_reads_oldest_six]).
    - [Cycles]: a reported cycle is a window that occurs at least twice,
      at least as often as every other window of its length, and more
      often than every window seen before it, which pins the tie-break
      of [max] ([detect_hidden_cycles_spec]); by pigeonhole, ten windows of length
      3 over two colours repeat, so twelve non-tie outcomes always
      produce a cycle ([hidden_cycle_always]); a history of [n] equal
      outcomes is a window of three repeated [n - 2] times, with a
      predictability above 100
      ([hidden_cycle_predictability_exceeds_100]).
    - [Compensation]: the detector equals a report decided on integers
      ([compensation_spec]), so the float comparisons of the balance
      ratio with 0.1 and 0.4 are the integer comparisons
      [10 * imbalance < W] and [4 * W < 10 * imbalance]; a window gives
      at most one pattern; the favoured colour is the rarer one.
    - [Ties]: the two kinds of tie patterns, each characterised by the
      shape of the history around the tie, in both directions
      ([ties_after_sequence_iff], [ties_before_reversal_iff]); the
      sequence length reported is 2 or 3 whatever the run before the
      tie ([tie_sequence_length_capped]).
    - [Scoring]: both loops are sums over the matching rules
      ([scorers_sum]); the scores are at most 100; the level read from
      the running total is the level of the clamped score; appending
      patterns never lowers a level.
    - [Format]: rounding moves a number by at most one half, takes a
      number half-way between two integers to the even one, is monotone,
      fixes the integers and respects the equality of rationals; the
      text of a number always reads back, as the tenth nearest to the
      number and in a tie the even one ([fmt1_read]), so two numbers
      with the same text are within one tenth of each other.
    - [Floats]: every comparison of a float that decides a branch takes
      on binary64 the branch of the rational model
      ([float_comparisons_exact]); the text of the confidence of a
      frequency bet is the text of the exact confidence
      ([confidence_text_exact]), as are those of the two other bets.
    - [Predict]: [make_prediction] returns exactly what the decision
      chain [chooses] allows ([make_prediction_refines]); the early
      returns; no [KeyError] on patterns that carry the keys of their
      type ([make_prediction_total]); the frequency bet
      with its tie-break and the bounds of its confidence, which is 75
      for every dominant share of three quarters and more
      ([frequency_confidence_saturates]); the
      continuation of a cycle, which does not depend on its scan loop;
      every recommendation is well formed ([make_prediction_wf], by
      cases on the decision chain); equivalent pattern lists get
      equivalent recommendations ([make_prediction_proper]).
    - [Pipeline]: every detector is silent below its threshold and
      reports well-formed patterns (through the interface [Detector]);
      [analyze] in closed form, the patterns, the two assessments and
      the stop, the wait or the frequency bet ([analyze_closed_form]),
      so it never raises; its result is well formed in every part
      ([analyze_typed]); with twelve or more non-tie outcomes the
      recommendation never names a colour ([analyze_no_bet_from_12]);
      when a colour is named it is the frequency bet on a history with
      fewer than twelve non-tie outcomes ([analyze_bet]); the
      compensation and cycle branches of [make_prediction] cannot be
      reached from [analyze] ([analyze_never_compensation_or_cycle]);
      a critical risk comes with a critical manipulation, so the risk
      assessment never changes the recommendation
      ([risk_never_decides]).
    - [Page]: a run of [main] in closed form, the history the buttons
      leave and the page of that history ([main_closed_form]), so no run
      raises; on an empty
      history it creates the widgets and writes the hint only; from
      twelve non-tie outcomes on it ends with the line that no prediction
      is available ([main_no_prediction_from_12]); a bet on the page is
      the frequency bet with the confidence as the program formats the
      float ([main_bet]); a rerun without interaction repeats the page,
      and undo after an entry brings the previous page back
      ([main_undo]).
    - [App]: the loop serves for ever, showing after every interaction
      the page of the history, never raising and stopping only when the
      user leaves ([app_serves]); two trees that serve are the same
      process up to silent steps ([serves_unique]); every tree that
      serves, run against a list of interactions, shows the pages of the
      successive histories ([serves_trace]), hence so does the
      application ([app_trace]).

    [wf_pattern] asks of a pattern a strength in [0,1], a predictability
    of at least 60 and the payload of its type.  No upper bound on the
    predictability holds: a hidden cycle seen [n] times has 70 + 5n.

    ** Bounds and fuel

    No definition uses fuel.  Every loop of the source runs over a list
    built before the loop starts ([range], the tie positions, the
    patterns), so each is a [map], a [filter], a fold or a structural
    [Fixpoint], and the theorems hold for histories of any length.  The
    numbers are unbounded, as Python's integers are.  The loop of reruns
    does not end by itself; it is [ITree.iter], and its theorems are a
    coinductive invariant and, for every finite list of interactions, the
    result of the run.

    The theorems on floats are proved by evaluation over finite ranges:
    counts up to 3 and 5 and imbalances up to the window for the
    comparisons, and all counts over totals below 80 for the text of the
    confidence.  The page bets only below twelve non-tie outcomes, so 80
    is more than it needs; it is also the first total at which the text
    of the float and the text of the exact value differ
    ([Floats.confidence_text_80]).

    ** Not modelled

    - Streamlit itself: the layout and styling of the widgets, the
      storage of the session state between runs and the transport to the
      browser.  The model has the calls the script makes and the values
      the buttons return.
    - The binary64 values of the strengths and predictabilities stored
      in the patterns: they are exact rationals in the model, and the
      program only compares them (which [Floats] covers) and never shows
      them.
    - The text of a confidence on histories of 80 and more non-tie
      outcomes for [make_prediction] called outside [main]: there the
      model's text is that of the exact value, which can differ from the
      program's in the last digit.
    - The parsing of text typed by a user: the page has no text input,
      and the readers of this development ([Format.read1],
      [Host.parse_display]) are specification vocabulary, not code of
      the program. *)

From Stdlib Require Import QArith Qminmax Lqa DecimalString DecimalNat.
From stdpp Require Import numbers base decidable list strings.

(** * Python idioms *)

Declare Scope py_scope.
Delimit Scope py_scope with py.

(** The exception indexing a dictionary can raise, as a value. *)
Inductive exn : Type :=
| KeyError (key : string).

Inductive result (A : Type) : Type :=
| Ok (a : A)
| Raise (e : exn).
Arguments Ok {A} a.
Arguments Raise {A} e.

(** Two results that agree: related values, or the same exception. *)
Inductive result_rel {A : Type} (R : relation A) : relation (result A) :=
| Ok_rel a b : R a b -> result_rel R (Ok a) (Ok b)
| Raise_rel e : result_rel R (Raise e) (Raise e).

Definition bind {A B : Type} (r : result A) (k : A -> result B) : result B :=
  match r with
  | Ok a => k a
  | Raise e => Raise e
  end.

Notation "x <- r ;; k" := (bind r (fun x => k))
  (at level 100, r at next level, right associativity) : py_scope.

(** [d[key]] on a dictionary whose key may be absent. *)
Definition getitem {A : Type} (key : string) (o : option A) : result A :=
  match o with
  | Some a => Ok a
  | None => Raise (KeyError key)
  end.

(** [l[-n:]] for [n > 0]. *)
Definition lastn {A : Type} (n : nat) (l : list A) : list A :=
  drop (length l - n) l.

(** [l[i:j]] for non-negative [i] and [j]. *)
Definition slice {A : Type} (i j : nat) (l : list A) : list A :=
  take (j - i) (drop i l).

(** [l[-k]] for [k > 0]: the [k]-th element from the end. *)
Definition neg_index {A : Type} (l : list A) (k : nat) : option A :=
  if decide (1 <= k <= length l) then l !! (length l - k) else None.

(** [range(a, b)]. *)
Definition range (a b : nat) : list nat := seq a (b - a).

(** [range(a, b, step)] for [step > 0]. *)
Definition range_step (a b step : nat) : list nat :=
  map (fun k => a + k * step) (seq 0 ((b - a + step - 1) / step)).

(** [l.count(x)]. *)
Definition count {A : Type} `{EqDecision A} (x : A) (l : list A) : nat :=
  length (filter (eq x) l).

(** [abs(a - b)] on non-negative integers. *)
Definition abs_diff (a b : nat) : nat := (a - b) + (b - a).

(** [a / b] on non-negative integers with [b > 0]. *)
Definition ratio (a b : nat) : Q := Z.of_nat a # Pos.of_nat b.

(** An integer where a number is expected. *)
Definition Qnat (n : nat) : Q := inject_Z (Z.of_nat n).

(** Comparisons of numbers, as the booleans Python computes. *)
Definition Qgeb (x y : Q) : bool := Qle_bool y x.
Definition Qltb (x y : Q) : bool := negb (Qle_bool y x).
Definition Qgtb (x y : Q) : bool := negb (Qle_bool x y).

Notation "x >=? y" := (Qgeb x y) (at level 70, no associativity) : py_scope.
Notation "x <? y" := (Qltb x y) (at level 70, no associativity) : py_scope.
Notation "x >? y" := (Qgtb x y) (at level 70, no associativity) : py_scope.

(** [{n}] inside an f-string. *)
Definition fmt_nat (n : nat) : string :=
  NilEmpty.string_of_uint (Nat.to_uint n).

(** The double-quote character, for f-strings that contain it. *)
Definition dquote : string := String (Ascii.ascii_of_nat 34) EmptyString.

(** ** [collections.Counter] over a list, in first-insertion order *)

Section Counter.
Context {K : Type} `{EqDecision K}.

Fixpoint incr (k : K) (c : list (K * nat)) : list (K * nat) :=
  match c with
  | [] => [(k, 1)]
  | (k', n) :: c' =>
      if decide (k = k') then (k', S n) :: c' else (k', n) :: incr k c'
  end.

Definition Counter (l : list K) : list (K * nat) :=
  fold_left (fun c k => incr k c) l [].

Fixpoint get (c : list (K * nat)) (k : K) : nat :=
  match c with
  | [] => 0
  | (k', n) :: c' => if decide (k = k') then n else get c' k
  end.

End Counter.

(** ** [max(iterable, key=...)]: the first element with the largest key *)

Section Max.
Context {A : Type} (key : A -> nat).

Fixpoint max_from (best : A) (l : list A) : A :=
  match l with
  | [] => best
  | x :: l' => max_from (if decide (key best < key x) then x else best) l'
  end.

Definition py_max (l : list A) : option A :=
  match l with
  | [] => None
  | x :: l' => Some (max_from x l')
  end.

(** Specification of [py_max]: [m] occurs in [l], everything before that
    occurrence has a smaller key and nothing after it has a larger one. *)
Definition first_max (m : A) (l : list A) : Prop :=
  exists l1 l2, l = l1 ++ m :: l2
    /\ Forall (fun y => key y < key m) l1
    /\ Forall (fun y => key y <= key m) l2.

End Max.

(** [next((x for x in l if P(x)), None)] is [head (filter P l)]; what it
    finds: the first element of [l] that satisfies [P]. *)
Definition first_such {A : Type} (P : A -> Prop) (l : list A) (x : A) : Prop :=
  exists l1 l2, l = l1 ++ x :: l2 /\ P x /\ Forall (fun y => ~ P y) l1.

(** [Counter.most_common(1)], as a list of at most one item. *)
Definition most_common1 {K : Type} (c : list (K * nat)) : option (K * nat) :=
  py_max snd c.

(** * Tactics and hints *)

Create HintDb casino.
Create Rewrite HintDb qcmp.

(** Turns the boolean comparisons of rationals in the goal and the
    hypotheses into propositions, with the rewrite rules of [qcmp]. *)
Ltac qprop := autorewrite with qcmp in *.

(** * Lemmas on the Python idioms *)

Section FirstSuch.
Context {A : Type} (P : A -> Prop) `{!forall x, Decision (P x)}.

Lemma head_filter_first (l : list A) (x : A) :
  head (filter P l) = Some x <-> first_such P l x.
Proof.
  induction l as [|y l IH].
  - split; [done|]. by intros ([|??] & ? & ? & _).
  - rewrite filter_cons. destruct (decide (P y)) as [Hy|Hy]; simpl.
    + split.
      * intros [= ->]. by exists [], l.
      * intros ([|z l1] & l2 & Heq & HP & Hno); simplify_eq/=; [done|].
        by apply Forall_cons in Hno as [? _].
    + rewrite IH. split.
      * intros (l1 & l2 & -> & HP & Hno). exists (y :: l1), l2.
        split_and!; [done..|by constructor].
      * intros ([|z l1] & l2 & Heq & HP & Hno); simplify_eq/=; [done|].
        apply Forall_cons in Hno as [_ Hno]. by exists l1, l2.
Qed.

Lemma head_filter_Forall2 (R : relation A) (l k : list A) :
  (forall x y, R x y -> P x <-> P y) -> Forall2 R l k ->
  option_Forall2 R (head (filter P l)) (head (filter P k)).
Proof.
  intros HP. induction 1 as [|x y l k Hxy _ IH]; [constructor|].
  rewrite !filter_cons. pose proof (HP x y Hxy).
  repeat case_decide; try tauto. by constructor.
Qed.

Lemma head_filter_None (l : list A) :
  head (filter P l) = None <-> Forall (fun y => ~ P y) l.
Proof.
  induction l as [|y l IH]; [by split|].
  rewrite filter_cons, Forall_cons. destruct (decide (P y)); simpl; [|tauto].
  split; [done|tauto].
Qed.

Lemma first_such_unique l x y : first_such P l x -> first_such P l y -> x = y.
Proof. rewrite <- !head_filter_first. congruence. Qed.

Lemma first_such_not_none l x : first_such P l x -> ~ Forall (fun y => ~ P y) l.
Proof. rewrite <- head_filter_first, <- head_filter_None. congruence. Qed.
End FirstSuch.

Section Lists.
Context {A : Type}.
Implicit Types l : list A.

Lemma nil_or_elem (l : list A) : l = [] \/ exists x, x ∈ l.
Proof. destruct l as [|x l]; [by left|right]. exists x. left. Qed.

Lemma length_lastn n l : length (lastn n l) = n `min` length l.
Proof. unfold lastn. rewrite length_drop. lia. Qed.

Lemma lastn_ge n l : length l <= n -> lastn n l = l.
Proof. intros H. unfold lastn. by replace (length l - n) with 0 by lia. Qed.

Lemma lastn_app n l1 l2 : length l2 = n -> lastn n (l1 ++ l2) = l2.
Proof.
  intros <-. unfold lastn. rewrite length_app.
  replace (length l1 + length l2 - length l2) with (length l1) by lia.
  by rewrite drop_app_length.
Qed.

Lemma lastn_split n l : n <= length l ->
  exists l1 l2, l = l1 ++ l2 /\ length l2 = n /\ lastn n l = l2.
Proof.
  intros H. exists (take (length l - n) l), (lastn n l).
  unfold lastn. rewrite take_drop, length_drop. split_and!; [done|lia|done].
Qed.

Lemma lastn_app_ge n l1 l2 : n <= length l2 -> lastn n (l1 ++ l2) = lastn n l2.
Proof.
  intros H. unfold lastn. rewrite length_app, drop_app.
  rewrite drop_ge by lia. simpl. f_equal. lia.
Qed.

Lemma lastn_Forall (P : A -> Prop) n l : Forall P l -> Forall P (lastn n l).
Proof. unfold lastn. apply Forall_drop. Qed.

Lemma elem_of_lastn n l x : x ∈ lastn n l -> x ∈ l.
Proof. unfold lastn. apply subseteq_drop. Qed.

Lemma filter_ext_in (P Q : A -> Prop)
    `{!forall x, Decision (P x)} `{!forall x, Decision (Q x)} l :
  (forall x, x ∈ l -> P x <-> Q x) -> filter P l = filter Q l.
Proof.
  induction l as [|a l IH]; intros Hl; [done|].
  rewrite !filter_cons, IH by (intros; apply Hl; by right).
  pose proof (Hl a (list_elem_of_here a l)).
  destruct (decide (P a)), (decide (Q a)); tauto.
Qed.

Lemma filter_app_cons_inv (P : A -> Prop) `{!forall x, Decision (P x)}
    (l r1 r2 : list A) (x : A) :
  filter P l = r1 ++ x :: r2 ->
  exists l1 l2, l = l1 ++ x :: l2 /\ filter P l1 = r1 /\ filter P l2 = r2.
Proof.
  revert r1. induction l as [|a l IH]; intros r1 Hf; [by destruct r1|].
  rewrite filter_cons in Hf. destruct (decide (P a)) as [Ha|Ha].
  - destruct r1 as [|b r1]; injection Hf as -> Hf.
    + by exists [], l.
    + destruct (IH r1 Hf) as (l1 & l2 & -> & <- & <-).
      exists (b :: l1), l2. by rewrite filter_cons_True.
  - destruct (IH r1 Hf) as (l1 & l2 & -> & <- & <-).
    exists (a :: l1), l2. by rewrite filter_cons_False.
Qed.

Lemma head_filter_Some (P : A -> Prop) `{!forall x, Decision (P x)} l x :
  head (filter P l) = Some x -> x ∈ l /\ P x.
Proof.
  induction l as [|y l IH]; [done|]. rewrite filter_cons. case_decide; simpl.
  - intros [= ->]. split; [left|done].
  - intros [??]%IH. split; [by right|done].
Qed.

Lemma length_slice i j l : length (slice i j l) = (j - i) `min` (length l - i).
Proof. unfold slice. by rewrite length_take, length_drop. Qed.

Lemma slice_length_exact i n l :
  i + n <= length l -> length (slice i (i + n) l) = n.
Proof. intros H. rewrite length_slice. lia. Qed.

Lemma elem_of_slice i j l x : x ∈ slice i j l -> x ∈ l.
Proof. unfold slice. intros H%subseteq_take. by apply subseteq_drop in H. Qed.

Lemma slice_app_middle l1 mid l2 i j :
  i = length l1 -> j = length l1 + length mid ->
  slice i j (l1 ++ mid ++ l2) = mid.
Proof.
  intros -> ->. unfold slice. rewrite drop_app_length.
  replace (length l1 + length mid - length l1) with (length mid) by lia.
  by rewrite take_app_length.
Qed.

Lemma slice_lookup i j l k :
  slice i j l !! k = if decide (k < j - i) then l !! (i + k) else None.
Proof.
  unfold slice. case_decide.
  - by rewrite lookup_take_lt, lookup_drop by lia.
  - by rewrite lookup_take_ge by lia.
Qed.

Lemma neg_index_Some l k x :
  neg_index l k = Some x -> 1 <= k <= length l /\ l !! (length l - k) = Some x.
Proof. unfold neg_index. by case_decide. Qed.

Lemma neg_index_1_app l x : neg_index (l ++ [x]) 1 = Some x.
Proof.
  unfold neg_index. rewrite length_app; simpl.
  rewrite decide_True by lia.
  rewrite lookup_app_r by lia.
  by replace (length l + 1 - 1 - length l) with 0 by lia.
Qed.

End Lists.

Lemma count_pos {A : Type} `{EqDecision A} (x : A) (l : list A) :
  x ∈ l <-> 0 < count x l.
Proof.
  unfold count. induction l as [|y l IH]; simpl.
  - split; [by intros ?%elem_of_nil|lia].
  - rewrite filter_cons, elem_of_cons, IH.
    case_decide; simpl; [split; [lia|auto]|].
    split; [intros [?|?]; [congruence|done]|auto].
Qed.

Lemma count_cons {A} `{EqDecision A} (x y : A) l :
  count x (y :: l) = (if decide (x = y) then 1 else 0) + count x l.
Proof. unfold count. rewrite filter_cons. by case_decide. Qed.

Lemma count_le_length {A} `{EqDecision A} (x : A) l : count x l <= length l.
Proof. apply length_filter. Qed.

Lemma count_replicate {A} `{EqDecision A} (x : A) n : count x (replicate n x) = n.
Proof.
  unfold count. induction n as [|n IH]; [done|]. simpl.
  rewrite filter_cons_True by done. simpl. by f_equal.
Qed.

Lemma range_lookup a b i : range a b !! i = if decide (i < b - a) then Some (a + i) else None.
Proof.
  unfold range. case_decide.
  - by apply lookup_seq_lt.
  - by apply lookup_seq_ge; lia.
Qed.

Lemma length_range a b : length (range a b) = b - a.
Proof. apply length_seq. Qed.

Lemma elem_of_range a b i : i ∈ range a b <-> a <= i < b.
Proof. unfold range. rewrite elem_of_seq. lia. Qed.

(** ** Numbers *)

Lemma Zpos_of_nat (b : nat) : 0 < b -> Z.pos (Pos.of_nat b) = Z.of_nat b.
Proof.
  intros H. destruct b; [lia|].
  by rewrite <- Pos.of_nat_succ, Zpos_P_of_succ_nat, Nat2Z.inj_succ.
Qed.

Lemma Qgeb_true (x y : Q) : Qgeb x y = true <-> (y <= x)%Q.
Proof. apply Qle_bool_iff. Qed.

Lemma Qgeb_false (x y : Q) : Qgeb x y = false <-> (x < y)%Q.
Proof.
  unfold Qgeb. rewrite <- not_true_iff_false, Qle_bool_iff.
  split; [apply Qnot_le_lt | apply Qlt_not_le].
Qed.

Lemma Qltb_true (x y : Q) : Qltb x y = true <-> (x < y)%Q.
Proof. unfold Qltb. rewrite negb_true_iff. apply Qgeb_false. Qed.

Lemma Qltb_false (x y : Q) : Qltb x y = false <-> (y <= x)%Q.
Proof. unfold Qltb. rewrite negb_false_iff. apply Qle_bool_iff. Qed.

Lemma Qgtb_true (x y : Q) : Qgtb x y = true <-> (y < x)%Q.
Proof. apply Qltb_true. Qed.

Lemma Qgtb_false (x y : Q) : Qgtb x y = false <-> (x <= y)%Q.
Proof. apply Qltb_false. Qed.

(** Comparing a quotient of two integers with a constant is comparing
    integers. *)
Section Ratio.
Context (a b : nat) (n : Z) (d : positive) (Hb : 0 < b).

Lemma ratio_le : (ratio a b <= n # d)%Q <-> (Z.of_nat a * Z.pos d <= n * Z.of_nat b)%Z.
Proof using Hb. unfold ratio, Qle; simpl. by rewrite Zpos_of_nat. Qed.

Lemma ratio_ge : (n # d <= ratio a b)%Q <-> (n * Z.of_nat b <= Z.of_nat a * Z.pos d)%Z.
Proof using Hb. unfold ratio, Qle; simpl. by rewrite Zpos_of_nat. Qed.

Lemma ratio_lt : (ratio a b < n # d)%Q <-> (Z.of_nat a * Z.pos d < n * Z.of_nat b)%Z.
Proof using Hb. unfold ratio, Qlt; simpl. by rewrite Zpos_of_nat. Qed.

Lemma ratio_gt : (n # d < ratio a b)%Q <-> (n * Z.of_nat b < Z.of_nat a * Z.pos d)%Z.
Proof using Hb. unfold ratio, Qlt; simpl. by rewrite Zpos_of_nat. Qed.

End Ratio.

Lemma ratio_unit (a b : nat) : 0 < b -> a <= b -> (0 <= ratio a b <= 1)%Q.
Proof.
  intros Hb Hab.
  split; [apply (ratio_ge a b 0 1) | apply (ratio_le a b 1 1)]; lia.
Qed.

(** The boolean tests on a quotient decide the integer inequalities. *)
Lemma ratio_ltb (a b : nat) (k : Z) (d : positive) :
  0 < b -> (ratio a b <? k # d)%py = bool_decide (Z.of_nat a * Z.pos d < k * Z.of_nat b)%Z.
Proof.
  intros Hb. destruct (ratio a b <? k # d)%py eqn:H; symmetry.
  - apply bool_decide_eq_true. apply Qltb_true in H. by apply ratio_lt in H.
  - apply bool_decide_eq_false. apply Qltb_false in H. apply ratio_ge in H; [lia|done].
Qed.

Lemma ratio_gtb (a b : nat) (k : Z) (d : positive) :
  0 < b -> (ratio a b >? k # d)%py = bool_decide (k * Z.of_nat b < Z.of_nat a * Z.pos d)%Z.
Proof.
  intros Hb. destruct (ratio a b >? k # d)%py eqn:H; symmetry.
  - apply bool_decide_eq_true. apply Qgtb_true in H. by apply ratio_gt in H.
  - apply bool_decide_eq_false. apply Qgtb_false in H. apply ratio_le in H; [lia|done].
Qed.

Lemma Qnat_le (m n : nat) : (Qnat m <= Qnat n)%Q <-> m <= n.
Proof. unfold Qnat. rewrite <- Zle_Qle. lia. Qed.

Lemma Qnat_lt (m n : nat) : (Qnat m < Qnat n)%Q <-> m < n.
Proof. unfold Qnat. rewrite <- Zlt_Qlt. lia. Qed.

(** The comparisons do not see how a rational is written. *)
#[export] Instance Qgeb_proper : Proper (Qeq ==> Qeq ==> eq) Qgeb.
Proof. intros x x' Hx y y' Hy. unfold Qgeb. by rewrite Hx, Hy. Qed.

#[export] Hint Rewrite Qgeb_true Qgeb_false Qltb_true Qltb_false
  Qgtb_true Qgtb_false : qcmp.

(** ** [Counter] *)

Lemma sum_list_le_length (ns : list nat) : Forall (fun n => n <= 1) ns -> sum_list ns <= length ns.
Proof. induction 1; simpl; lia. Qed.

Section CounterFacts.
Context {K : Type} `{EqDecision K}.
Implicit Types (k : K) (c : list (K * nat)) (l : list K).

Lemma get_incr k k' c : get (incr k c) k' = if decide (k' = k) then S (get c k') else get c k'.
Proof.
  induction c as [|[k0 n] c IH]; simpl.
  - repeat case_decide; done.
  - repeat (case_decide; simpl; subst); try done; rewrite IH; repeat case_decide; done.
Qed.

Lemma incr_keys k c : (incr k c).*1 = if decide (k ∈ c.*1) then c.*1 else c.*1 ++ [k].
Proof.
  induction c as [|[k0 n] c IH]; [done|].
  cbn [incr fmap list_fmap fst]. destruct (decide (k = k0)) as [->|Hne]; cbn [fmap list_fmap fst].
  - rewrite decide_True; [done|]. by left.
  - rewrite IH. destruct (decide (k ∈ c.*1)).
    + rewrite decide_True; [done|]. by right.
    + rewrite decide_False; [done|]. by intros [?|?]%elem_of_cons.
Qed.

Lemma Counter_snoc l k : Counter (l ++ [k]) = incr k (Counter l).
Proof. unfold Counter. by rewrite fold_left_app. Qed.

Lemma get_Counter l k : get (Counter l) k = count k l.
Proof.
  induction l as [|x l IH] using rev_ind; [done|].
  rewrite Counter_snoc, get_incr, IH. unfold count. rewrite filter_app, length_app.
  rewrite filter_cons, filter_nil. repeat case_decide; simpl; try done; try lia; congruence.
Qed.

Lemma Counter_keys_elem l k : k ∈ (Counter l).*1 <-> k ∈ l.
Proof.
  induction l as [|x l IH] using rev_ind; [done|].
  rewrite Counter_snoc, incr_keys. case_decide; rewrite ?elem_of_app, ?list_elem_of_singleton, IH.
  - split; [tauto|]. intros [?| ->]; [done|]. by apply IH.
  - done.
Qed.

Lemma Counter_keys_NoDup l : NoDup (Counter l).*1.
Proof.
  induction l as [|x l IH] using rev_ind; [constructor|].
  rewrite Counter_snoc, incr_keys. case_decide; [done|].
  apply NoDup_app. split_and!; [done| |apply NoDup_singleton].
  intros y Hy ->%list_elem_of_singleton. done.
Qed.

Lemma get_lookup c k n : NoDup c.*1 -> (k, n) ∈ c -> get c k = n.
Proof.
  induction c as [|[k0 n0] c IH]; simpl; [by intros _ ?%elem_of_nil|].
  intros [Hk0 Hnd]%NoDup_cons [Heq|Hin]%elem_of_cons.
  - simplify_eq. by rewrite decide_True.
  - case_decide; [|by apply IH]. subst. exfalso. apply Hk0.
    apply list_elem_of_fmap. by exists (k0, n).
Qed.

Lemma elem_of_Counter l k n : (k, n) ∈ Counter l <-> k ∈ l /\ n = count k l.
Proof.
  split.
  - intros Hin. split.
    + apply Counter_keys_elem, list_elem_of_fmap. by exists (k, n).
    + rewrite <- get_Counter. symmetry. apply get_lookup; [apply Counter_keys_NoDup|done].
  - intros [Hk ->]. apply Counter_keys_elem, list_elem_of_fmap in Hk as ([k' n] & -> & Hin).
    simpl. rewrite <- get_Counter. by rewrite (get_lookup _ _ _ (Counter_keys_NoDup l) Hin).
Qed.

Lemma sum_incr k c : sum_list (incr k c).*2 = S (sum_list c.*2).
Proof.
  induction c as [|[k0 n] c IH]; [done|].
  cbn [incr]. case_decide; rewrite !fmap_cons; simpl; rewrite ?IH; lia.
Qed.

Lemma Counter_total l : sum_list (Counter l).*2 = length l.
Proof.
  induction l as [|x l IH] using rev_ind; [done|].
  rewrite Counter_snoc, sum_incr, IH, length_app. simpl. lia.
Qed.

Lemma Counter_positive l k n : (k, n) ∈ Counter l -> 1 <= n.
Proof.
  intros [Hk ->]%elem_of_Counter. unfold count.
  apply list_elem_of_split in Hk as (l1 & l2 & ->).
  rewrite filter_app, filter_cons, decide_True, length_app by done. simpl. lia.
Qed.

Lemma Counter_pigeonhole l (dom : list K) :
  (forall k, k ∈ l -> k ∈ dom) -> length dom < length l ->
  Exists (fun x => 2 <= x.2) (Counter l).
Proof.
  intros Hdom Hlen.
  destruct (decide (Exists (fun x : K * nat => 2 <= x.2) (Counter l))) as [|Hno]; [done|exfalso].
  apply not_Exists_Forall in Hno; [|intros; apply _].
  assert (sum_list (Counter l).*2 <= length (Counter l).*2) as Hsum.
  { apply sum_list_le_length, Forall_fmap. eapply Forall_impl; [done|]. simpl. lia. }
  assert (length (Counter l).*1 <= length dom) as Hkeys.
  { apply submseteq_length, NoDup_submseteq; [apply Counter_keys_NoDup|].
    intros k Hk. apply Hdom. by apply Counter_keys_elem. }
  rewrite Counter_total, !length_fmap in *. lia.
Qed.

Lemma Counter_keys l : (Counter l).*1 = reverse (remove_dups (reverse l)).
Proof.
  induction l as [|x l IH] using rev_ind; [done|].
  rewrite Counter_snoc, incr_keys, reverse_snoc, IH. simpl.
  repeat case_decide; rewrite ?reverse_cons; try done;
    exfalso; repeat (rewrite elem_of_reverse in * || rewrite elem_of_remove_dups in * ); done.
Qed.
Lemma Counter_head (x : K) l : exists n c, Counter (x :: l) = (x, n) :: c.
Proof.
  induction l as [|y l IH] using rev_ind; [by exists 1, []|].
  destruct IH as (n & c & IH). rewrite app_comm_cons, Counter_snoc, IH. simpl.
  case_decide; eauto.
Qed.

Lemma Counter_keys_first_seen l (K1 K2 : list K) k :
  (Counter l).*1 = K1 ++ k :: K2 ->
  exists pre post, l = pre ++ k :: post /\ (k ∉ pre) /\ forall k', k' ∈ pre -> k' ∈ K1.
Proof.
  revert K2. induction l as [|x l IH] using rev_ind; intros K2 Hk; [by destruct K1|].
  rewrite Counter_snoc, incr_keys in Hk. destruct (decide (x ∈ _)) as [Hx|Hx].
  - destruct (IH K2 Hk) as (pre & post & -> & ? & ?).
    exists pre, (post ++ [x]). by rewrite <- app_assoc.
  - destruct K2 as [|y K2 _] using rev_ind.
    + apply app_inj_tail in Hk as [Hk ->]. exists l, []. split_and!; [done| |].
      * by rewrite <- Counter_keys_elem.
      * intros k' Hk'. rewrite <- Hk. by apply Counter_keys_elem.
    + rewrite app_comm_cons, app_assoc in Hk. apply app_inj_tail in Hk as [Hk ->].
      destruct (IH K2 Hk) as (pre & post & -> & ? & ?).
      exists pre, (post ++ [y]). by rewrite <- app_assoc.
Qed.

(** The entries of a [Counter] come in the order of first occurrence. *)
Lemma Counter_first_seen l c1 c2 k n :
  Counter l = c1 ++ (k, n) :: c2 ->
  exists pre post, l = pre ++ k :: post /\ (k ∉ pre)
    /\ forall k', k' ∈ pre -> exists m, (k', m) ∈ c1.
Proof.
  intros Hc. destruct (Counter_keys_first_seen l c1.*1 c2.*1 k) as (pre & post & ? & ? & Hpre).
  { by rewrite Hc, fmap_app. }
  exists pre, post. split_and!; [done..|]. intros k' Hk'.
  apply Hpre, list_elem_of_fmap in Hk' as ([k'' m] & -> & ?). by exists m.
Qed.

End CounterFacts.

(** ** [py_max] *)

Section MaxFacts.
Context {A : Type} (key : A -> nat).
Implicit Types (x best m : A) (l : list A).

Lemma first_max_cons_lt best x m l :
  key best < key x -> first_max key m (x :: l) -> first_max key m (best :: x :: l).
Proof.
  intros Hlt (l1 & l2 & Heq & H1 & H2). exists (best :: l1), l2.
  split_and!; [by rewrite Heq| |done]. constructor; [|done].
  destruct l1 as [|y l1]; simplify_eq/=; [done|].
  apply Forall_cons in H1 as [??]. lia.
Qed.

Lemma first_max_cons_ge best x m l :
  key x <= key best -> first_max key m (best :: l) -> first_max key m (best :: x :: l).
Proof.
  intros Hle (l1 & l2 & Heq & H1 & H2).
  destruct l1 as [|y l1]; simplify_eq/=.
  - exists [], (x :: l2). split_and!; [done|done|]. by constructor.
  - exists (y :: x :: l1), l2. split_and!; [done| |done].
    apply Forall_cons in H1 as [??]. repeat constructor; try done. lia.
Qed.

Lemma max_from_first_max best l : first_max key (max_from key best l) (best :: l).
Proof.
  revert best. induction l as [|x l IH]; intros best; simpl.
  - exists [], []. by split_and!.
  - case_decide.
    + by apply first_max_cons_lt.
    + apply first_max_cons_ge; [lia|done].
Qed.

Lemma py_max_first_max l m : py_max key l = Some m -> first_max key m l.
Proof. destruct l; [done|]. intros [= <-]. apply max_from_first_max. Qed.

Lemma py_max_None l : py_max key l = None <-> l = [].
Proof. by destruct l. Qed.

Lemma first_max_elem m l : first_max key m l -> m ∈ l.
Proof. intros (l1 & l2 & -> & _). apply elem_of_app. right. by left. Qed.

Lemma first_max_ge m l y : first_max key m l -> y ∈ l -> key y <= key m.
Proof.
  intros (l1 & l2 & -> & H1 & H2) [Hy|[->|Hy]%elem_of_cons]%elem_of_app.
  - rewrite Forall_forall in H1. specialize (H1 _ Hy). lia.
  - done.
  - rewrite Forall_forall in H2. by apply H2.
Qed.

Lemma first_max_unique m1 m2 l : first_max key m1 l -> first_max key m2 l -> m1 = m2.
Proof.
  intros F1 F2.
  pose proof (first_max_ge _ _ _ F2 (first_max_elem _ _ F1)) as Hm1.
  pose proof (first_max_ge _ _ _ F1 (first_max_elem _ _ F2)) as Hm2.
  destruct F1 as (l1 & l2 & -> & H1 & _), F2 as (l1' & l2' & Heq & H1' & _).
  rewrite Forall_lookup in H1, H1'.
  destruct (Nat.lt_trichotomy (length l1) (length l1')) as [Hlt|[Hlen|Hlt]].
  - assert (l1' !! length l1 = Some m1) as Hin.
    { rewrite <- (lookup_app_l _ (m2 :: l2')), <- Heq by lia. apply list_lookup_middle; done. }
    specialize (H1' _ _ Hin). simpl in H1'. lia.
  - apply app_inj_1 in Heq as [_ ?]; [by simplify_eq|done].
  - assert (l1 !! length l1' = Some m2) as Hin.
    { rewrite <- (lookup_app_l _ (m1 :: l2)), Heq by lia. apply list_lookup_middle; done. }
    specialize (H1 _ _ Hin). simpl in H1. lia.
Qed.

Lemma first_max_head m x l :
  first_max key m (x :: l) -> key m <= key x -> m = x.
Proof.
  intros (l1 & l2 & Heq & H1 & _) Hle. destruct l1 as [|y l1]; simplify_eq/=; [done|].
  apply Forall_cons in H1 as [??]. lia.
Qed.

End MaxFacts.

(** ** [most_common(1)] *)

Section MostCommon.
Context {K : Type} `{EqDecision K}.
Implicit Types (k : K) (l : list K).

(** The most common element is one with the largest number of
    occurrences. *)
Lemma most_common1_spec l k n :
  most_common1 (Counter l) = Some (k, n) ->
  k ∈ l /\ n = count k l /\ forall k', count k' l <= n.
Proof.
  intros Hm%py_max_first_max.
  pose proof (first_max_elem _ _ _ Hm) as [Hk Hn]%elem_of_Counter. split_and!; [done..|].
  intros k'. destruct (decide (k' ∈ l)) as [Hin|Hnin].
  - apply (first_max_ge snd _ _ (k', count k' l) Hm). by apply elem_of_Counter.
  - destruct (count k' l) eqn:Hc; [lia|]. exfalso. apply Hnin, count_pos. lia.
Qed.

Lemma most_common1_is_Some l :
  l <> [] -> is_Some (most_common1 (Counter l)).
Proof.
  intros Hl. destruct l as [|x l]; [done|]. destruct (Counter_head x l) as (n & c & ->). by eexists.
Qed.

(** Among equally frequent elements the first of the list wins. *)
Lemma most_common1_tie_break (x : K) l k n :
  most_common1 (Counter (x :: l)) = Some (k, n) -> count x (x :: l) = n -> k = x.
Proof.
  intros Hm Hx. pose proof Hm as Hm'%py_max_first_max.
  destruct (Counter_head x l) as (n0 & c & Heq). rewrite Heq in Hm'.
  assert ((x, n0) ∈ Counter (x :: l)) as [_ Hn0]%elem_of_Counter by (rewrite Heq; left).
  apply first_max_head in Hm'; [by simplify_eq|]. simpl. lia.
Qed.

(** The first maximum among the entries counted at least [t] times is
    the key seen first among the most frequent ones: every key that
    occurs before its first occurrence is less frequent. *)
Lemma first_max_Counter_first_seen l (t : nat) k n :
  first_max snd (k, n) (filter (fun x => t <= x.2) (Counter l)) ->
  exists pre post, l = pre ++ k :: post /\ (k ∉ pre)
    /\ forall k', k' ∈ pre -> count k' l < n.
Proof.
  intros Hm. pose proof (first_max_elem _ _ _ Hm) as [Ht _]%list_elem_of_filter.
  destruct Hm as (r1 & r2 & (c1 & c2 & Hc & <- & _)%filter_app_cons_inv & Hlt & _).
  destruct (Counter_first_seen _ _ _ _ _ Hc) as (pre & post & Hl & Hk & Hpre).
  exists pre, post. split_and!; [done..|]. intros k' [m Hin]%Hpre.
  assert ((k', m) ∈ Counter l) as [_ ->]%elem_of_Counter
    by (rewrite Hc, elem_of_app; by left).
  destruct (decide (t <= count k' l)) as [Hge|]; [|simpl in *; lia].
  rewrite Forall_forall in Hlt. apply (Hlt (k', count k' l)).
  by apply list_elem_of_filter.
Qed.

End MostCommon.
