(* ===== verification/Format.v ===== *)
(** * Format: numbers as text

    The format [{x:.1f}] of an f-string: the decimal numeral with one
    digit after the point that is nearest to the number, the tie going
    to the even digit.  The model applies it to the exact rational;
    [Floats] applies it to the binary64 number the program holds and
    shows that the two texts agree.  A reader of the text, [read1], gives
    what the text says of the number: the number to within one
    twentieth. *)

From Stdlib Require Import ZArith QArith Qabs Qround Lqa DecimalString DecimalN Ascii.
From stdpp Require Import numbers base decidable strings.
From S2P Require Import Prelude.

(** The integer nearest to a number, the tie going to the even one. *)
Definition round_half_even (q : Q) : Z :=
  let below := Qfloor q in
  match (q - inject_Z below ?= 1 # 2)%Q with
  | Lt => below
  | Gt => (below + 1)%Z
  | Eq => if Z.even below then below else (below + 1)%Z
  end.

(** The decimal numeral of a natural number of any size. *)
Definition fmt_N (n : N) : string := NilEmpty.string_of_uint (N.to_uint n).

(** A non-negative number of tenths as a numeral with one decimal. *)
Definition fmt_tenths (n : Z) : string :=
  fmt_N (Z.to_N (n / 10)) +:+ "." +:+ fmt_N (Z.to_N (n mod 10)).

(** [f"{x:.1f}"] (line 364) on the exact value. *)
Definition fmt1 (q : Q) : string :=
  (if Qlt_le_dec q 0 then "-" else "")
  +:+ fmt_tenths (round_half_even (Qabs q * 10)).

(** ** Specification vocabulary: the number a text denotes *)

Definition read_N (s : string) : option N :=
  N.of_uint <$> NilEmpty.uint_of_string s.

(** The text before the first point and the text after it. *)
Fixpoint split_point (s : string) : option (string * string) :=
  match s with
  | EmptyString => None
  | String a s' =>
      if Ascii.eqb a "."%char then Some (EmptyString, s')
      else '(whole, tenths) ← split_point s'; Some (String a whole, tenths)
  end.

Definition read_tenths (s : string) : option Z :=
  '(whole, tenths) ← split_point s;
  w ← read_N whole; t ← read_N tenths;
  Some (Z.of_N w * 10 + Z.of_N t)%Z.

Definition read1 (s : string) : option Q :=
  match s with
  | String "-" s' => n ← read_tenths s'; Some (- (n # 10))%Q
  | _ => n ← read_tenths s; Some (n # 10)%Q
  end.

(** * Theorems *)

#[export] Instance round_half_even_proper : Proper (Qeq ==> eq) round_half_even.
Proof.
  intros p q Hpq. unfold round_half_even. cbv zeta.
  rewrite (Qfloor_comp _ _ Hpq).
  by rewrite (Qcompare_comp _ _ (Qminus_comp _ _ Hpq _ _ (reflexivity _)) _ _ (reflexivity _)) by done.
Qed.

#[export] Instance fmt1_proper : Proper (Qeq ==> eq) fmt1.
Proof.
  intros p q Hpq. unfold fmt1.
  assert (round_half_even (Qabs p * 10) = round_half_even (Qabs q * 10)) as ->
    by (by rewrite Hpq).
  destruct (Qlt_le_dec p 0), (Qlt_le_dec q 0); try done; rewrite Hpq in *; lra.
Qed.

(** Rounding moves a number by at most one half. *)
Lemma round_half_even_near (q : Q) :
  (Qabs (q - inject_Z (round_half_even q)) <= 1 # 2)%Q.
Proof.
  unfold round_half_even. cbv zeta.
  pose proof (Qfloor_le q) as Hlo. pose proof (Qlt_floor q) as Hhi.
  rewrite inject_Z_plus in Hhi. apply Qabs_Qle_condition.
  destruct (Qcompare_spec (q - inject_Z (Qfloor q)) (1 # 2)) as [He|Hl|Hg];
    [destruct (Z.even _)|..]; rewrite ?inject_Z_plus;
    change (inject_Z 1) with 1%Q in *; lra.
Qed.

(** A number half-way between two integers is rounded to the even one. *)
Lemma round_half_even_tie (q : Q) :
  (Qabs (q - inject_Z (round_half_even q)) == 1 # 2)%Q ->
  Z.even (round_half_even q) = true.
Proof.
  unfold round_half_even. cbv zeta.
  pose proof (Qfloor_le q) as Hlo. pose proof (Qlt_floor q) as Hhi.
  rewrite inject_Z_plus in Hhi. change (inject_Z 1) with 1%Q in Hhi.
  destruct (Qcompare_spec (q - inject_Z (Qfloor q)) (1 # 2)) as [He|Hl|Hg].
  - intros _. destruct (Z.even (Qfloor q)) eqn:Hev; [done|].
    by rewrite Z.even_add, Hev.
  - intros Htie. rewrite Qabs_pos in Htie by lra. lra.
  - intros Htie. rewrite inject_Z_plus in Htie. change (inject_Z 1) with 1%Q in Htie.
    rewrite Qabs_neg in Htie by lra. lra.
Qed.

(** An integer is its own rounding. *)
Lemma round_half_even_inject_Z (z : Z) : round_half_even (inject_Z z) = z.
Proof.
  unfold round_half_even. cbv zeta. rewrite Qfloor_Z.
  unfold Qminus. by rewrite Qplus_opp_r.
Qed.

(** Rounding is monotone. *)
Lemma round_half_even_mono (p q : Q) :
  (p <= q)%Q -> (round_half_even p <= round_half_even q)%Z.
Proof.
  intros Hpq. pose proof (Qfloor_resp_le _ _ Hpq) as Hfl.
  unfold round_half_even. cbv zeta.
  pose proof (Qfloor_le p). pose proof (Qlt_floor p).
  pose proof (Qfloor_le q). pose proof (Qlt_floor q).
  destruct (Z.eq_dec (Qfloor p) (Qfloor q)) as [He|Hne].
  - rewrite He in *.
    destruct (Qcompare_spec (p - inject_Z (Qfloor q)) (1 # 2)),
      (Qcompare_spec (q - inject_Z (Qfloor q)) (1 # 2));
      try destruct (Z.even _); try lia; exfalso; lra.
  - assert (Qfloor p + 1 <= Qfloor q)%Z by lia.
    destruct (_ ?= _)%Q, (_ ?= _)%Q; repeat destruct (Z.even _); lia.
Qed.

(** ** Reading the text back *)

Lemma read_fmt_N (n : N) : read_N (fmt_N n) = Some n.
Proof.
  unfold read_N, fmt_N. rewrite NilEmpty.usu. simpl.
  by rewrite DecimalN.Unsigned.of_to.
Qed.

Lemma split_point_digits d s :
  split_point (NilEmpty.string_of_uint d +:+ String "." s)
  = Some (NilEmpty.string_of_uint d, s).
Proof.
  induction d; cbn [NilEmpty.string_of_uint]; cbv [String.append]; fold String.append;
    cbn [split_point Ascii.eqb Bool.eqb]; by rewrite ?IHd.
Qed.

Lemma read_fmt_tenths (n : Z) : (0 <= n)%Z -> read_tenths (fmt_tenths n) = Some n.
Proof.
  intros Hn. unfold read_tenths, fmt_tenths, fmt_N at 1.
  change ("." +:+ ?s) with (String "." s). rewrite split_point_digits.
  cbn [mbind option_bind]. fold (fmt_N (Z.to_N (n / 10))).
  rewrite !read_fmt_N. cbn [mbind option_bind].
  f_equal. rewrite !Z2N.id; [|apply Z.mod_pos_bound|apply Z.div_pos]; try lia.
  pose proof (Z.div_mod n 10). lia.
Qed.

Lemma fmt_tenths_not_minus (n : Z) s : fmt_tenths n <> String "-" s.
Proof.
  unfold fmt_tenths, fmt_N.
  destruct (N.to_uint (Z.to_N (n / 10)));
    by cbv [NilEmpty.string_of_uint String.append].
Qed.

Lemma read1_unsigned s (n : Z) :
  (forall s', s <> String "-" s') -> read_tenths s = Some n ->
  read1 s = Some (n # 10)%Q.
Proof.
  intros Hs Hn. unfold read1. rewrite Hn.
  destruct s as [|a s']; [done|].
  destruct (decide (a = "-"%char)) as [->|Hne]; [by destruct (Hs s')|].
  by repeat match goal with |- context [match ?x with _ => _ end] => destruct x end.
Qed.

Lemma round_half_even_nonneg (q : Q) : (0 <= q)%Q -> (0 <= round_half_even q)%Z.
Proof.
  intros Hq. rewrite <- (round_half_even_inject_Z 0).
  by apply round_half_even_mono.
Qed.

(** The text of a number reads as the number of tenths it was rounded
    to, with the sign of the number. *)
Lemma read1_fmt1 (q : Q) :
  let n := round_half_even (Qabs q * 10) in
  read1 (fmt1 q) = Some (if Qlt_le_dec q 0 then - (n # 10) else n # 10)%Q.
Proof.
  intros n. assert (0 <= n)%Z as Hpos.
  { apply round_half_even_nonneg. pose proof (Qabs_nonneg q). lra. }
  unfold fmt1. destruct (Qlt_le_dec q 0).
  - change ("-" +:+ ?s) with (String "-" s). cbn [read1].
    by rewrite read_fmt_tenths.
  - change ("" +:+ ?s) with s.
    by apply read1_unsigned; [apply fmt_tenths_not_minus|apply read_fmt_tenths].
Qed.

(** The distance of [n] tenths, with the sign of a number, from that
    number. *)
Lemma tenths_distance (q : Q) (n : Z) :
  let m := if Qlt_le_dec q 0 then (- n)%Z else n in
  (Qabs ((m # 10) - q) == Qabs (Qabs q * 10 - inject_Z n) * (1 # 10))%Q.
Proof.
  intros m. unfold m.
  assert (forall z : Z, z # 10 == inject_Z z * (1 # 10))%Q as Hq
    by (intros z; unfold Qeq; simpl; lia).
  transitivity (Qabs ((Qabs q * 10 - inject_Z n) * (1 # 10))); [|by rewrite Qabs_Qmult].
  destruct (Qlt_le_dec q 0).
  - rewrite (Qabs_neg q), Hq, inject_Z_opp by lra. apply Qabs_wd. lra.
  - rewrite (Qabs_pos q), Hq by lra. rewrite <- Qabs_opp. apply Qabs_wd. lra.
Qed.

(** The text of a number always reads as a number, and that number is
    within one twentieth of it. *)
Lemma fmt1_near (q : Q) :
  exists r, read1 (fmt1 q) = Some r /\ (Qabs (r - q) <= 1 # 20)%Q.
Proof.
  pose proof (tenths_distance q (round_half_even (Qabs q * 10))) as Hd.
  pose proof (round_half_even_near (Qabs q * 10)) as Hnear.
  eexists. split; [apply read1_fmt1|]. cbv zeta in *.
  destruct (Qlt_le_dec q 0); [change (- (?a # 10))%Q with ((- a)%Z # 10)|];
    rewrite Hd; lra.
Qed.

(** Two numbers with the same text are within one tenth of each other. *)
Corollary fmt1_separates (p q : Q) :
  fmt1 p = fmt1 q -> (Qabs (p - q) <= 1 # 10)%Q.
Proof.
  intros Heq. destruct (fmt1_near p) as (r & Hr & Hp).
  destruct (fmt1_near q) as (r' & Hr' & Hq).
  rewrite Heq, Hr' in Hr. injection Hr as ->.
  apply Qabs_Qle_condition in Hp, Hq. apply Qabs_Qle_condition. lra.
Qed.

(** C32. The format [:.1f] as a round trip: the text of a number always
    reads back, as a number of tenths [m / 10] that is the nearest to
    the number (at most one twentieth away), and, when the number lies
    half-way between two tenths, the even one.  The sign is printed for
    every negative number, so [-0.04] is written [-0.0]. *)
Theorem fmt1_read (q : Q) :
  exists m : Z,
    read1 (fmt1 q) = Some (m # 10)
    /\ (Qabs ((m # 10) - q) <= 1 # 20)%Q
    /\ ((Qabs ((m # 10) - q) == 1 # 20)%Q -> Z.even m = true).
Proof.
  pose proof (read1_fmt1 q) as Hread.
  pose proof (tenths_distance q (round_half_even (Qabs q * 10))) as Hd.
  pose proof (round_half_even_near (Qabs q * 10)) as Hnear.
  pose proof (round_half_even_tie (Qabs q * 10)) as Htie. cbv zeta in *.
  set (n := round_half_even _) in *.
  exists (if Qlt_le_dec q 0 then (- n)%Z else n). split_and!.
  - rewrite Hread. by destruct (Qlt_le_dec q 0).
  - rewrite Hd. lra.
  - rewrite Hd. intros H. assert (Z.even n = true) as Hn by (apply Htie; lra).
    destruct (Qlt_le_dec q 0); [by rewrite Z.even_opp|done].
Qed.

Lemma fmt1_read_witness :
  exists m : Z,
    read1 (fmt1 (1 # 4)) = Some (m # 10)
    /\ (Qabs ((m # 10) - (1 # 4)) <= 1 # 20)%Q
    /\ ((Qabs ((m # 10) - (1 # 4)) == 1 # 20)%Q -> Z.even m = true).
Proof. apply (fmt1_read (1 # 4)). Defined.

(** The half-way cases: a quarter goes down to two tenths, three
    quarters up to eight. *)
Example fmt1_half_way :
  fmt1 (1 # 4) = "0.2" /\ fmt1 (3 # 4) = "0.8" /\ fmt1 (125 # 2) = "62.5"
  /\ fmt1 75 = "75.0" /\ fmt1 (- (1 # 25)) = "-0.0".
Proof. by vm_compute. Qed.
