(* ===== verification/Model.v ===== *)
(** * Model: the data of [CasinoAnalyzer]

    The alphabet of the history, the risk tiers, the pattern dictionaries
    the detectors build and the three result dictionaries, with the
    projections that stand for dictionary keys, the well-formedness
    invariant of patterns and the basic facts about them. *)

From Stdlib Require Import QArith.
From stdpp Require Import base decidable list strings.
From S2P Require Import Prelude.

(** One entry of the history: 'C' (player), 'V' (banker), 'E' (tie). *)
Inductive Outcome : Type := C | V | E.

#[export] Instance Outcome_eq_dec : EqDecision Outcome.
Proof. solve_decision. Defined.

Definition to_str (r : Outcome) : string :=
  match r with
  | C => "C"
  | V => "V"
  | E => "E"
  end.

(** [''.join(w)] for a list of outcomes. *)
Definition join (w : list Outcome) : string :=
  foldr (fun r s => to_str r +:+ s) "" w.

(** [[r for r in self.results if r != 'E']]. *)
Definition non_empate (results : list Outcome) : list Outcome :=
  filter (fun r => r <> E) results.

(** The alphabet that remains once ties are filtered out. *)
Definition is_CV (r : Outcome) : Prop := r = C \/ r = V.

(** The other colour. *)
Definition other (r : Outcome) : Outcome :=
  match r with
  | C => V
  | V => C
  | E => E
  end.

(** The values of 'level' and 'risk'. *)
Inductive Level : Type := low | medium | high | critical.

#[export] Instance Level_eq_dec : EqDecision Level.
Proof. solve_decision. Defined.

(** The values of a pattern's 'type'.  [intentional_break] is tested by
    [assess_risk] although no detector emits it. *)
Inductive PatternType : Type :=
| micro_double_pattern
| micro_alternation
| hidden_cycle
| artificial_balance
| compensation_pending
| strategic_tie_after_sequence
| strategic_tie_before_reversal
| intentional_break.

#[export] Instance PatternType_eq_dec : EqDecision PatternType.
Proof. solve_decision. Defined.

Definition type_name (t : PatternType) : string :=
  match t with
  | micro_double_pattern => "micro_double_pattern"
  | micro_alternation => "micro_alternation"
  | hidden_cycle => "hidden_cycle"
  | artificial_balance => "artificial_balance"
  | compensation_pending => "compensation_pending"
  | strategic_tie_after_sequence => "strategic_tie_after_sequence"
  | strategic_tie_before_reversal => "strategic_tie_before_reversal"
  | intentional_break => "intentional_break"
  end.

(** [t.startswith(prefix)] on the name of a type. *)
Definition startswith (t : PatternType) (prefix : string) : bool :=
  String.prefix prefix (type_name t).

(** The keys of a pattern dictionary that depend on its type. *)
Inductive Extra : Type :=
| NoExtra
| CycleExtra (cycle_size : nat) (pattern : list Outcome) (repetitions : nat)
| BalanceExtra (window_size : nat) (balance : string)
| PendingExtra (window_size : nat) (imbalance : nat) (favored_color : Outcome)
| AfterSequenceExtra (position : nat) (sequence_color : Outcome)
    (sequence_length : nat)
| BeforeReversalExtra (position : nat) (from_color to_color : Outcome).

(** A pattern dictionary: the six keys every detector sets, and the rest. *)
Record Pattern : Type := mkPattern {
  type : PatternType;
  strength : Q;
  risk : Level;
  description : string;
  manipulation : string;
  predictability : Q;
  extra : Extra
}.

(** [p.get(key)] for the keys of [Extra]. *)
Definition cycle_size (p : Pattern) : option nat :=
  match extra p with CycleExtra n _ _ => Some n | _ => None end.

Definition pattern (p : Pattern) : option (list Outcome) :=
  match extra p with CycleExtra _ w _ => Some w | _ => None end.

Definition repetitions (p : Pattern) : option nat :=
  match extra p with CycleExtra _ _ n => Some n | _ => None end.

Definition window_size (p : Pattern) : option nat :=
  match extra p with
  | BalanceExtra n _ | PendingExtra n _ _ => Some n
  | _ => None
  end.

Definition balance (p : Pattern) : option string :=
  match extra p with BalanceExtra _ s => Some s | _ => None end.

Definition imbalance (p : Pattern) : option nat :=
  match extra p with PendingExtra _ n _ => Some n | _ => None end.

Definition favored_color (p : Pattern) : option Outcome :=
  match extra p with PendingExtra _ _ c => Some c | _ => None end.

Definition position (p : Pattern) : option nat :=
  match extra p with
  | AfterSequenceExtra n _ _ | BeforeReversalExtra n _ _ => Some n
  | _ => None
  end.

Definition sequence_color (p : Pattern) : option Outcome :=
  match extra p with AfterSequenceExtra _ c _ => Some c | _ => None end.

Definition sequence_length (p : Pattern) : option nat :=
  match extra p with AfterSequenceExtra _ _ n => Some n | _ => None end.

Definition from_color (p : Pattern) : option Outcome :=
  match extra p with BeforeReversalExtra _ c _ => Some c | _ => None end.

Definition to_color (p : Pattern) : option Outcome :=
  match extra p with BeforeReversalExtra _ _ c => Some c | _ => None end.

(** The dictionary [assess_risk] returns. *)
Record RiskAssessment : Type := mkRisk {
  risk_level : Level;
  risk_score : nat;
  factors : list string
}.

(** The dictionary [detect_manipulation] returns. *)
Record ManipulationAssessment : Type := mkManipulation {
  manipulation_level : Level;
  manipulation_score : nat;
  signs : list string
}.

(** The dictionary [make_prediction] returns; [color] is [None] or a
    character of the history. *)
Record Prediction : Type := mkPrediction {
  color : option Outcome;
  confidence : Q;
  reasoning : string;
  strategy : string
}.

(** ** Well-formed patterns *)

(** The payload a type carries. *)
Definition extra_matches (t : PatternType) (x : Extra) : bool :=
  match t, x with
  | micro_double_pattern, NoExtra
  | micro_alternation, NoExtra
  | intentional_break, NoExtra
  | hidden_cycle, CycleExtra _ _ _
  | artificial_balance, BalanceExtra _ _
  | compensation_pending, PendingExtra _ _ _
  | strategic_tie_after_sequence, AfterSequenceExtra _ _ _
  | strategic_tie_before_reversal, BeforeReversalExtra _ _ _ => true
  | _, _ => false
  end.

(** What every detector guarantees of a pattern it emits: the strength
    is in [0,1], the predictability is at least 60, and the payload is
    the one of the type. *)
Definition wf_pattern (p : Pattern) : bool :=
  Qle_bool 0 (strength p) && Qle_bool (strength p) 1
  && Qle_bool 60 (predictability p)
  && extra_matches (type p) (extra p).

(** Two dictionaries with the same entries, numbers compared as numbers:
    [1/2] and [6/12] are the same strength. *)
Definition pattern_equiv (p q : Pattern) : Prop :=
  type p = type q /\ (strength p == strength q)%Q /\ risk p = risk q
  /\ description p = description q /\ manipulation p = manipulation q
  /\ (predictability p == predictability q)%Q /\ extra p = extra q.

(** Two recommendations with the same entries, the confidence compared
    as a number. *)
Definition prediction_equiv (p q : Prediction) : Prop :=
  color p = color q /\ (confidence p == confidence q)%Q
  /\ reasoning p = reasoning q /\ strategy p = strategy q.

(** * Facts *)

Lemma to_str_inj (a b : Outcome) : to_str a = to_str b -> a = b.
Proof. by destruct a, b. Qed.

Lemma join_cons (r : Outcome) (w : list Outcome) :
  join (r :: w) = to_str r +:+ join w.
Proof. reflexivity. Qed.

Lemma join_length (w : list Outcome) : String.length (join w) = length w.
Proof.
  induction w as [|r w IH]; [done|].
  rewrite join_cons. by destruct r; cbv [to_str String.append]; cbn; f_equal.
Qed.

(** Joining is injective: a joined window stands for exactly one list. *)
Lemma join_inj (w1 w2 : list Outcome) : join w1 = join w2 -> w1 = w2.
Proof.
  revert w2; induction w1 as [|a w1 IH]; intros [|b w2] H; try done.
  - by destruct b.
  - by destruct a.
  - destruct a, b; simplify_eq/=; f_equal; auto.
Qed.

Lemma type_name_inj (t1 t2 : PatternType) :
  type_name t1 = type_name t2 -> t1 = t2.
Proof. by destruct t1, t2. Qed.

Lemma startswith_strategic_tie (t : PatternType) :
  startswith t "strategic_tie" = true <->
  t = strategic_tie_after_sequence \/ t = strategic_tie_before_reversal.
Proof. destruct t; cbn; intuition congruence. Qed.

Lemma non_empate_no_E (results : list Outcome) : E ∉ non_empate results.
Proof. unfold non_empate. rewrite list_elem_of_filter. tauto. Qed.

Lemma non_empate_CV (results : list Outcome) (r : Outcome) :
  r ∈ non_empate results -> r = C \/ r = V.
Proof.
  unfold non_empate. rewrite list_elem_of_filter.
  destruct r; intuition congruence.
Qed.

Lemma non_empate_is_CV (results : list Outcome) :
  Forall is_CV (non_empate results).
Proof. apply Forall_forall. intros x. apply non_empate_CV. Qed.

Lemma count_CV (w : list Outcome) :
  Forall is_CV w -> count C w + count V w = length w.
Proof.
  induction 1 as [|x w [->| ->] _ IH]; [done| |]; rewrite !count_cons; simpl;
    repeat case_decide; try done; lia.
Qed.

Lemma non_empate_length (results : list Outcome) :
  length (non_empate results) <= length results.
Proof. apply length_filter. Qed.

Lemma non_empate_app (l1 l2 : list Outcome) :
  non_empate (l1 ++ l2) = non_empate l1 ++ non_empate l2.
Proof. apply filter_app. Qed.

Lemma non_empate_idemp (results : list Outcome) :
  non_empate (non_empate results) = non_empate results.
Proof. unfold non_empate. by rewrite list_filter_filter; apply list_filter_iff; tauto. Qed.

Lemma non_empate_replicate (n : nat) (c : Outcome) :
  is_CV c -> non_empate (replicate n c) = replicate n c.
Proof.
  intros Hc. unfold non_empate. induction n as [|n IH]; [done|]. simpl.
  rewrite filter_cons_True by (by destruct Hc as [-> | ->]). by f_equal.
Qed.

Lemma wf_pattern_spec (p : Pattern) :
  wf_pattern p = true <->
  (0 <= strength p <= 1)%Q /\ (60 <= predictability p)%Q
  /\ extra_matches (type p) (extra p) = true.
Proof.
  unfold wf_pattern. rewrite !andb_true_iff, !Qle_bool_iff. tauto.
Qed.

(** Reduces the well-formedness of a concrete dictionary to the bounds
    on its numbers. *)
Ltac wf_pattern_bounds :=
  apply wf_pattern_spec; simpl; split_and!; try done.

(** A well-formed pattern carries the keys of its type. *)
Lemma wf_pending p :
  wf_pattern p = true -> type p = compensation_pending -> is_Some (favored_color p).
Proof.
  intros (_ & _ & Hx)%wf_pattern_spec Ht. unfold favored_color. rewrite Ht in Hx.
  by destruct (extra p).
Qed.

Lemma wf_cycle p :
  wf_pattern p = true -> type p = hidden_cycle ->
  is_Some (pattern p) /\ is_Some (repetitions p).
Proof.
  intros (_ & _ & Hx)%wf_pattern_spec Ht. unfold pattern, repetitions. rewrite Ht in Hx.
  by destruct (extra p).
Qed.

(** ** Equivalent patterns *)

#[export] Instance pattern_equiv_equivalence : Equivalence pattern_equiv.
Proof.
  split.
  - intros p. by repeat split.
  - intros p q (? & ? & ? & ? & ? & ? & ?). by repeat split.
  - intros p q r (? & Hs & ? & ? & ? & Hp & ?) (? & Hs' & ? & ? & ? & Hp' & ?).
    repeat split; try congruence; [by rewrite Hs|by rewrite Hp].
Qed.

Lemma pattern_equiv_type p q : pattern_equiv p q -> type p = type q.
Proof. by intros (? & _). Qed.

Lemma pattern_equiv_extra p q : pattern_equiv p q -> extra p = extra q.
Proof. by intros (_ & _ & _ & _ & _ & _ & ?). Qed.

#[export] Instance prediction_equiv_equivalence : Equivalence prediction_equiv.
Proof.
  split.
  - intros p. by repeat split.
  - intros p q (? & ? & ? & ?). by repeat split.
  - intros p q r (? & Hc & ? & ?) (? & Hc' & ? & ?).
    repeat split; try congruence. by rewrite Hc.
Qed.

#[export] Instance wf_pattern_proper : Proper (pattern_equiv ==> eq) wf_pattern.
Proof.
  intros p q (Ht & Hs & _ & _ & _ & Hp & Hx). unfold wf_pattern.
  by rewrite Hs, Hp, Ht, Hx.
Qed.
