(* ===== verification/Host.v ===== *)
(** * Host: the session history of [main]

    The part of [main] that owns the history: the list kept in the
    session state, the five buttons that change it, and the line that
    displays it.  One run of the script reads what the buttons report
    and updates the list; the analysis then reads the list and never
    changes it. *)

From Stdlib Require Import Ascii String.
From stdpp Require Import base decidable relations list strings.
From S2P Require Import Prelude Model.

(** What the five calls to [button] return in one run of the script, in
    the order of the calls (lines 303, 305, 307, 312, 314). *)
Record Buttons : Type := mkButtons {
  btn_c : bool;
  btn_v : bool;
  btn_e : bool;
  btn_clear : bool;
  btn_undo : bool
}.

(** Lines 297-298: the history of the session, created empty when the
    session state has no key 'history'. *)
Definition init_history (session_state : option (list Outcome))
    : list Outcome :=
  match session_state with
  | None => []
  | Some history => history
  end.

(** [l.pop()] on a non-empty list: the list that remains. *)
Definition pop {A : Type} (l : list A) : list A := take (length l - 1) l.

(** Lines 303-316: the five tests, in the order of the source. *)
Definition press (b : Buttons) (history : list Outcome) : list Outcome :=
  let history := if btn_c b then history ++ [C] else history in
  let history := if btn_v b then history ++ [V] else history in
  let history := if btn_e b then history ++ [E] else history in
  let history := if btn_clear b then [] else history in
  if btn_undo b
  then if bool_decide (history <> []) then pop history else history
  else history.

(** Line 321; the default of [color_map.get] is never used, the history
    holding nothing but 'C', 'V' and 'E'. *)
Definition color_map (r : Outcome) : string :=
  match r with
  | C => "🟦"
  | V => "🟥"
  | E => "🟨"
  end.

(** Line 322: most recent outcome first.  The string is the UTF-8
    encoding of the Python string. *)
Definition history_display (history : list Outcome) : string :=
  String.concat " " (map (fun r => color_map r +:+ to_str r) (reverse history)).

(** ** Specification vocabulary *)

(** One run of the script in which the user has clicked at most one
    button, which is what the page offers. *)
Inductive Click : Type :=
| ClickC
| ClickV
| ClickE
| ClickClear
| ClickUndo
| NoClick.

Definition buttons_of (c : Click) : Buttons :=
  match c with
  | ClickC => mkButtons true false false false false
  | ClickV => mkButtons false true false false false
  | ClickE => mkButtons false false true false false
  | ClickClear => mkButtons false false false true false
  | ClickUndo => mkButtons false false false false true
  | NoClick => mkButtons false false false false false
  end.

Definition click (c : Click) (history : list Outcome) : list Outcome :=
  press (buttons_of c) history.

(** A session: the runs of the script, one per click, from the history
    the session starts with. *)
Definition session (clicks : list Click) (history : list Outcome)
    : list Outcome :=
  fold_left (fun h c => click c h) clicks history.

(** The clicks a run reports, in the order in which the script tests
    its buttons. *)
Definition clicks_of (b : Buttons) : list Click :=
  (if btn_c b then [ClickC] else []) ++ (if btn_v b then [ClickV] else [])
  ++ (if btn_e b then [ClickE] else []) ++ (if btn_clear b then [ClickClear] else [])
  ++ (if btn_undo b then [ClickUndo] else []).

(** The click that enters an outcome. *)
Definition enter (r : Outcome) : Click :=
  match r with
  | C => ClickC
  | V => ClickV
  | E => ClickE
  end.

(** The operations the history undergoes. *)
Inductive step : list Outcome -> list Outcome -> Prop :=
| step_append r history : step history (history ++ [r])
| step_clear history : step history []
| step_undo r history : step (history ++ [r]) history
| step_none history : step history history.

(** Reading a displayed history back. *)
Definition outcome_of_ascii (a : ascii) : option Outcome :=
  if Ascii.eqb a "C" then Some C
  else if Ascii.eqb a "V" then Some V
  else if Ascii.eqb a "E" then Some E
  else None.

Fixpoint scan (s : string) : list Outcome :=
  match s with
  | EmptyString => []
  | String a s' =>
      match outcome_of_ascii a with
      | Some r => r :: scan s'
      | None => scan s'
      end
  end.

Definition parse_display (s : string) : list Outcome := reverse (scan s).

(** * Theorems *)

Implicit Types (history h : list Outcome) (r : Outcome) (c : Click).

(** ** Clicks *)

Lemma pop_snoc {A} (l : list A) (x : A) : pop (l ++ [x]) = l.
Proof.
  unfold pop. rewrite length_app. simpl.
  replace (length l + 1 - 1) with (length l) by lia. by rewrite take_app_length.
Qed.

Lemma pop_length {A} (l : list A) : length (pop l) = length l - 1.
Proof. unfold pop. rewrite length_take. lia. Qed.

Lemma click_enter r h : click (enter r) h = h ++ [r].
Proof. by destruct r. Qed.

Lemma click_clear h : click ClickClear h = [].
Proof. done. Qed.

Lemma click_undo_snoc h r : click ClickUndo (h ++ [r]) = h.
Proof.
  unfold click, press. simpl. rewrite bool_decide_eq_true_2; [apply pop_snoc|].
  by destruct h.
Qed.

Lemma click_undo_nil : click ClickUndo [] = [].
Proof. done. Qed.

Lemma click_none h : click NoClick h = h.
Proof. done. Qed.

Lemma snoc_cases {A} (l : list A) : l = [] \/ exists l' x, l = l' ++ [x].
Proof. destruct l as [|x l] using rev_ind; [by left|right; eauto]. Qed.

Lemma click_is_step c h : step h (click c h).
Proof.
  destruct c; try by constructor.
  destruct (snoc_cases h) as [->|(h0 & r & ->)]; [by constructor|].
  rewrite click_undo_snoc. constructor.
Qed.

Lemma step_length h h' : step h h' -> length h' <= S (length h).
Proof. intros [| | |]; rewrite ?length_app; simpl; lia. Qed.

(** C23. One click changes the history by one of four operations: an
    outcome is appended, the history is emptied, its last outcome is
    removed, or nothing changes; and each of these is what some click
    does. *)
Theorem click_step h h' : step h h' <-> exists c, h' = click c h.
Proof.
  split.
  - intros [r h0|h0|r h0|h0].
    + exists (enter r). by rewrite click_enter.
    + by exists ClickClear.
    + exists ClickUndo. by rewrite click_undo_snoc.
    + by exists NoClick.
  - intros [c ->]. apply click_is_step.
Qed.

Lemma click_step_witness : step [C; V] (click ClickUndo [C; V]).
Proof. apply click_step. by exists ClickUndo. Defined.

(** Removing the last result after entering an outcome gives the
    history back. *)
Theorem undo_after_enter r h : click ClickUndo (click (enter r) h) = h.
Proof. by rewrite click_enter, click_undo_snoc. Qed.

(** ** Sessions *)

(** Entering the outcomes of a list one click at a time appends the
    list to the history: every history can be entered, and the page
    keeps the outcomes in the order of the clicks. *)
Theorem session_enter (l : list Outcome) h : session (enter <$> l) h = h ++ l.
Proof.
  revert h. induction l as [|r l IH]; intros h; simpl; [by rewrite app_nil_r|].
  unfold session in *. rewrite IH, click_enter. by rewrite <- app_assoc.
Qed.

(** Every history can be reached from every history: clear, then enter
    its outcomes. *)
Theorem session_reaches h h' : session (ClickClear :: (enter <$> h')) h = h'.
Proof.
  change (session (enter <$> h') (click ClickClear h) = h').
  by rewrite click_clear, session_enter.
Qed.

(** A run in which several buttons report a click does what the clicks
    do one after the other, in the order of the tests of the script. *)
Theorem press_clicks (b : Buttons) h : press b h = session (clicks_of b) h.
Proof. by destruct b as [[] [] [] [] []]. Qed.

(** Whatever the buttons report, the run changes the history by steps. *)
Corollary press_steps (b : Buttons) h : rtc step h (press b h).
Proof.
  rewrite press_clicks. generalize (clicks_of b) as clicks. intros clicks.
  revert h. induction clicks as [|c clicks IH]; intros h; [done|].
  eapply rtc_l; [apply click_is_step|apply IH].
Qed.

(** A session of [n] clicks holds at most [n] outcomes more than it
    started with. *)
Lemma session_length clicks h :
  length (session clicks h) <= length h + length clicks.
Proof.
  revert h. induction clicks as [|c clicks IH]; intros h; simpl; [lia|].
  unfold session in *. etrans; [apply IH|].
  pose proof (step_length _ _ (click_is_step c h)). lia.
Qed.

(** ** The displayed history *)

Lemma scan_app s1 s2 : scan (s1 +:+ s2) = scan s1 ++ scan s2.
Proof.
  induction s1 as [|a s1 IH]; [done|].
  change (String a s1 +:+ s2) with (String a (s1 +:+ s2)). simpl. rewrite IH.
  by destruct (outcome_of_ascii a).
Qed.

Lemma scan_concat (l : list Outcome) :
  scan (String.concat " " (map (fun r => color_map r +:+ to_str r) l)) = l.
Proof.
  induction l as [|r l IH]; [done|]. destruct l as [|r' l]; [by destruct r|].
  change (scan ((color_map r +:+ to_str r) +:+ " "
                +:+ String.concat " " (map (fun r => color_map r +:+ to_str r) (r' :: l)))
          = r :: r' :: l).
  rewrite !scan_app, IH. by destruct r.
Qed.

(** C24. The displayed line determines the history: reading the
    characters 'C', 'V' and 'E' of the line from right to left gives the
    history back. *)
Theorem history_display_roundtrip h : parse_display (history_display h) = h.
Proof.
  unfold parse_display, history_display. by rewrite scan_concat, reverse_involutive.
Qed.

Example history_display_three :
  history_display [C; V; E] = "🟨E 🟥V 🟦C".
Proof. reflexivity. Qed.
