(* ===== verification/Micro.v ===== *)
(** * Micro: [CasinoAnalyzer.analyze_micro_patterns]

    The detector of two short-range patterns: pairs of equal outcomes in
    the last six entries of the history, and alternation among the first
    six of the last eight non-tie entries. *)

From Stdlib Require Import QArith Lqa.
From stdpp Require Import base decidable list strings.
From S2P Require Import Prelude Model.

(** The generator summed at lines 15-16: the pairs of [last6] at even
    offsets whose two entries are equal and not a tie. *)
Definition double_pattern_count (last6 : list Outcome) : nat :=
  length (filter
    (fun i => i + 1 < 6 /\ last6 !! i = last6 !! (i + 1) /\ last6 !! i <> Some E)
    (range_step 0 6 2)).

(** The dictionary appended at lines 19-26. *)
Definition micro_double (double_pattern_count : nat) : Pattern := {|
  type := micro_double_pattern;
  strength := ratio double_pattern_count 3;
  risk := if decide (double_pattern_count = 3) then critical else high;
  description :=
    "Padrão 2x2 repetitivo (" +:+ fmt_nat double_pattern_count +:+ "/3)";
  manipulation :=
    if decide (double_pattern_count = 3)
    then "CRÍTICA - Sistema forçando padrão" else "ALTA";
  predictability := 85;
  extra := NoExtra
|}.

(** The generator summed at lines 30-31: the positions 1..5 of
    [last8_non_empate] whose entry differs from the one before. *)
Definition micro_alternations (last8_non_empate : list Outcome) : nat :=
  length (filter
    (fun i => last8_non_empate !! i <> last8_non_empate !! (i - 1))
    (range 1 (6 `min` length last8_non_empate))).

(** The dictionary appended at lines 33-40. *)
Definition micro_alternation_pattern (micro_alternations : nat) : Pattern := {|
  type := micro_alternation;
  strength := ratio micro_alternations 5;
  risk := if decide (micro_alternations = 5) then critical else high;
  description :=
    "Micro-alternação suspeita (" +:+ fmt_nat micro_alternations +:+ "/5)";
  manipulation := "Sistema induzindo alternância artificial";
  predictability := 90;
  extra := NoExtra
|}.

Definition analyze_micro_patterns (results : list Outcome) : list Pattern :=
  if decide (length results < 6) then []
  else
    let last6 := lastn 6 results in
    let n2 := double_pattern_count last6 in
    let patterns := if decide (2 <= n2) then [micro_double n2] else [] in
    let last8_non_empate := lastn 8 (non_empate results) in
    if decide (6 <= length last8_non_empate) then
      let na := micro_alternations last8_non_empate in
      if decide (4 <= na) then patterns ++ [micro_alternation_pattern na]
      else patterns
    else patterns.

(** ** Specification vocabulary *)

(** A pair of equal outcomes that is not a pair of ties. *)
Definition pair_hit (x y : Outcome) : nat :=
  if decide (x = y /\ x <> E) then 1 else 0.

(** Two adjacent outcomes that differ. *)
Definition differs (x y : Outcome) : nat :=
  if decide (x <> y) then 1 else 0.

(** * Theorems *)

Lemma double_pattern_count_le (l : list Outcome) : double_pattern_count l <= 3.
Proof. unfold double_pattern_count. etrans; [apply length_filter|]. done. Qed.

Lemma micro_alternations_le (l : list Outcome) : micro_alternations l <= 5.
Proof.
  unfold micro_alternations. etrans; [apply length_filter|].
  rewrite length_range. lia.
Qed.

Lemma double_pattern_count_six (a b c d e f : Outcome) :
  double_pattern_count [a; b; c; d; e; f]
  = pair_hit a b + pair_hit c d + pair_hit e f.
Proof. by destruct a, b, c, d, e, f. Qed.

(** Only the first six entries of the last eight are compared. *)
Lemma micro_alternations_take (l : list Outcome) :
  micro_alternations l = micro_alternations (take 6 l).
Proof.
  unfold micro_alternations. rewrite length_take.
  replace (6 `min` (6 `min` length l)) with (6 `min` length l) by lia.
  f_equal. apply filter_ext_in. intros i [??]%elem_of_range.
  by rewrite !lookup_take_lt by lia.
Qed.

Lemma micro_alternations_six (a b c d e f : Outcome) (rest : list Outcome) :
  micro_alternations (a :: b :: c :: d :: e :: f :: rest)
  = differs a b + differs b c + differs c d + differs d e + differs e f.
Proof. rewrite micro_alternations_take. by destruct a, b, c, d, e, f. Qed.

Lemma micro_double_wf (n : nat) :
  2 <= n <= 3 -> wf_pattern (micro_double n) = true.
Proof.
  intros H. wf_pattern_bounds; apply ratio_unit; lia.
Qed.

Lemma micro_alternation_wf (n : nat) :
  4 <= n <= 5 -> wf_pattern (micro_alternation_pattern n) = true.
Proof.
  intros H. wf_pattern_bounds; apply ratio_unit; lia.
Qed.

#[export] Hint Resolve micro_double_wf micro_alternation_wf : casino.

(** The two checks are independent: the result is the concatenation of
    what each contributes. *)
Lemma analyze_micro_patterns_unfold (results : list Outcome) :
  6 <= length results ->
  analyze_micro_patterns results =
    (let n := double_pattern_count (lastn 6 results) in
     if decide (2 <= n) then [micro_double n] else []) ++
    (let l := lastn 8 (non_empate results) in
     let n := micro_alternations l in
     if decide (6 <= length l /\ 4 <= n)
     then [micro_alternation_pattern n] else []).
Proof.
  intros H. unfold analyze_micro_patterns. rewrite decide_False by lia.
  cbv zeta. repeat case_decide; rewrite ?app_nil_r; try done; lia.
Qed.

(** With fewer than six outcomes the micro detector reports nothing. *)
Lemma micro_short (results : list Outcome) :
  length results < 6 -> analyze_micro_patterns results = [].
Proof. intros H. unfold analyze_micro_patterns. by rewrite decide_True. Qed.

(** C11. The 2x2 check looks at the last six outcomes as three pairs:
    with [n] the number of pairs of two equal non-tie outcomes, one
    [micro_double_pattern] of strength n/3 is reported when n >= 2 (its
    tier critical exactly when n = 3), none otherwise, whatever precedes
    the six outcomes. *)
Theorem micro_double_spec (pre : list Outcome) (a b c d e f : Outcome) :
  let n := pair_hit a b + pair_hit c d + pair_hit e f in
  filter (fun p => type p = micro_double_pattern)
    (analyze_micro_patterns (pre ++ [a; b; c; d; e; f]))
  = if decide (2 <= n) then [micro_double n] else [].
Proof.
  intros n.
  rewrite analyze_micro_patterns_unfold by (rewrite length_app; simpl; lia).
  rewrite lastn_app, double_pattern_count_six by done. fold n. cbv zeta.
  rewrite filter_app. repeat case_decide; done.
Qed.

(** C13. The alternation check compares the first six of the last (up
    to) eight non-tie outcomes: with [n] the number of adjacent pairs
    among those six that differ, one [micro_alternation] of strength
    n/5 is reported when n >= 4, none otherwise; the two most recent
    non-tie outcomes ([rest]) are not examined. *)
Theorem micro_alternation_spec (results rest : list Outcome)
    (a b c d e f : Outcome) :
  6 <= length results ->
  lastn 8 (non_empate results) = a :: b :: c :: d :: e :: f :: rest ->
  let n := differs a b + differs b c + differs c d + differs d e
           + differs e f in
  filter (fun p => type p = micro_alternation) (analyze_micro_patterns results)
  = if decide (4 <= n) then [micro_alternation_pattern n] else [].
Proof.
  intros Hlen Hl8 n. rewrite analyze_micro_patterns_unfold by done.
  cbv zeta. rewrite Hl8, micro_alternations_six. fold n.
  rewrite filter_app. repeat case_decide; try done; simpl in *; lia.
Qed.

Lemma micro_alternation_spec_witness :
  filter (fun p => type p = micro_alternation)
    (analyze_micro_patterns [C; V; E; C; V; C; V; V; C])
  = [micro_alternation_pattern 5].
Proof.
  apply (micro_alternation_spec _ [V; C] C V C V C V); [simpl; lia | reflexivity].
Defined.

(** Every pattern the micro detector reports is well formed: its
    strength lies in [0,1], its predictability is at least 60 and it
    carries no payload. *)
Lemma analyze_micro_patterns_wf (results : list Outcome) :
  Forall (fun p => wf_pattern p = true) (analyze_micro_patterns results).
Proof.
  destruct (decide (length results < 6)); [by rewrite micro_short|].
  rewrite analyze_micro_patterns_unfold by lia. cbv zeta.
  apply Forall_app; split; case_decide; constructor; try done.
  - pose proof (double_pattern_count_le (lastn 6 results)). auto with casino lia.
  - pose proof (micro_alternations_le (lastn 8 (non_empate results))).
    auto with casino lia.
Qed.

(** The shapes of what the micro detector reports. *)
Lemma elem_of_micro (results : list Outcome) (p : Pattern) :
  p ∈ analyze_micro_patterns results ->
  (exists n, 2 <= n <= 3 /\ p = micro_double n)
  \/ (exists n, 4 <= n <= 5 /\ p = micro_alternation_pattern n).
Proof.
  destruct (decide (length results < 6)) as [Hs|Hs];
    [by rewrite micro_short; [intros ?%elem_of_nil|]|].
  rewrite analyze_micro_patterns_unfold by lia. cbv zeta. rewrite elem_of_app.
  pose proof (double_pattern_count_le (lastn 6 results)).
  pose proof (micro_alternations_le (lastn 8 (non_empate results))).
  intros [Hp|Hp]; [left|right]; case_decide; try (by apply elem_of_nil in Hp);
    apply list_elem_of_singleton in Hp as ->; eexists; split; try done; lia.
Qed.

(** The micro detector is local: what precedes a suffix holding at
    least six outcomes and at least eight non-tie outcomes does not
    change its result. *)
Theorem micro_locality (pre w : list Outcome) :
  6 <= length w -> 8 <= length (non_empate w) ->
  analyze_micro_patterns (pre ++ w) = analyze_micro_patterns w.
Proof.
  intros H6 H8.
  rewrite !analyze_micro_patterns_unfold by (rewrite ?length_app; lia).
  by rewrite non_empate_app, !lastn_app_ge.
Qed.

Lemma micro_locality_witness :
  analyze_micro_patterns ([E; E; V] ++ [C; V; C; C; V; C; C; C])
  = analyze_micro_patterns [C; V; C; C; V; C; C; C].
Proof. apply micro_locality; vm_compute; lia. Defined.

(** The count of alternations after two more non-tie outcomes is the
    count on the six non-tie outcomes before them. *)
Lemma micro_alternations_two_more (pre : list Outcome) (x y : Outcome) :
  6 <= length (non_empate pre) -> x <> E -> y <> E ->
  let l := lastn 8 (non_empate (pre ++ [x; y])) in
  6 <= length l
  /\ micro_alternations l = micro_alternations (lastn 6 (non_empate pre)).
Proof.
  intros Hlen Hx Hy l. unfold l. rewrite non_empate_app.
  assert (non_empate [x; y] = [x; y]) as ->
    by (unfold non_empate; by rewrite !filter_cons_True).
  destruct (lastn_split 6 (non_empate pre) Hlen) as (l1 & l2 & -> & Hl2 & ->).
  rewrite <- app_assoc, lastn_app by (rewrite length_app; simpl; lia).
  rewrite length_app. split; [lia|].
  by rewrite micro_alternations_take, take_app_length' by done.
Qed.

(** C36. The alternation check reads the oldest six of the last eight
    non-tie outcomes, not the last six: once eight non-tie outcomes are
    there, the two most recent of them never change what it reports. *)
Theorem micro_alternation_reads_oldest_six (pre : list Outcome) (x y x' y' : Outcome) :
  6 <= length (non_empate pre) -> x <> E -> y <> E -> x' <> E -> y' <> E ->
  filter (fun p => type p = micro_alternation) (analyze_micro_patterns (pre ++ [x; y]))
  = filter (fun p => type p = micro_alternation) (analyze_micro_patterns (pre ++ [x'; y'])).
Proof.
  intros Hlen Hx Hy Hx' Hy'. pose proof (non_empate_length pre).
  rewrite !analyze_micro_patterns_unfold by (rewrite length_app; simpl; lia).
  destruct (micro_alternations_two_more pre x y) as [H6 Hn]; [done..|].
  destruct (micro_alternations_two_more pre x' y') as [H6' Hn']; [done..|].
  cbv zeta in *. rewrite !filter_app, Hn, Hn'.
  f_equal; repeat case_decide; try done; lia.
Qed.

Lemma micro_alternation_reads_oldest_six_witness :
  filter (fun p => type p = micro_alternation)
    (analyze_micro_patterns ([C; C; C; V; C; V] ++ [C; V]))
  = filter (fun p => type p = micro_alternation)
      (analyze_micro_patterns ([C; C; C; V; C; V] ++ [V; V])).
Proof. by apply micro_alternation_reads_oldest_six; [simpl; lia|..]. Defined.

(** Six most recent non-tie outcomes that alternate perfectly are not
    reported when the two before them are equal to the third. *)
Example micro_alternation_missed :
  micro_alternations (lastn 6 [C; C; C; V; C; V; C; V]) = 5 /\
  analyze_micro_patterns [C; C; C; V; C; V; C; V] = [].
Proof. by vm_compute. Qed.

(** C37. On the history C C V V E C C V V C V V, whatever precedes it,
    the last six outcomes are C V V C V V, which hold one pair of equal
    outcomes, and the non-tie outcomes read by the alternation check
    alternate three times: no pattern is reported. *)
Theorem micro_scenario_last_six (pre : list Outcome) :
  let scenario := [C; C; V; V; E; C; C; V; V; C; V; V] in
  lastn 6 (pre ++ scenario) = [C; V; V; C; V; V] /\
  analyze_micro_patterns (pre ++ scenario) = [].
Proof.
  intros scenario. split.
  - by rewrite lastn_app_ge by (simpl; lia).
  - by rewrite micro_locality by (vm_compute; lia).
Qed.

(** Both checks can fire on the same history. *)
Example micro_both_fire :
  analyze_micro_patterns [C; V; C; C; V; C; C; C]
  = [micro_double 2; micro_alternation_pattern 4].
Proof. by vm_compute. Qed.

