(* ===== verification/Cycles.v ===== *)
(** * Cycles: [CasinoAnalyzer.detect_hidden_cycles]

    For each window length from 3 to 6 the detector counts the sliding
    windows of the non-tie history and reports the most repeated one.
    Over the two-letter alphabet that remains once ties are removed,
    windows of length 3 must repeat as soon as there are 11 outcomes, so
    the detector is never silent once it runs. *)

From Stdlib Require Import QArith Qminmax Lqa.
From stdpp Require Import base decidable list strings.
From S2P Require Import Prelude Model.

(** Line 50: the joined windows [non_empate[i:i+cycle_size]], one per
    start position; the range is empty when the history is shorter than
    the window. *)
Definition cycles (non_empate : list Outcome) (cycle_size : nat)
    : list (list Outcome) :=
  map (fun i => slice i (i + cycle_size) non_empate)
    (range 0 (length non_empate + 1 - cycle_size)).

(** The dictionary appended at lines 55-65. *)
Definition hidden_cycle_pattern (cycle_size : nat)
    (most_repeated : list Outcome) (count : nat) : Pattern := {|
  type := hidden_cycle;
  strength := Qmin (ratio count 3) 1;
  risk := if decide (3 <= count) then high else medium;
  description :=
    "Ciclo oculto detectado: " +:+ dquote +:+ join most_repeated +:+ dquote
    +:+ " (" +:+ fmt_nat count +:+ "x)";
  manipulation :=
    if decide (3 <= count)
    then "Sistema usando ciclo programado" else "Possível ciclo induzido";
  predictability := Qnat (70 + count * 5);
  extra := CycleExtra cycle_size most_repeated count
|}.

(** Line 52: the windows counted at least twice, in first-seen order. *)
Definition repeated (cycle_counts : list (list Outcome * nat))
    : list (list Outcome * nat) :=
  filter (fun x => 2 <= x.2) cycle_counts.

(** One iteration of the loop at lines 49-65: what it appends. *)
Definition cycle_step (non_empate : list Outcome) (cycle_size : nat)
    : list Pattern :=
  let cycle_counts := Counter (cycles non_empate cycle_size) in
  match repeated cycle_counts with
  | [] => []
  | x :: rest =>
      let '(most_repeated, count) := max_from snd x rest in
      [hidden_cycle_pattern cycle_size most_repeated count]
  end.

Definition detect_hidden_cycles (results : list Outcome) : list Pattern :=
  let non_empate := non_empate results in
  if decide (length non_empate < 12) then []
  else range 3 7 ≫= cycle_step non_empate.

(** ** Specification vocabulary *)

(** All words of length [n] over the non-tie alphabet. *)
Fixpoint words (n : nat) : list (list Outcome) :=
  match n with
  | 0 => [[]]
  | S n' => map (cons C) (words n') ++ map (cons V) (words n')
  end.

(** What a reported cycle is: a window of the non-tie history that
    occurs [n >= 2] times among the windows of its length, no window of
    that length occurring more often, and every window that starts
    before its first occurrence occurring less often (among the most
    frequent windows it is the one seen first). *)
Record is_top_cycle (ne : list Outcome) (cs : nat) (w : list Outcome)
    (n : nat) : Prop := {
  top_window : w ∈ cycles ne cs;
  top_count : n = count w (cycles ne cs);
  top_repeated : 2 <= n;
  top_max : forall w', count w' (cycles ne cs) <= n;
  top_first : exists pre post, cycles ne cs = pre ++ w :: post
    /\ forall w', w' ∈ pre -> count w' (cycles ne cs) < n
}.

(** * Theorems *)

Implicit Types (ne results w : list Outcome) (cs n : nat) (p : Pattern).

(** ** Windows *)

Lemma length_cycles ne cs : length (cycles ne cs) = length ne + 1 - cs.
Proof. unfold cycles. rewrite length_map, length_range. lia. Qed.

Lemma elem_of_cycles ne cs w :
  w ∈ cycles ne cs <-> exists i, i + cs <= length ne /\ w = slice i (i + cs) ne.
Proof.
  unfold cycles. rewrite list_elem_of_fmap. split.
  - intros (i & -> & [_ Hi]%elem_of_range). exists i. split; [lia|done].
  - intros (i & Hi & ->). exists i. split; [done|]. apply elem_of_range. lia.
Qed.

Lemma cycles_window_length ne cs w : w ∈ cycles ne cs -> length w = cs.
Proof. intros (i & Hi & ->)%elem_of_cycles. by apply slice_length_exact. Qed.

Lemma cycles_window_elems ne cs w x : w ∈ cycles ne cs -> x ∈ w -> x ∈ ne.
Proof. intros (i & Hi & ->)%elem_of_cycles. apply elem_of_slice. Qed.

Lemma length_words n : length (words n) = 2 ^ n.
Proof. induction n as [|n IH]; [done|]. simpl. rewrite length_app, !length_map, IH. lia. Qed.

Lemma elem_of_words w : Forall is_CV w -> w ∈ words (length w).
Proof.
  induction 1 as [|x w [->| ->] _ IH]; simpl.
  - by left.
  - apply elem_of_app. left. apply list_elem_of_fmap. by exists w.
  - apply elem_of_app. right. apply list_elem_of_fmap. by exists w.
Qed.

Lemma cycles_in_words ne cs w : Forall is_CV ne -> w ∈ cycles ne cs -> w ∈ words cs.
Proof.
  intros Hne Hw. rewrite <- (cycles_window_length _ _ _ Hw). apply elem_of_words.
  apply Forall_forall. intros x Hx. rewrite Forall_forall in Hne.
  eauto using cycles_window_elems.
Qed.

(** ** Repetition is forced *)

Lemma repeated_elem (c : list (list Outcome * nat)) w n :
  (w, n) ∈ repeated c <-> (w, n) ∈ c /\ 2 <= n.
Proof. unfold repeated. rewrite list_elem_of_filter. simpl. tauto. Qed.

Lemma repeated_pigeonhole ne cs :
  Forall is_CV ne -> 2 ^ cs + cs <= length ne -> repeated (Counter (cycles ne cs)) <> [].
Proof.
  intros Hne Hlen Hnil.
  assert (Exists (fun x => 2 <= x.2) (Counter (cycles ne cs))) as Hex.
  { apply (Counter_pigeonhole _ (words cs)); [eauto using cycles_in_words|].
    rewrite length_words, length_cycles. lia. }
  apply Exists_exists in Hex as ([w n] & Hin & Hn).
  assert ((w, n) ∈ repeated (Counter (cycles ne cs))) as Hr by by apply repeated_elem.
  rewrite Hnil in Hr. by apply elem_of_nil in Hr.
Qed.

(** ** One window length *)

Lemma cycle_step_cases ne cs :
  (cycle_step ne cs = [] /\ repeated (Counter (cycles ne cs)) = []) \/
  exists w n, cycle_step ne cs = [hidden_cycle_pattern cs w n]
    /\ first_max snd (w, n) (repeated (Counter (cycles ne cs))).
Proof.
  unfold cycle_step. cbv zeta. destruct (repeated _) as [|x rest]; [by left|right].
  pose proof (max_from_first_max snd x rest) as Hm.
  destruct (max_from snd x rest) as [w n]. by exists w, n.
Qed.

Lemma count_le_1_or_repeated ne cs w' :
  count w' (cycles ne cs) <= 1
  \/ (w', count w' (cycles ne cs)) ∈ repeated (Counter (cycles ne cs)).
Proof.
  destruct (decide (2 <= count w' (cycles ne cs))) as [H|H]; [right|left; lia].
  apply repeated_elem. split; [|done]. apply elem_of_Counter. split; [|done].
  apply count_pos. lia.
Qed.

Lemma first_max_top_cycle ne cs w n :
  first_max snd (w, n) (repeated (Counter (cycles ne cs))) -> is_top_cycle ne cs w n.
Proof.
  intros Hm. pose proof (first_max_elem _ _ _ Hm) as [[Hw Hn]%elem_of_Counter H2]%repeated_elem.
  split; try done.
  - intros w'. destruct (count_le_1_or_repeated ne cs w') as [|Hr]; [lia|].
    apply (first_max_ge _ _ _ _ Hm Hr).
  - destruct (first_max_Counter_first_seen _ 2 _ _ Hm) as (pre & post & ? & _ & ?).
    by exists pre, post.
Qed.

(** One iteration reports nothing when no window of that length occurs
    twice, and otherwise exactly one pattern, for a most frequent window. *)
Lemma cycle_step_spec ne cs :
  (cycle_step ne cs = [] /\ forall w, count w (cycles ne cs) <= 1) \/
  exists w n, cycle_step ne cs = [hidden_cycle_pattern cs w n] /\ is_top_cycle ne cs w n.
Proof.
  destruct (cycle_step_cases ne cs) as [[-> Hnil]|(w & n & -> & Hm)]; [left|right].
  - split; [done|]. intros w. destruct (count_le_1_or_repeated ne cs w) as [|Hr]; [done|].
    rewrite Hnil in Hr. by apply elem_of_nil in Hr.
  - exists w, n. eauto using first_max_top_cycle.
Qed.

(** ** The detector *)

Lemma detect_hidden_cycles_unfold results :
  12 <= length (non_empate results) ->
  detect_hidden_cycles results =
    cycle_step (non_empate results) 3 ++ cycle_step (non_empate results) 4 ++
    cycle_step (non_empate results) 5 ++ cycle_step (non_empate results) 6.
Proof.
  intros H. unfold detect_hidden_cycles. cbv zeta. rewrite decide_False by lia.
  simpl. by rewrite app_nil_r.
Qed.

(** With fewer than twelve non-tie outcomes the cycle detector
    reports nothing. *)
Lemma cycles_short results :
  length (non_empate results) < 12 -> detect_hidden_cycles results = [].
Proof. intros H. unfold detect_hidden_cycles. by rewrite decide_True. Qed.

(** Membership in the result, by window length. *)
Lemma elem_of_hidden_cycles results p :
  p ∈ detect_hidden_cycles results <->
  12 <= length (non_empate results)
  /\ exists cs, 3 <= cs <= 6 /\ p ∈ cycle_step (non_empate results) cs.
Proof.
  destruct (decide (length (non_empate results) < 12)) as [Hs|Hs].
  - rewrite cycles_short, elem_of_nil by done. split; [done|lia].
  - rewrite detect_hidden_cycles_unfold, !elem_of_app by lia. split.
    + intros [?|[?|[?|?]]]; (split; [lia|]);
        [exists 3|exists 4|exists 5|exists 6]; (split; [lia|done]).
    + intros [_ (cs & Hcs & Hp)].
      assert (cs = 3 \/ cs = 4 \/ cs = 5 \/ cs = 6) as [->|[->|[->| ->]]] by lia;
        auto.
Qed.

(** C5. Every pattern the cycle detector reports is a [hidden_cycle]
    for a window length between 3 and 6, whose window occurs in the
    non-tie history, whose repetition count is the number of
    (overlapping) occurrences of that window, is at least 2, and is the
    largest among all windows of that length; every window that starts
    before its first occurrence is repeated less often, so among the
    most repeated windows the one seen first is reported. *)
Theorem detect_hidden_cycles_spec results p :
  p ∈ detect_hidden_cycles results ->
  exists cs w n, p = hidden_cycle_pattern cs w n /\ 3 <= cs <= 6
    /\ is_top_cycle (non_empate results) cs w n.
Proof.
  intros [_ (cs & Hcs & Hin)]%elem_of_hidden_cycles.
  destruct (cycle_step_spec (non_empate results) cs)
    as [[Heq _]|(w & n & Heq & Htop)]; rewrite Heq in Hin.
  - by apply elem_of_nil in Hin.
  - apply list_elem_of_singleton in Hin as ->. by exists cs, w, n.
Qed.

Lemma detect_hidden_cycles_spec_witness :
  exists cs w n,
    hidden_cycle_pattern 3 [C; C; V] 2 = hidden_cycle_pattern cs w n
    /\ 3 <= cs <= 6
    /\ is_top_cycle (non_empate [C; C; V; C; V; V; E; C; C; C; V; V; V]) cs w n.
Proof.
  apply (detect_hidden_cycles_spec [C; C; V; C; V; V; E; C; C; C; V; V; V]).
  vm_compute. left.
Defined.

(** Pigeonhole for every window length: [2^cs + cs] non-tie outcomes
    force a repeated window of length [cs]. *)
Lemma cycle_step_forced ne cs :
  Forall is_CV ne -> 2 ^ cs + cs <= length ne ->
  exists w n, cycle_step ne cs = [hidden_cycle_pattern cs w n]
    /\ is_top_cycle ne cs w n.
Proof.
  intros Hne Hlen.
  destruct (cycle_step_cases ne cs) as [[_ Hnil]|(w & n & -> & Hm)].
  - exfalso. revert Hnil. by apply repeated_pigeonhole.
  - exists w, n. split; [done|]. by apply first_max_top_cycle.
Qed.

(** C3. Once the history holds twelve non-tie outcomes the cycle
    detector is never silent: its first pattern is a cycle of length 3
    repeated at least twice, because ten or more windows of length 3 over
    two letters cannot all be distinct. *)
Theorem hidden_cycle_always results :
  12 <= length (non_empate results) ->
  exists w n rest,
    detect_hidden_cycles results = hidden_cycle_pattern 3 w n :: rest
    /\ is_top_cycle (non_empate results) 3 w n.
Proof.
  intros H. rewrite detect_hidden_cycles_unfold by done.
  destruct (cycle_step_forced (non_empate results) 3)
    as (w & n & -> & Htop); [apply non_empate_is_CV|simpl; lia|].
  by eexists w, n, _.
Qed.

Lemma hidden_cycle_always_witness :
  exists w n rest,
    detect_hidden_cycles [C; C; V; C; V; V; E; C; C; C; V; V; V]
    = hidden_cycle_pattern 3 w n :: rest
    /\ is_top_cycle (non_empate [C; C; V; C; V; V; E; C; C; C; V; V; V]) 3 w n.
Proof. apply hidden_cycle_always. vm_compute. lia. Defined.

(** ** Well-formedness *)

Lemma hidden_cycle_pattern_wf cs w n :
  wf_pattern (hidden_cycle_pattern cs w n) = true.
Proof.
  wf_pattern_bounds.
  - apply Q.min_glb; [|done]. apply (ratio_ge n 3 0 1); lia.
  - apply Q.le_min_r.
  - apply (Qnat_le 60). lia.
Qed.

#[export] Hint Resolve hidden_cycle_pattern_wf : casino.

(** Every pattern the cycle detector reports is well formed, and
    its predictability is 70 + 5 * repetitions, hence at least 80. *)
Lemma detect_hidden_cycles_wf results :
  Forall (fun p => wf_pattern p = true /\ (80 <= predictability p)%Q)
    (detect_hidden_cycles results).
Proof.
  apply Forall_forall. intros p [_ (cs & _ & Hin)]%elem_of_hidden_cycles.
  destruct (cycle_step_cases (non_empate results) cs)
    as [[Heq _]|(w & n & Heq & Hm)]; rewrite Heq in Hin;
    [by apply elem_of_nil in Hin|].
  apply list_elem_of_singleton in Hin as ->.
  split; [auto with casino|].
  apply first_max_top_cycle in Hm as [_ _ ? _]. apply (Qnat_le 80). lia.
Qed.

(** From twelve non-tie outcomes on the detector reports something. *)
Lemma detect_hidden_cycles_nonempty results :
  12 <= length (non_empate results) -> detect_hidden_cycles results <> [].
Proof.
  intros H. rewrite detect_hidden_cycles_unfold by done.
  destruct (cycle_step_forced (non_empate results) 3)
    as (w & n & -> & _); [apply non_empate_is_CV|simpl; lia|done].
Qed.

(** ** Constant histories *)

Lemma cycles_replicate n c cs :
  cycles (replicate n c) cs = replicate (n + 1 - cs) (replicate cs c).
Proof.
  symmetry. apply replicate_as_elem_of. split.
  - by rewrite length_cycles, length_replicate.
  - intros w Hw. symmetry. apply replicate_as_elem_of.
    split; [by eapply cycles_window_length|].
    intros x Hx. by eapply elem_of_replicate_inv, cycles_window_elems.
Qed.

Lemma cycle_step_replicate n c cs :
  is_CV c -> 2 ^ cs + cs <= n ->
  cycle_step (replicate n c) cs
  = [hidden_cycle_pattern cs (replicate cs c) (n + 1 - cs)].
Proof.
  intros Hc Hn.
  destruct (cycle_step_forced (replicate n c) cs) as (w & m & -> & [Hw -> _ _ _]).
  { by apply Forall_replicate. }
  { by rewrite length_replicate. }
  rewrite cycles_replicate in Hw |- *. apply elem_of_replicate_inv in Hw as ->.
  by rewrite count_replicate.
Qed.

(** C38. The predictability of a reported cycle is not bounded by 100:
    a history of [n >= 12] equal non-tie outcomes is reported first as
    the window of three of them repeated [n - 2] times, with a
    predictability of [70 + 5 * (n - 2)], which is 120 or more. *)
Theorem hidden_cycle_predictability_exceeds_100 n (c : Outcome) :
  is_CV c -> 12 <= n ->
  head (detect_hidden_cycles (replicate n c))
  = Some (hidden_cycle_pattern 3 (replicate 3 c) (n - 2))
  /\ (120 <= predictability (hidden_cycle_pattern 3 (replicate 3 c) (n - 2)))%Q.
Proof.
  intros Hc Hn. split; [|apply (Qnat_le 120); lia].
  rewrite detect_hidden_cycles_unfold, non_empate_replicate by
    (rewrite ?non_empate_replicate, ?length_replicate; done).
  rewrite cycle_step_replicate by (simpl; done || lia).
  by replace (n + 1 - 3) with (n - 2) by lia.
Qed.

Lemma hidden_cycle_predictability_exceeds_100_witness :
  head (detect_hidden_cycles (replicate 20 C))
  = Some (hidden_cycle_pattern 3 (replicate 3 C) (20 - 2))
  /\ (120 <= predictability (hidden_cycle_pattern 3 (replicate 3 C) (20 - 2)))%Q.
Proof. apply hidden_cycle_predictability_exceeds_100; [by left|lia]. Defined.

(** Twenty perfectly alternating outcomes: every window length reports
    the window that starts the history. *)
Example hidden_cycle_alternating :
  (fun p => (cycle_size p, pattern p, repetitions p))
    <$> detect_hidden_cycles (Nat.iter 10 (fun l => C :: V :: l) [])
  = [(Some 3, Some [C; V; C], Some 9);
     (Some 4, Some [C; V; C; V], Some 9);
     (Some 5, Some [C; V; C; V; C], Some 8);
     (Some 6, Some [C; V; C; V; C; V], Some 8)].
Proof. by vm_compute. Qed.

(** Three windows of length 3 occur twice each; the one seen first is
    reported. *)
Example hidden_cycle_tie_break :
  (fun p => (pattern p, repetitions p))
    <$> head (detect_hidden_cycles [C; C; V; C; C; V; V; V; C; V; V; C])
  = Some (Some [C; C; V], Some 2)
  /\ count [C; V; V] (cycles [C; C; V; C; C; V; V; V; C; V; V; C] 3) = 2
  /\ count [V; V; C] (cycles [C; C; V; C; C; V; V; V; C; V; V; C] 3) = 2.
Proof. by vm_compute. Qed.
