(* ===== verification/Compensation.v ===== *)
(** * Compensation: [CasinoAnalyzer.analyze_compensation_patterns]

    Over the last 12, 15 and 18 non-tie outcomes the detector compares
    the number of 'C' and of 'V': a nearly even split of a window of 15 or
    18 is reported as artificial balance, a split whose difference
    exceeds 40% of the window as a pending compensation in favour of the
    rarer colour. *)

From Stdlib Require Import QArith Lqa.
From stdpp Require Import base decidable list strings.
From S2P Require Import Prelude Model.

(** The dictionary appended at lines 86-95. *)
Definition artificial_balance_pattern (window_size c_count v_count : nat)
    (balance_ratio : Q) : Pattern := {|
  type := artificial_balance;
  strength := 1 - balance_ratio;
  risk := high;
  description :=
    "Equilíbrio artificial em " +:+ fmt_nat window_size +:+ " jogadas";
  manipulation := "Sistema forçando distribuição 50/50";
  predictability := 85;
  extra :=
    BalanceExtra window_size (fmt_nat c_count +:+ "C/" +:+ fmt_nat v_count +:+ "V")
|}.

(** The dictionary appended at lines 99-109. *)
Definition compensation_pending_pattern (window_size c_count v_count : nat)
    (imbalance : nat) (balance_ratio : Q) (underrepresented : Outcome)
    : Pattern := {|
  type := compensation_pending;
  strength := balance_ratio;
  risk := medium;
  description :=
    "Compensação pendente: " +:+ fmt_nat c_count +:+ "C vs "
    +:+ fmt_nat v_count +:+ "V";
  manipulation := "Sistema deve favorecer " +:+ to_str underrepresented;
  predictability := 60 + balance_ratio * 20;
  extra := PendingExtra window_size imbalance underrepresented
|}.

(** One iteration of the loop at lines 77-109: what it appends. *)
Definition window_step (non_empate : list Outcome) (n window_size : nat)
    : list Pattern :=
  if decide (window_size <= n) then
    let window := lastn window_size non_empate in
    let c_count := count C window in
    let v_count := count V window in
    let imbalance := abs_diff c_count v_count in
    let balance_ratio := ratio imbalance window_size in
    (if (balance_ratio <? 1 # 10)%py && bool_decide (15 <= window_size)
     then [artificial_balance_pattern window_size c_count v_count balance_ratio]
     else [])
    ++
    (if (balance_ratio >? 4 # 10)%py
     then
       let underrepresented := if decide (c_count < v_count) then C else V in
       [compensation_pending_pattern window_size c_count v_count imbalance
          balance_ratio underrepresented]
     else [])
  else [].

Definition analyze_compensation_patterns (results : list Outcome)
    : list Pattern :=
  let non_empate := non_empate results in
  let n := length non_empate in
  if decide (n < 20) then []
  else
    let windows := [12; 15; 18] in
    windows ≫= window_step non_empate n.

(** ** Specification vocabulary *)

(** The counts and their difference over the last [W] non-tie outcomes. *)
Definition c_count (ne : list Outcome) (W : nat) : nat := count C (lastn W ne).
Definition v_count (ne : list Outcome) (W : nat) : nat := count V (lastn W ne).
Definition imbalance_of (ne : list Outcome) (W : nat) : nat :=
  abs_diff (c_count ne W) (v_count ne W).

(** The report for one window with its two tests on integers:
    [imbalance / W < 0.1] is [10 * imbalance < W] and
    [imbalance / W > 0.4] is [4 * W < 10 * imbalance]. *)
Definition balance_report (ne : list Outcome) (W : nat) : list Pattern :=
  (if decide (10 * imbalance_of ne W < W /\ 15 <= W)
   then [artificial_balance_pattern W (c_count ne W) (v_count ne W)
           (ratio (imbalance_of ne W) W)]
   else []) ++
  (if decide (4 * W < 10 * imbalance_of ne W)
   then [compensation_pending_pattern W (c_count ne W) (v_count ne W)
           (imbalance_of ne W) (ratio (imbalance_of ne W) W)
           (if decide (c_count ne W < v_count ne W) then C else V)]
   else []).

(** * Theorems *)

Implicit Types (ne results : list Outcome) (W n : nat) (p : Pattern).

(** The two tests on the balance ratio are tests on integers. *)
Lemma window_step_spec ne n W :
  0 < W <= n -> window_step ne n W = balance_report ne W.
Proof.
  intros [HW Hn]. unfold window_step, balance_report.
  rewrite decide_True by done. cbv zeta.
  fold (c_count ne W) (v_count ne W) (imbalance_of ne W).
  rewrite ratio_ltb, ratio_gtb by done. f_equal.
  - destruct (decide (_ /\ _)) as [[??]|Hno].
    + rewrite !bool_decide_eq_true_2; [done|lia|lia].
    + destruct (bool_decide (15 <= W)) eqn:H15; [|by rewrite andb_false_r].
      apply bool_decide_eq_true in H15. rewrite bool_decide_eq_false_2; [done|lia].
  - destruct (decide (4 * W < 10 * imbalance_of ne W));
      [rewrite bool_decide_eq_true_2|rewrite bool_decide_eq_false_2]; try done; lia.
Qed.

(** A window reports at most one pattern: the thresholds 0.1 and
    0.4 on the balance ratio exclude each other. *)
Theorem window_step_at_most_one ne n W : length (window_step ne n W) <= 1.
Proof.
  unfold window_step. case_decide; [|simpl; lia]. cbv zeta.
  set (r := ratio _ _). rewrite length_app.
  destruct (r <? 1 # 10)%py eqn:H1; simpl; [|destruct (r >? 4 # 10)%py; simpl; lia].
  destruct (r >? 4 # 10)%py eqn:H2; [|destruct (bool_decide _); simpl; lia].
  qprop. lra.
Qed.

(** With fewer than twenty non-tie outcomes the compensation
    detector reports nothing. *)
Lemma compensation_short results :
  length (non_empate results) < 20 -> analyze_compensation_patterns results = [].
Proof. intros H. unfold analyze_compensation_patterns. cbv zeta. by rewrite decide_True. Qed.

(** On twenty or more non-tie outcomes the three windows are examined
    in the order 12, 15, 18. *)
Lemma analyze_compensation_patterns_unfold results :
  20 <= length (non_empate results) ->
  analyze_compensation_patterns results =
    balance_report (non_empate results) 12 ++ balance_report (non_empate results) 15
    ++ balance_report (non_empate results) 18.
Proof.
  intros H. unfold analyze_compensation_patterns. cbv zeta. rewrite decide_False by lia.
  simpl. rewrite !window_step_spec by lia. by rewrite app_nil_r.
Qed.

(** C9. The compensation detector reports nothing on fewer than twenty
    non-tie outcomes; otherwise its result is the concatenation, for the
    windows 12, 15 and 18 in that order, of the report decided on
    integers: artificial balance when 10 * imbalance < W and W >= 15,
    pending compensation when 4 * W < 10 * imbalance, favouring 'C' when
    it is the rarer colour and 'V' otherwise. *)
Theorem compensation_spec results :
  analyze_compensation_patterns results =
    if decide (length (non_empate results) < 20) then []
    else balance_report (non_empate results) 12
         ++ balance_report (non_empate results) 15
         ++ balance_report (non_empate results) 18.
Proof.
  case_decide; [by apply compensation_short|].
  apply analyze_compensation_patterns_unfold. lia.
Qed.

Lemma imbalance_le ne W : imbalance_of ne W <= W.
Proof.
  unfold imbalance_of, abs_diff, c_count, v_count.
  pose proof (count_le_length C (lastn W ne)). pose proof (count_le_length V (lastn W ne)).
  rewrite length_lastn in *. lia.
Qed.

Lemma artificial_balance_wf W c v d :
  0 < W -> 10 * d < W -> wf_pattern (artificial_balance_pattern W c v (ratio d W)) = true.
Proof.
  intros HW Hd. destruct (ratio_unit d W) as [??]; [lia|lia|].
  wf_pattern_bounds; lra.
Qed.

Lemma compensation_pending_wf W c v d f :
  0 < W -> d <= W -> wf_pattern (compensation_pending_pattern W c v d (ratio d W) f) = true.
Proof.
  intros HW Hd. destruct (ratio_unit d W) as [??]; [lia|lia|].
  wf_pattern_bounds; lra.
Qed.

#[export] Hint Resolve artificial_balance_wf compensation_pending_wf imbalance_le : casino.

Lemma balance_report_wf ne W : 0 < W -> Forall (fun p => wf_pattern p = true) (balance_report ne W).
Proof.
  intros HW. unfold balance_report. apply Forall_app. split.
  - destruct (decide (_ /\ _)) as [[??]|]; repeat constructor. auto with casino.
  - destruct (decide (4 * W < _)); repeat constructor. auto with casino.
Qed.

(** Every pattern the compensation detector reports is well
    formed. *)
Lemma analyze_compensation_patterns_wf results :
  Forall (fun p => wf_pattern p = true) (analyze_compensation_patterns results).
Proof.
  destruct (decide (length (non_empate results) < 20)); [by rewrite compensation_short|].
  rewrite analyze_compensation_patterns_unfold by lia. rewrite !Forall_app.
  split_and!; apply balance_report_wf; lia.
Qed.

Lemma counts_sum ne W : Forall is_CV ne -> W <= length ne -> c_count ne W + v_count ne W = W.
Proof.
  intros Hne HW. unfold c_count, v_count. rewrite count_CV by by apply lastn_Forall.
  rewrite length_lastn. lia.
Qed.

Lemma elem_of_balance_report ne W p :
  p ∈ balance_report ne W <->
  (10 * imbalance_of ne W < W /\ 15 <= W /\
   p = artificial_balance_pattern W (c_count ne W) (v_count ne W) (ratio (imbalance_of ne W) W))
  \/ (4 * W < 10 * imbalance_of ne W /\
      p = compensation_pending_pattern W (c_count ne W) (v_count ne W) (imbalance_of ne W)
            (ratio (imbalance_of ne W) W)
            (if decide (c_count ne W < v_count ne W) then C else V)).
Proof.
  unfold balance_report. rewrite elem_of_app.
  destruct (decide (_ /\ _)) as [[??]|?], (decide (4 * W < _));
    rewrite ?list_elem_of_singleton, ?elem_of_nil; tauto.
Qed.

Lemma elem_of_compensation results p :
  p ∈ analyze_compensation_patterns results <->
  20 <= length (non_empate results) /\
  exists W, W ∈ [12; 15; 18] /\ p ∈ balance_report (non_empate results) W.
Proof.
  destruct (decide (length (non_empate results) < 20)).
  - rewrite compensation_short, elem_of_nil by done. split; [done|lia].
  - rewrite analyze_compensation_patterns_unfold, !elem_of_app by lia. split.
    + intros [?|[?|?]]; (split; [lia|]); [exists 12|exists 15|exists 18];
        (split; [|done]); repeat constructor.
    + intros [_ (W & HW & Hp)]. repeat apply elem_of_cons in HW as [->|HW]; auto.
      by apply elem_of_nil in HW.
Qed.

(** An [artificial_balance] pattern is reported only for a window
    of 15 or 18 whose two colours differ in number by at most one, and
    its strength is one minus the balance ratio. *)
Theorem artificial_balance_even results p :
  p ∈ analyze_compensation_patterns results -> type p = artificial_balance ->
  exists W, window_size p = Some W /\ (W = 15 \/ W = 18)
    /\ imbalance_of (non_empate results) W <= 1
    /\ strength p = (1 - ratio (imbalance_of (non_empate results) W) W)%Q.
Proof.
  intros [Hn (W & HW & [(Hd & H15 & ->)|(_ & ->)]%elem_of_balance_report)]%elem_of_compensation Ht;
    [|done].
  exists W. repeat apply elem_of_cons in HW as [->|HW];
    [lia| | |by apply elem_of_nil in HW]; split_and!; auto; lia.
Qed.

Lemma artificial_balance_even_witness :
  exists W,
    window_size (artificial_balance_pattern 18 9 9 (0 # 18)) = Some W
    /\ (W = 15 \/ W = 18)
    /\ imbalance_of (non_empate (Nat.iter 10 (fun l => C :: V :: l) [])) W <= 1
    /\ strength (artificial_balance_pattern 18 9 9 (0 # 18))
       = (1 - ratio (imbalance_of
                      (non_empate (Nat.iter 10 (fun l => C :: V :: l) [])) W) W)%Q.
Proof.
  apply (artificial_balance_even (Nat.iter 10 (fun l => C :: V :: l) []));
    [vm_compute; right; left | reflexivity].
Defined.

(** C34. A [compensation_pending] pattern names as favoured colour one
    of 'C' and 'V' that is strictly rarer in its window than the other,
    and the difference of the two counts exceeds 40% of the window. *)
Theorem compensation_pending_favors_rarer results p :
  p ∈ analyze_compensation_patterns results -> type p = compensation_pending ->
  exists W f, window_size p = Some W /\ favored_color p = Some f /\ is_CV f
    /\ 4 * W < 10 * imbalance_of (non_empate results) W
    /\ count f (lastn W (non_empate results)) < count (other f) (lastn W (non_empate results)).
Proof.
  intros [Hn (W & HW & [(_ & _ & ->)|(Hd & ->)]%elem_of_balance_report)]%elem_of_compensation Ht;
    [done|].
  eexists W, _. split_and!; [done|done| |done|].
  - unfold is_CV. case_decide; auto.
  - unfold imbalance_of, abs_diff, c_count, v_count in *.
    assert (0 < W)
      by (repeat apply elem_of_cons in HW as [->|HW]; [lia..|by apply elem_of_nil in HW]).
    case_decide; simpl; lia.
Qed.

Lemma compensation_pending_favors_rarer_witness :
  exists W f,
    window_size (compensation_pending_pattern 15 12 3 9 (9 # 15) V) = Some W
    /\ favored_color (compensation_pending_pattern 15 12 3 9 (9 # 15) V) = Some f
    /\ is_CV f
    /\ 4 * W < 10 * imbalance_of (non_empate (replicate 8 V ++ replicate 12 C)) W
    /\ count f (lastn W (non_empate (replicate 8 V ++ replicate 12 C)))
       < count (other f) (lastn W (non_empate (replicate 8 V ++ replicate 12 C))).
Proof.
  apply (compensation_pending_favors_rarer (replicate 8 V ++ replicate 12 C));
    [vm_compute; right; left | reflexivity].
Defined.

(** On twenty perfectly alternating outcomes the windows of 15 and
    18 are reported as artificially balanced, the latter with counts 9/9
    and strength 1; the window of 12 is not reported. *)
Example compensation_alternating :
  analyze_compensation_patterns (Nat.iter 10 (fun l => C :: V :: l) [])
  = [artificial_balance_pattern 15 7 8 (1 # 15);
     artificial_balance_pattern 18 9 9 (0 # 18)]
  /\ (strength (artificial_balance_pattern 18 9 9 (0 # 18)) == 1)%Q.
Proof. by vm_compute. Qed.

