(* ===== verification/Ties.v ===== *)
(** * Ties: [CasinoAnalyzer.analyze_strategic_ties]

    For every tie at index 3 or later the detector looks at the three
    outcomes before it and the (up to) three after it: a tie that follows
    two equal non-tie outcomes is reported as breaking a sequence, a tie
    between two different non-tie outcomes as masking a reversal. *)

From Stdlib Require Import QArith Lqa.
From stdpp Require Import base decidable list strings.
From S2P Require Import Prelude Model.

(** Line 117: the indices of the ties, in increasing order. *)
Definition tie_positions (results : list Outcome) : list nat :=
  fst <$> filter (fun ir => ir.2 = E) (imap pair results).

(** The loop of lines 124-128 over the entries before the last, from
    the end towards the start: it counts while they equal [color] and
    stops at the first that does not. *)
Fixpoint run_length (color : Outcome) (rev_rest : list Outcome) : nat :=
  match rev_rest with
  | [] => 0
  | x :: l => if decide (x = color) then S (run_length color l) else 0
  end.

(** Lines 119-129. *)
Definition get_sequence_length (seq : list Outcome) : nat :=
  match reverse seq with
  | [] => 0
  | color :: rev_rest => 1 + run_length color rev_rest
  end.

(** The dictionary appended at lines 137-147. *)
Definition after_sequence_pattern (tie_pos : nat) (sequence_color : Outcome)
    (sequence_length : nat) : Pattern := {|
  type := strategic_tie_after_sequence;
  strength := 7 # 10;
  risk := high;
  description :=
    "Empate estratégico após " +:+ fmt_nat sequence_length +:+ "x "
    +:+ to_str sequence_color;
  manipulation := "Empate usado para quebrar momentum";
  predictability := 75;
  extra := AfterSequenceExtra tie_pos sequence_color sequence_length
|}.

(** The dictionary appended at lines 153-163. *)
Definition before_reversal_pattern (tie_pos : nat)
    (before_color after_color : Outcome) : Pattern := {|
  type := strategic_tie_before_reversal;
  strength := 8 # 10;
  risk := high;
  description :=
    "Empate estratégico antes de reversão " +:+ to_str before_color
    +:+ " → " +:+ to_str after_color;
  manipulation := "Empate usado para mascarar mudança direcionada";
  predictability := 80;
  extra := BeforeReversalExtra tie_pos before_color after_color
|}.

(** One iteration of the loop at lines 131-163: what it appends.  The
    indexing [before[-1]], [before[-2]] and [after[0]] happens behind
    the length tests, so an absent entry means the test before it was
    false. *)
Definition tie_step (results : list Outcome) (tie_pos : nat) : list Pattern :=
  if decide (3 <= tie_pos) then
    let before := slice (0 `max` (tie_pos - 3)) tie_pos results in
    let after := slice (tie_pos + 1) (tie_pos + 4) results in
    (match neg_index before 1, neg_index before 2 with
     | Some b1, Some b2 =>
         if decide (2 <= length before /\ b1 = b2 /\ b1 <> E)
         then [after_sequence_pattern tie_pos b1 (get_sequence_length before)]
         else []
     | _, _ => []
     end)
    ++
    (match neg_index before 1, after !! 0 with
     | Some before_color, Some after_color =>
         if decide (2 <= length after /\ 1 <= length before
                    /\ before_color <> E /\ after_color <> E)
         then
           if decide (before_color <> after_color)
           then [before_reversal_pattern tie_pos before_color after_color]
           else []
         else []
     | _, _ => []
     end)
  else [].

Definition analyze_strategic_ties (results : list Outcome) : list Pattern :=
  if decide (length results < 8) then []
  else tie_positions results ≫= tie_step results.

(** ** Specification vocabulary *)

(** What a tie reports, given the three outcomes [a], [b], [c] before it
    and the outcomes [post] after it. *)
Definition tie_report (pos : nat) (a b c : Outcome) (post : list Outcome)
    : list Pattern :=
  (if decide (b = c /\ c <> E)
   then [after_sequence_pattern pos c (if decide (a = c) then 3 else 2)]
   else []) ++
  (match post with
   | x :: _ :: _ =>
       if decide (c <> E /\ x <> E /\ c <> x)
       then [before_reversal_pattern pos c x] else []
   | _ => []
   end).

(** * Theorems *)

Implicit Types (results pre post : list Outcome) (a b c : Outcome).
Implicit Types (p : Pattern) (pos : nat).

(** ** Positions and windows *)

Lemma elem_of_tie_positions results i : i ∈ tie_positions results <-> results !! i = Some E.
Proof.
  unfold tie_positions. rewrite list_elem_of_fmap. split.
  - intros ([j r] & -> & [Hr Hin]%list_elem_of_filter). simpl in *. subst r.
    apply elem_of_lookup_imap in Hin as (k & y & [= -> ->] & Hk). done.
  - intros Hi. exists (i, E). split; [done|]. apply list_elem_of_filter. split; [done|].
    apply elem_of_lookup_imap. by exists i, E.
Qed.

Lemma tie_decompose results pos :
  3 <= pos -> results !! pos = Some E ->
  exists pre a b c post, results = pre ++ a :: b :: c :: E :: post /\ pos = length pre + 3.
Proof.
  intros Hpos (l1 & post & -> & Hlen)%list_elem_of_split_length.
  exists (take (pos - 3) l1).
  pose proof (take_drop (pos - 3) l1) as Hsplit.
  assert (length (drop (pos - 3) l1) = 3) as H3 by (rewrite length_drop; lia).
  destruct (drop (pos - 3) l1) as [|a [|b [|c [|??]]]]; simplify_eq/=.
  exists a, b, c, post. rewrite <- Hsplit at 1. rewrite <- app_assoc. split; [done|].
  rewrite length_take. lia.
Qed.

(** With three outcomes before it, a tie reports [tie_report]. *)
Lemma tie_step_shape pre a b c post :
  tie_step (pre ++ a :: b :: c :: E :: post) (length pre + 3)
  = tie_report (length pre + 3) a b c post.
Proof.
  unfold tie_step, tie_report. rewrite decide_True by lia. cbv zeta.
  rewrite (slice_app_middle pre [a; b; c] (E :: post)) by (simpl; lia).
  replace (pre ++ a :: b :: c :: E :: post) with ((pre ++ [a; b; c; E]) ++ post)
    by by rewrite <- app_assoc.
  assert (slice (length pre + 3 + 1) (length pre + 3 + 4)
            ((pre ++ [a; b; c; E]) ++ post) = take 3 post) as ->.
  { unfold slice. rewrite drop_app_length'; [f_equal; lia|rewrite length_app; simpl; lia]. }
  f_equal.
  - destruct a, b, c; by vm_compute.
  - destruct post as [|x [|y post]]; [by destruct c|by destruct c, x|].
    destruct c, x; by vm_compute.
Qed.

Lemma elem_of_strategic_ties results p :
  p ∈ analyze_strategic_ties results <->
  8 <= length results /\ exists pos, results !! pos = Some E /\ p ∈ tie_step results pos.
Proof.
  unfold analyze_strategic_ties. case_decide.
  - rewrite elem_of_nil. split; [done|lia].
  - rewrite list_elem_of_bind. setoid_rewrite elem_of_tie_positions.
    split; [intros (pos & ? & ?)|intros [_ (pos & ? & ?)]]; eauto with lia.
Qed.

Lemma elem_of_tie_report pos a b c post p :
  p ∈ tie_report pos a b c post <->
  (b = c /\ c <> E /\ p = after_sequence_pattern pos c (if decide (a = c) then 3 else 2))
  \/ (exists x y post', post = x :: y :: post' /\ c <> E /\ x <> E /\ c <> x
        /\ p = before_reversal_pattern pos c x).
Proof.
  unfold tie_report. rewrite elem_of_app.
  assert (forall P Q R S : Prop, (P <-> R) -> (Q <-> S) -> (P \/ Q <-> R \/ S)) as Hor by tauto.
  apply Hor.
  - case_decide; rewrite ?list_elem_of_singleton, ?elem_of_nil; tauto.
  - destruct post as [|x [|y post']].
    + rewrite elem_of_nil. split; [done|]. by intros (? & ? & ? & ? & _).
    + rewrite elem_of_nil. split; [done|]. by intros (? & ? & ? & ? & _).
    + case_decide; rewrite ?list_elem_of_singleton, ?elem_of_nil.
      * split; [intros ->; exists x, y, post'; tauto|].
        by intros (? & ? & ? & [= <- <- <-] & _ & _ & _ & ->).
      * split; [done|]. intros (? & ? & ? & [= <- <- <-] & ?). tauto.
Qed.

Lemma tie_step_elem results pos p :
  results !! pos = Some E -> p ∈ tie_step results pos ->
  exists pre a b c post, results = pre ++ a :: b :: c :: E :: post /\ pos = length pre + 3
    /\ p ∈ tie_report pos a b c post.
Proof.
  intros HE Hp. destruct (decide (3 <= pos)) as [Hpos|Hpos].
  - destruct (tie_decompose results pos Hpos HE) as (pre & a & b & c & post & -> & ->).
    rewrite tie_step_shape in Hp. by exists pre, a, b, c, post.
  - unfold tie_step in Hp. rewrite decide_False in Hp by done. by apply elem_of_nil in Hp.
Qed.

(** ** The detector *)

(** With fewer than eight outcomes the tie detector reports
    nothing. *)
Lemma ties_short results : length results < 8 -> analyze_strategic_ties results = [].
Proof. intros H. unfold analyze_strategic_ties. by rewrite decide_True. Qed.

(** C10. The patterns of type [strategic_tie_after_sequence] are exactly
    these: for every tie of a history of at least eight outcomes that is
    preceded by three outcomes [a b b] with [b] not a tie, one pattern
    at the tie's index, with colour [b] and sequence length 3 when
    [a = b] and 2 otherwise. *)
Theorem ties_after_sequence_iff results p :
  p ∈ analyze_strategic_ties results /\ type p = strategic_tie_after_sequence <->
  8 <= length results /\
  exists pre a b post, results = pre ++ a :: b :: b :: E :: post /\ b <> E
    /\ p = after_sequence_pattern (length pre + 3) b (if decide (a = b) then 3 else 2).
Proof.
  rewrite elem_of_strategic_ties. split.
  - intros [[Hlen (pos & HE & Hp)] Ht]. split; [done|].
    destruct (tie_step_elem _ _ _ HE Hp) as (pre & a & b & c & post & -> & -> & Hr).
    apply elem_of_tie_report in Hr
      as [(-> & Hc & ->)|(x & y & post' & _ & _ & _ & _ & ->)]; [|done].
    by exists pre, a, c, post.
  - intros [Hlen (pre & a & b & post & -> & Hb & ->)]. split; [|done]. split; [done|].
    exists (length pre + 3). split.
    + replace (pre ++ a :: b :: b :: E :: post) with ((pre ++ [a; b; b]) ++ E :: post)
        by by rewrite <- app_assoc.
      apply list_lookup_middle. rewrite length_app. simpl. lia.
    + rewrite tie_step_shape. apply elem_of_tie_report. by left.
Qed.

Lemma ties_after_sequence_iff_witness :
  after_sequence_pattern 4 C 2 ∈ analyze_strategic_ties [C; V; C; C; E; V; V; C]
  /\ type (after_sequence_pattern 4 C 2) = strategic_tie_after_sequence.
Proof.
  apply ties_after_sequence_iff. split; [simpl; lia|].
  by exists [C], V, C, [V; V; C].
Defined.

(** C12. The patterns of type [strategic_tie_before_reversal] are
    exactly these: for every tie of a history of at least eight outcomes
    that has three outcomes before it, the last of them [c], and at least
    two after it, the first of them [x], with [c] and [x] different and
    neither a tie, one pattern at the tie's index from [c] to [x]. *)
Theorem ties_before_reversal_iff results p :
  p ∈ analyze_strategic_ties results /\ type p = strategic_tie_before_reversal <->
  8 <= length results /\
  exists pre a b c x y post, results = pre ++ a :: b :: c :: E :: x :: y :: post
    /\ c <> E /\ x <> E /\ c <> x /\ p = before_reversal_pattern (length pre + 3) c x.
Proof.
  rewrite elem_of_strategic_ties. split.
  - intros [[Hlen (pos & HE & Hp)] Ht]. split; [done|].
    destruct (tie_step_elem _ _ _ HE Hp) as (pre & a & b & c & post & -> & -> & Hr).
    apply elem_of_tie_report in Hr as [(_ & _ & ->)|(x & y & post' & -> & ? & ? & ? & ->)]; [done|].
    by exists pre, a, b, c, x, y, post'.
  - intros [Hlen (pre & a & b & c & x & y & post & -> & ? & ? & ? & ->)].
    split; [|done]. split; [done|].
    exists (length pre + 3). split.
    + replace (pre ++ a :: b :: c :: E :: x :: y :: post)
        with ((pre ++ [a; b; c]) ++ E :: x :: y :: post) by by rewrite <- app_assoc.
      apply list_lookup_middle. rewrite length_app. simpl. lia.
    + rewrite tie_step_shape. apply elem_of_tie_report. right. by exists x, y, post.
Qed.

Lemma ties_before_reversal_iff_witness :
  before_reversal_pattern 4 C V ∈ analyze_strategic_ties [C; V; C; C; E; V; V; C]
  /\ type (before_reversal_pattern 4 C V) = strategic_tie_before_reversal.
Proof.
  apply ties_before_reversal_iff. split; [simpl; lia|].
  by exists [C], V, C, C, V, V, [C].
Defined.

(** Every pattern the tie detector reports is well formed. *)
Lemma analyze_strategic_ties_wf results :
  Forall (fun p => wf_pattern p = true) (analyze_strategic_ties results).
Proof.
  apply Forall_forall. intros p [_ (pos & HE & Hp)]%elem_of_strategic_ties.
  destruct (tie_step_elem _ _ _ HE Hp) as (pre & a & b & c & post & _ & _ & Hr).
  by apply elem_of_tie_report in Hr as [(_ & _ & ->)|(x & y & post' & _ & _ & _ & _ & ->)].
Qed.

(** The shapes of what the tie detector reports. *)
Lemma elem_of_ties results p :
  p ∈ analyze_strategic_ties results ->
  (exists pos c n, p = after_sequence_pattern pos c n)
  \/ (exists pos c x, p = before_reversal_pattern pos c x).
Proof.
  intros [_ (pos & HE & Hp)]%elem_of_strategic_ties.
  destruct (tie_step_elem _ _ _ HE Hp) as (pre & a & b & c & post & _ & _ & Hr).
  apply elem_of_tie_report in Hr
    as [(_ & _ & ->)|(x & y & post' & _ & _ & _ & _ & ->)]; [left|right]; eauto.
Qed.

(** ** [get_sequence_length] *)

Lemma run_length_replicate c n l : run_length c (replicate n c ++ l) = n + run_length c l.
Proof. induction n as [|n IH]; simpl; [done|]. by rewrite decide_True, IH. Qed.

(** [get_sequence_length] returns the length of the run of equal
    outcomes that ends the sequence. *)
Theorem get_sequence_length_run pre c n :
  (forall x, last pre = Some x -> x <> c) ->
  get_sequence_length (pre ++ replicate (S n) c) = S n.
Proof.
  intros Hlast. unfold get_sequence_length.
  rewrite reverse_app, reverse_replicate. simpl. rewrite run_length_replicate.
  destruct pre as [|y pre _] using rev_ind; simpl; [lia|].
  rewrite reverse_snoc. simpl. rewrite decide_False; [lia|].
  apply Hlast. by rewrite last_snoc.
Qed.

Lemma get_sequence_length_run_witness :
  get_sequence_length ([C; V] ++ replicate 4 C) = 4.
Proof. apply (get_sequence_length_run [C; V] C 3). by intros x [= <-]. Defined.

(** C39. The reported sequence length is measured inside the three
    outcomes before the tie: whatever the run that ends at the tie, the
    length a [strategic_tie_after_sequence] reports is 2 or 3, where
    [get_sequence_length] on the run itself gives its length. *)
Theorem tie_sequence_length_capped results p :
  p ∈ analyze_strategic_ties results -> type p = strategic_tie_after_sequence ->
  exists n, sequence_length p = Some n /\ 2 <= n <= 3.
Proof.
  intros [_ (pos & HE & Hp)]%elem_of_strategic_ties Ht.
  destruct (tie_step_elem _ _ _ HE Hp) as (pre & a & b & c & post & _ & _ & Hr).
  apply elem_of_tie_report in Hr
    as [(_ & _ & ->)|(x & y & post' & _ & _ & _ & _ & ->)]; [|done].
  eexists. split; [done|]. case_decide; lia.
Qed.

Lemma tie_sequence_length_capped_witness :
  get_sequence_length (replicate 5 C) = 5 /\
  exists n, sequence_length (after_sequence_pattern 5 C 3) = Some n /\ 2 <= n <= 3.
Proof.
  split; [done|].
  apply (tie_sequence_length_capped (replicate 5 C ++ [E; V; V; E])); [|done].
  vm_compute. left.
Defined.

(** A tie with fewer than two outcomes after it is not examined for a
    reversal. *)
Example tie_near_end :
  analyze_strategic_ties [C; V; V; E; C; C; V; E; V]
  = [after_sequence_pattern 3 V 2; before_reversal_pattern 3 V C].
Proof. by vm_compute. Qed.
