(* ===== verification/Scoring.v ===== *)
(** * Scoring: [CasinoAnalyzer.assess_risk] and [detect_manipulation]

    Both scorers scan the pattern list once, add a fixed number of points
    for each pattern that matches a rule and collect one text per match;
    the level is read from the total, the reported score is the total
    clamped to 100. *)

From Stdlib Require Import QArith Lqa.
From stdpp Require Import base decidable list strings.
From S2P Require Import Prelude Model.

(** One iteration of either scorer's loop on the pair (score, texts):
    a pattern that matches a rule adds its points and appends its text. *)
Definition score_step (rule : Pattern -> option (nat * string))
    (acc : nat * list string) (pattern : Pattern) : nat * list string :=
  match rule pattern with
  | Some (points, text) => (acc.1 + points, acc.2 ++ [text])
  | None => acc
  end.

(** ** [assess_risk] *)

(** The [if]/[elif] chain of lines 172-189: the points and the factor
    text of the first rule the pattern matches. *)
Definition risk_rule (pattern : Pattern) : option (nat * string) :=
  if bool_decide (type pattern = micro_double_pattern)
     && (strength pattern >=? 8 # 10)%py
  then Some (70, "🚨 Padrão 2x2 crítico detectado")
  else if bool_decide (type pattern = micro_alternation)
          && (strength pattern >=? 8 # 10)%py
  then Some (65, "⚠️ Alternação artificial crítica")
  else if bool_decide (type pattern = hidden_cycle)
          && bool_decide (3 <= default 0 (repetitions pattern))
  then Some (60, "🔄 Ciclo programado ativo ("
                 +:+ fmt_nat (default 0 (repetitions pattern)) +:+ "x)")
  else if bool_decide (type pattern = artificial_balance)
  then Some (55, "⚖️ Equilíbrio artificial forçado")
  else if bool_decide (type pattern = intentional_break)
  then Some (50, "💥 Quebra intencional detectada")
  else if startswith (type pattern) "strategic_tie"
  then Some (40, "🔶 Empate estratégico detectado")
  else None.

(** Lines 191-198. *)
Definition risk_level_of (risk_score : nat) : Level :=
  if decide (80 <= risk_score) then critical
  else if decide (55 <= risk_score) then high
  else if decide (30 <= risk_score) then medium
  else low.

Definition assess_risk (patterns : list Pattern) : RiskAssessment :=
  let '(risk_score, risk_factors) := fold_left (score_step risk_rule) patterns (0, []) in
  {| risk_level := risk_level_of risk_score;
     risk_score := risk_score `min` 100;
     factors := risk_factors |}.

(** ** [detect_manipulation] *)

(** The [if]/[elif] chain of lines 207-216. *)
Definition manipulation_rule (pattern : Pattern) : option (nat * string) :=
  let predictability := predictability pattern in
  if (predictability >=? 90)%py
  then Some (80, "🤖 Padrão altamente artificial: " +:+ description pattern)
  else if (predictability >=? 80)%py
  then Some (60, "🎯 Padrão programado: " +:+ description pattern)
  else if (predictability >=? 70)%py
  then Some (40, "⚙️ Padrão suspeito: " +:+ description pattern)
  else None.

(** Lines 218-224. *)
Definition manipulation_level_of (manipulation_score : nat) : Level :=
  if decide (80 <= manipulation_score) then critical
  else if decide (60 <= manipulation_score) then high
  else if decide (35 <= manipulation_score) then medium
  else low.

(** The argument [risk] is not used by the source either. *)
Definition detect_manipulation (patterns : list Pattern)
    (risk : RiskAssessment) : ManipulationAssessment :=
  let '(manipulation_score, manipulation_signs) :=
    fold_left (score_step manipulation_rule) patterns (0, []) in
  {| manipulation_level := manipulation_level_of manipulation_score;
     manipulation_score := manipulation_score `min` 100;
     signs := manipulation_signs |}.

(** ** Specification vocabulary *)

(** The total before clamping and the texts, as a sum and a filtered
    map over the list. *)
Definition points (rule : Pattern -> option (nat * string)) (p : Pattern)
    : nat :=
  match rule p with Some (k, _) => k | None => 0 end.

Definition total (rule : Pattern -> option (nat * string))
    (patterns : list Pattern) : nat :=
  sum_list (points rule <$> patterns).

Definition texts (rule : Pattern -> option (nat * string))
    (patterns : list Pattern) : list string :=
  omap (fun p => snd <$> rule p) patterns.

(** What the scorers guarantee of an assessment: the score is clamped
    and the level is the one the table gives for the score. *)
Definition wf_risk (r : RiskAssessment) : bool :=
  bool_decide (risk_score r <= 100)
  && bool_decide (risk_level r = risk_level_of (risk_score r)).

Definition wf_manipulation (m : ManipulationAssessment) : bool :=
  bool_decide (manipulation_score m <= 100)
  && bool_decide (manipulation_level m = manipulation_level_of (manipulation_score m)).

(** The order of the levels. *)
Definition level_rank (l : Level) : nat :=
  match l with
  | low => 0
  | medium => 1
  | high => 2
  | critical => 3
  end.

(** * Theorems *)

Implicit Types (p : Pattern) (patterns ps qs : list Pattern).

Section Scan.
Context (rule : Pattern -> option (nat * string)).

Lemma total_cons p ps : total rule (p :: ps) = points rule p + total rule ps.
Proof. reflexivity. Qed.

Lemma texts_cons p ps :
  texts rule (p :: ps) = from_option (fun kt => [kt.2]) [] (rule p) ++ texts rule ps.
Proof. unfold texts. simpl. by destruct (rule p) as [[??]|]. Qed.

Lemma fold_score_step ps acc :
  fold_left (score_step rule) ps acc = (acc.1 + total rule ps, acc.2 ++ texts rule ps).
Proof.
  revert acc. induction ps as [|p ps IH]; intros [s ts].
  - simpl. unfold total. simpl. by rewrite Nat.add_0_r, app_nil_r.
  - cbn [fold_left]. rewrite IH, total_cons, texts_cons. unfold score_step, points.
    destruct (rule p) as [[k t]|]; simpl; [|done].
    by rewrite Nat.add_assoc, <- app_assoc.
Qed.

Lemma total_app ps qs : total rule (ps ++ qs) = total rule ps + total rule qs.
Proof. induction ps as [|p ps IH]; [done|]. rewrite <- app_comm_cons, !total_cons, IH. lia. Qed.

Lemma texts_app ps qs : texts rule (ps ++ qs) = texts rule ps ++ texts rule qs.
Proof. apply omap_app. Qed.

Lemma total_elem p ps : p ∈ ps -> points rule p <= total rule ps.
Proof.
  intros (l1 & l2 & ->)%list_elem_of_split. rewrite total_app, total_cons. lia.
Qed.

Lemma length_texts ps : length (texts rule ps) <= length ps.
Proof.
  induction ps as [|p ps IH]; [done|].
  rewrite texts_cons, length_app. destruct (rule p); simpl; lia.
Qed.
End Scan.

(** C8. The loops of the two scorers compute sums: the risk level is
    read from the sum of the points of the matching rules, the score is
    that sum clamped to 100 and the factors are the texts of the matching
    rules in the order of the patterns; likewise for the manipulation
    assessment. *)
Theorem scorers_sum ps r :
  assess_risk ps =
    {| risk_level := risk_level_of (total risk_rule ps);
       risk_score := total risk_rule ps `min` 100;
       factors := texts risk_rule ps |}
  /\ detect_manipulation ps r =
    {| manipulation_level := manipulation_level_of (total manipulation_rule ps);
       manipulation_score := total manipulation_rule ps `min` 100;
       signs := texts manipulation_rule ps |}.
Proof. unfold assess_risk, detect_manipulation. by rewrite !fold_score_step. Qed.

Lemma assess_risk_eq ps :
  assess_risk ps = {| risk_level := risk_level_of (total risk_rule ps);
                      risk_score := total risk_rule ps `min` 100;
                      factors := texts risk_rule ps |}.
Proof. unfold assess_risk. by rewrite fold_score_step. Qed.

Lemma detect_manipulation_eq ps r :
  detect_manipulation ps r =
    {| manipulation_level := manipulation_level_of (total manipulation_rule ps);
                      manipulation_score := total manipulation_rule ps `min` 100;
                      signs := texts manipulation_rule ps |}.
Proof. unfold detect_manipulation. by rewrite fold_score_step. Qed.

Lemma risk_level_of_min n : risk_level_of (n `min` 100) = risk_level_of n.
Proof. unfold risk_level_of. repeat case_decide; try done; lia. Qed.

Lemma manipulation_level_of_min n : manipulation_level_of (n `min` 100) = manipulation_level_of n.
Proof. unfold manipulation_level_of. repeat case_decide; try done; lia. Qed.

Lemma risk_level_of_mono m n :
  m <= n -> level_rank (risk_level_of m) <= level_rank (risk_level_of n).
Proof. intros H. unfold risk_level_of. repeat case_decide; simpl; lia. Qed.

Lemma manipulation_level_of_mono m n :
  m <= n ->
  level_rank (manipulation_level_of m) <= level_rank (manipulation_level_of n).
Proof. intros H. unfold manipulation_level_of. repeat case_decide; simpl; lia. Qed.

(** C27. Both scores lie between 0 and 100 for any pattern list. *)
Theorem scores_bounded ps r :
  risk_score (assess_risk ps) <= 100 /\ manipulation_score (detect_manipulation ps r) <= 100.
Proof. rewrite assess_risk_eq, detect_manipulation_eq. simpl. lia. Qed.

(** C28. The level of each assessment is the one its clamped score
    gives: critical from 80, high from 55 (risk) or 60 (manipulation),
    medium from 30 (risk) or 35 (manipulation), low below. *)
Theorem levels_from_scores ps r :
  risk_level (assess_risk ps) = risk_level_of (risk_score (assess_risk ps)) /\
  manipulation_level (detect_manipulation ps r)
  = manipulation_level_of (manipulation_score (detect_manipulation ps r)).
Proof.
  rewrite assess_risk_eq, detect_manipulation_eq. simpl.
  by rewrite risk_level_of_min, manipulation_level_of_min.
Qed.

Lemma assess_risk_wf ps : wf_risk (assess_risk ps) = true.
Proof.
  rewrite assess_risk_eq. unfold wf_risk. cbn [risk_score risk_level].
  rewrite risk_level_of_min, !bool_decide_eq_true_2; [done..|lia].
Qed.

Lemma detect_manipulation_wf ps r : wf_manipulation (detect_manipulation ps r) = true.
Proof.
  rewrite detect_manipulation_eq. unfold wf_manipulation.
  cbn [manipulation_score manipulation_level].
  rewrite manipulation_level_of_min, !bool_decide_eq_true_2; [done..|lia].
Qed.

(** More patterns never lower a level. *)
Theorem scoring_monotone ps qs r :
  level_rank (risk_level (assess_risk ps)) <= level_rank (risk_level (assess_risk (ps ++ qs))) /\
  level_rank (manipulation_level (detect_manipulation ps r))
    <= level_rank (manipulation_level (detect_manipulation (ps ++ qs) r)).
Proof.
  rewrite !assess_risk_eq, !detect_manipulation_eq, !total_app. simpl.
  split; [apply risk_level_of_mono|apply manipulation_level_of_mono]; lia.
Qed.

Lemma level_rank_2 l : 2 <= level_rank l -> l = high \/ l = critical.
Proof. destruct l; simpl; auto; lia. Qed.

Lemma manipulation_points_ge_80 p : (80 <= predictability p)%Q -> 60 <= points manipulation_rule p.
Proof.
  intros H. unfold points, manipulation_rule. cbv zeta.
  destruct (predictability p >=? 90)%py eqn:H90; [simpl; lia|].
  destruct (predictability p >=? 80)%py eqn:H80; [simpl; lia|].
  qprop. lra.
Qed.

(** One pattern of predictability 80 or more makes the
    manipulation level high or critical. *)
Lemma manipulation_high_if_predictable ps r p :
  p ∈ ps -> (80 <= predictability p)%Q ->
  2 <= level_rank (manipulation_level (detect_manipulation ps r)).
Proof.
  intros Hp H80. rewrite detect_manipulation_eq. simpl.
  pose proof (total_elem manipulation_rule p ps Hp).
  pose proof (manipulation_points_ge_80 p H80).
  unfold manipulation_level_of. repeat case_decide; simpl; lia.
Qed.

(** ** Risk and manipulation on the same patterns *)

Lemma risk_points_le p : points risk_rule p <= 70.
Proof.
  unfold points, risk_rule.
  repeat (destruct (_ && _) || destruct (bool_decide _) || destruct (startswith _ _));
    simpl; lia.
Qed.

Lemma manipulation_points_ge_70 p :
  (70 <= predictability p)%Q -> 40 <= points manipulation_rule p.
Proof.
  intros H. unfold points, manipulation_rule. cbv zeta.
  destruct (predictability p >=? 90)%py eqn:H90; [simpl; lia|].
  destruct (predictability p >=? 80)%py eqn:H80; [simpl; lia|].
  destruct (predictability p >=? 70)%py eqn:H70; [simpl; lia|].
  qprop. lra.
Qed.

(** When every pattern that adds to the risk adds at least 40 to the
    manipulation, a list with [k] of them has a risk total of at most
    [70 k] and a manipulation total of at least [40 k]. *)
Lemma totals_related ps :
  Forall (fun p => points risk_rule p = 0 \/ 40 <= points manipulation_rule p) ps ->
  exists k, total risk_rule ps <= 70 * k /\ 40 * k <= total manipulation_rule ps.
Proof.
  induction 1 as [|p ps [H0|H40] _ (k & Hr & Hm)]; [by exists 0|..];
    rewrite !total_cons; pose proof (risk_points_le p); [exists k|exists (S k)]; lia.
Qed.

(** A critical risk comes with a critical manipulation. *)
Lemma risk_critical_manipulation ps r :
  Forall (fun p => points risk_rule p = 0 \/ 40 <= points manipulation_rule p) ps ->
  risk_level (assess_risk ps) = critical ->
  manipulation_level (detect_manipulation ps r) = critical.
Proof.
  intros (k & Hr & Hm)%totals_related. rewrite assess_risk_eq, detect_manipulation_eq.
  cbn [risk_level manipulation_level]. unfold risk_level_of, manipulation_level_of.
  repeat case_decide; try done; lia.
Qed.

(** The empty pattern list: both assessments are low with score 0. *)
Example scorers_empty :
  assess_risk [] = mkRisk low 0 []
  /\ detect_manipulation [] (assess_risk []) = mkManipulation low 0 [].
Proof. done. Qed.

(** ** The scorers do not see how a rational is written *)

(** Strengths and predictabilities are compared as numbers, so two
    pattern lists that differ only in the representation of their
    rationals get the same assessments. *)
#[export] Instance risk_rule_proper : Proper (pattern_equiv ==> eq) risk_rule.
Proof.
  intros p q (Ht & Hs & _ & _ & _ & _ & Hx). unfold risk_rule, repetitions.
  rewrite Ht, Hx. by rewrite (Qgeb_proper _ _ Hs (8 # 10) _ (reflexivity _)).
Qed.

#[export] Instance manipulation_rule_proper :
  Proper (pattern_equiv ==> eq) manipulation_rule.
Proof.
  intros p q (_ & _ & _ & Hd & _ & Hp & _). unfold manipulation_rule. cbv zeta.
  rewrite Hd. by rewrite !(Qgeb_proper _ _ Hp _ _ (reflexivity _)).
Qed.

Lemma fold_score_step_proper rule (Hrule : Proper (pattern_equiv ==> eq) rule)
    ps qs acc :
  Forall2 pattern_equiv ps qs ->
  fold_left (score_step rule) ps acc = fold_left (score_step rule) qs acc.
Proof.
  intros H. revert acc. induction H as [|p q ps qs Hpq _ IH]; intros acc; [done|].
  simpl. rewrite IH. f_equal. unfold score_step. by rewrite (Hrule p q Hpq).
Qed.

#[export] Instance assess_risk_proper :
  Proper (Forall2 pattern_equiv ==> eq) assess_risk.
Proof. intros ps qs H. unfold assess_risk. by rewrite (fold_score_step_proper _ _ ps qs). Qed.

#[export] Instance detect_manipulation_proper :
  Proper (Forall2 pattern_equiv ==> eq ==> eq) detect_manipulation.
Proof.
  intros ps qs H r ? <-. unfold detect_manipulation.
  by rewrite (fold_score_step_proper _ _ ps qs).
Qed.
