(* ===== verification/Predict.v ===== *)
(** * Predict: [CasinoAnalyzer.make_prediction] and [predict_next_in_cycle]

    The decision chain that turns the patterns and the two assessments
    into one recommendation.  Pattern dictionaries are indexed with keys
    only some kinds carry, so the function lives in the [result] monad;
    on well-formed patterns it never raises. *)

From Stdlib Require Import QArith Qminmax Lqa.
From stdpp Require Import base decidable list strings.
From S2P Require Import Prelude Model Scoring.

(** The loop of lines 285-288: the first index at which the non-tie
    history departs from the pattern repeated from index 0, if any.  The
    loop only reads; nothing after it depends on where it stopped. *)
Definition first_mismatch (pattern non_empate : list Outcome) : option nat :=
  let cycle_len := length pattern in
  fst <$> list_find (fun i => non_empate !! i <> pattern !! (i `mod` cycle_len))
            (range 0 (length non_empate)).

(** Lines 280-290. *)
Definition predict_next_in_cycle (results pattern : list Outcome)
    : option Outcome :=
  let non_empate := non_empate results in
  if bool_decide (pattern = []) || bool_decide (non_empate = []) then None
  else
    let cycle_len := length pattern in
    let _ := first_mismatch pattern non_empate in
    let pos := length non_empate `mod` cycle_len in
    if decide (pos < cycle_len) then pattern !! pos else None.

(** Line 229: the dictionary every early return starts from. *)
Definition initial_prediction : Prediction := {|
  color := None;
  confidence := 0;
  reasoning := "";
  strategy := "AGUARDAR MELHORES CONDIÇÕES"
|}.

(** Lines 265-278: the bet on the most frequent colour. *)
Definition frequency_prediction (results : list Outcome) : Prediction :=
  let non_empate := non_empate results in
  match most_common1 (Counter non_empate) with
  | None => initial_prediction
  | Some (most_common_color, count) =>
      let confidence := (ratio count (length non_empate) * 100)%Q in
      {| color := Some most_common_color;
         confidence := Qmin confidence 75;
         reasoning :=
           "Aposta baseada em frequência histórica de " +:+ dquote
           +:+ to_str most_common_color +:+ dquote +:+ " (" +:+ fmt_nat count
           +:+ "/" +:+ fmt_nat (length non_empate) +:+ ")";
         strategy := "APOSTAR NA PRINCIPAL COR" |}
  end.

(** Lines 257-262: the recommendation of the cycle branch. *)
Definition cycle_bet (pattern : list Outcome) (repetitions : nat)
    (next_color : Outcome) : Prediction := {|
  color := Some next_color;
  confidence := Qnat (70 `min` (50 + repetitions * 5));
  reasoning :=
    "Ciclo detectado: " +:+ dquote +:+ join pattern +:+ dquote
    +:+ " (" +:+ fmt_nat repetitions +:+ "x)";
  strategy := "SEGUIR CICLO"
|}.

(** Lines 253-263: the bet on the continuation of a cycle; [None] when
    the branch falls through to the next one. *)
Definition cycle_prediction (results : list Outcome) (patterns : list Pattern)
    (risk : RiskAssessment) (manipulation : ManipulationAssessment)
    : result (option Prediction) :=
  let cycle_pattern :=
    head (filter (fun p => type p = hidden_cycle
                           /\ 2 <= default 0 (repetitions p)) patterns) in
  match cycle_pattern with
  | Some cycle_pattern =>
      if bool_decide (risk_level risk = low)
         && bool_decide (manipulation_level manipulation = low)
      then
        (w <- getitem "pattern" (pattern cycle_pattern) ;;
         match predict_next_in_cycle results w with
         | Some next_color =>
             (n <- getitem "repetitions" (repetitions cycle_pattern) ;;
              Ok (Some (cycle_bet w n next_color)))%py
         | None => Ok None
         end)%py
      else Ok None
  | None => Ok None
  end.

(** Lines 243-250: the recommendation of the compensation branch. *)
Definition compensation_bet (compensation_pattern : Pattern)
    (color : Outcome) : Prediction := {|
  color := Some color;
  confidence := Qmin 75 (55 + strength compensation_pattern * 20);
  reasoning :=
    "Compensação estatística esperada: " +:+ description compensation_pattern;
  strategy := "APOSTAR COMPENSAÇÃO"
|}.

(** Lines 241-251: the bet on a pending compensation; [None] when the
    branch falls through to the next one. *)
Definition compensation_prediction (patterns : list Pattern)
    (risk : RiskAssessment) (manipulation : ManipulationAssessment)
    : result (option Prediction) :=
  let compensation_pattern :=
    head (filter (fun p => type p = compensation_pending) patterns) in
  match compensation_pattern with
  | Some compensation_pattern =>
      if bool_decide (risk_level risk = low)
         && bool_decide (manipulation_level manipulation = low)
      then
        (c <- getitem "favored_color" (favored_color compensation_pattern) ;;
         Ok (Some (compensation_bet compensation_pattern c)))%py
      else Ok None
  | None => Ok None
  end.

(** Lines 231-234 and 236-239: the two early returns. *)
Definition stop_prediction : Prediction := {|
  color := None;
  confidence := 0;
  reasoning := "🚨 CONDIÇÕES CRÍTICAS - Manipulação máxima detectada";
  strategy := "PARAR COMPLETAMENTE"
|}.

Definition wait_prediction : Prediction := {|
  color := None;
  confidence := 0;
  reasoning := "⛔ Manipulação alta - Evitar apostas";
  strategy := "AGUARDAR NORMALIZAÇÃO"
|}.

(** Lines 241-278: the three betting branches, tried in order. *)
Definition bet_prediction (results : list Outcome) (patterns : list Pattern)
    (risk : RiskAssessment) (manipulation : ManipulationAssessment)
    : result Prediction :=
  (by_compensation <- compensation_prediction patterns risk manipulation ;;
   match by_compensation with
   | Some prediction => Ok prediction
   | None =>
       (by_cycle <- cycle_prediction results patterns risk manipulation ;;
        match by_cycle with
        | Some prediction => Ok prediction
        | None => Ok (frequency_prediction results)
        end)%py
   end)%py.

Definition make_prediction (results : list Outcome) (patterns : list Pattern)
    (risk : RiskAssessment) (manipulation : ManipulationAssessment)
    : result Prediction :=
  if bool_decide (risk_level risk = critical)
     || bool_decide (manipulation_level manipulation = critical)
  then Ok stop_prediction
  else if bool_decide (manipulation_level manipulation = high)
  then Ok wait_prediction
  else bet_prediction results patterns risk manipulation.

(** ** Specification vocabulary *)

(** The confidence of the frequency bet on a colour seen [n] times among
    [len] non-tie outcomes. *)
Definition frequency_confidence (n len : nat) : Q :=
  Qmin (ratio n len * 100) 75.

(** A recommendation that names no colour: one of the two early returns
    of [make_prediction]. *)
Definition no_bet (pr : Prediction) : Prop :=
  pr = stop_prediction \/ pr = wait_prediction.

(** What the predictor guarantees of a recommendation: without a colour
    the confidence is 0 and the strategy is to wait or to stop; with a
    colour the confidence is between 50 and 75 and the strategy is one of
    the three bets. *)
Definition wf_prediction (pr : Prediction) : bool :=
  match color pr with
  | None =>
      Qeq_bool (confidence pr) 0
      && bool_decide (strategy pr ∈ ["AGUARDAR MELHORES CONDIÇÕES";
                                     "PARAR COMPLETAMENTE"; "AGUARDAR NORMALIZAÇÃO"])
  | Some _ =>
      Qle_bool 50 (confidence pr) && Qle_bool (confidence pr) 75
      && bool_decide (strategy pr ∈ ["APOSTAR COMPENSAÇÃO"; "SEGUIR CICLO";
                                     "APOSTAR NA PRINCIPAL COR"])
  end.

(** Both assessments are low: the condition of the two pattern bets. *)
Definition calm (risk : RiskAssessment) (manipulation : ManipulationAssessment) : Prop :=
  risk_level risk = low /\ manipulation_level manipulation = low.

(** The patterns the two pattern bets look for. *)
Definition is_pending (p : Pattern) : Prop := type p = compensation_pending.
Definition is_cycle (p : Pattern) : Prop :=
  type p = hidden_cycle /\ 2 <= default 0 (repetitions p).

(** What the compensation branch does: a bet on the favoured colour of
    the first pending compensation, or nothing. *)
Inductive by_compensation patterns risk manipulation : option Prediction -> Prop :=
| compensation_bets p c :
    calm risk manipulation -> first_such is_pending patterns p ->
    favored_color p = Some c ->
    by_compensation patterns risk manipulation (Some (compensation_bet p c))
| compensation_none :
    Forall (fun p => ~ is_pending p) patterns ->
    by_compensation patterns risk manipulation None
| compensation_not_calm :
    ~ calm risk manipulation ->
    by_compensation patterns risk manipulation None.

(** What the cycle branch does: a bet on the continuation of the first
    repeated cycle, or nothing. *)
Inductive by_cycle results patterns risk manipulation : option Prediction -> Prop :=
| cycle_bets p w n c :
    calm risk manipulation -> first_such is_cycle patterns p ->
    pattern p = Some w -> repetitions p = Some n ->
    predict_next_in_cycle results w = Some c ->
    by_cycle results patterns risk manipulation (Some (cycle_bet w n c))
| cycle_no_next p w :
    calm risk manipulation -> first_such is_cycle patterns p ->
    pattern p = Some w -> predict_next_in_cycle results w = None ->
    by_cycle results patterns risk manipulation None
| cycle_none :
    Forall (fun p => ~ is_cycle p) patterns ->
    by_cycle results patterns risk manipulation None
| cycle_not_calm :
    ~ calm risk manipulation ->
    by_cycle results patterns risk manipulation None.

(** The betting branches, in their order of preference. *)
Inductive bets results patterns risk manipulation : Prediction -> Prop :=
| bets_compensation pr :
    by_compensation patterns risk manipulation (Some pr) ->
    bets results patterns risk manipulation pr
| bets_cycle pr :
    by_compensation patterns risk manipulation None ->
    by_cycle results patterns risk manipulation (Some pr) ->
    bets results patterns risk manipulation pr
| bets_frequency :
    by_compensation patterns risk manipulation None ->
    by_cycle results patterns risk manipulation None ->
    bets results patterns risk manipulation (frequency_prediction results).

(** The decision chain of the predictor. *)
Inductive chooses results patterns risk manipulation : Prediction -> Prop :=
| chooses_stop :
    risk_level risk = critical \/ manipulation_level manipulation = critical ->
    chooses results patterns risk manipulation stop_prediction
| chooses_wait :
    risk_level risk <> critical -> manipulation_level manipulation = high ->
    chooses results patterns risk manipulation wait_prediction
| chooses_bet pr :
    risk_level risk <> critical ->
    level_rank (manipulation_level manipulation) < 2 ->
    bets results patterns risk manipulation pr ->
    chooses results patterns risk manipulation pr.

(** * Theorems *)

Implicit Types (results w : list Outcome) (patterns : list Pattern).
Implicit Types (p : Pattern) (risk : RiskAssessment).
Implicit Types (manipulation : ManipulationAssessment).

(** ** The early returns *)

(** A critical risk level or a critical manipulation level makes
    the recommendation name no colour, with confidence 0 and the
    strategy to stop completely, whatever the patterns are. *)
Theorem make_prediction_critical results patterns risk manipulation :
  risk_level risk = critical \/ manipulation_level manipulation = critical ->
  exists pr, make_prediction results patterns risk manipulation = Ok pr
    /\ color pr = None /\ confidence pr = 0%Q /\ strategy pr = "PARAR COMPLETAMENTE".
Proof.
  intros H. unfold make_prediction.
  destruct (bool_decide _ || bool_decide _) eqn:Hb; [by eexists|].
  apply orb_false_iff in Hb as [?%bool_decide_eq_false ?%bool_decide_eq_false]. tauto.
Qed.

Lemma make_prediction_critical_witness :
  exists pr,
    make_prediction [C; C; V]
      [mkPattern compensation_pending 1 medium "" "" 60 (PendingExtra 12 6 V)]
      (mkRisk critical 100 []) (mkManipulation low 0 []) = Ok pr
    /\ color pr = None /\ confidence pr = 0%Q
    /\ strategy pr = "PARAR COMPLETAMENTE".
Proof. apply make_prediction_critical. by left. Defined.

(** A high manipulation level (and nothing critical) makes the
    recommendation wait for normalisation. *)
Lemma make_prediction_high results patterns risk manipulation :
  risk_level risk <> critical -> manipulation_level manipulation = high ->
  exists pr, make_prediction results patterns risk manipulation = Ok pr
    /\ color pr = None /\ confidence pr = 0%Q
    /\ strategy pr = "AGUARDAR NORMALIZAÇÃO".
Proof.
  intros Hr Hm. unfold make_prediction. rewrite Hm.
  rewrite (bool_decide_eq_false_2 _ Hr). by eexists.
Qed.

(** A manipulation level of high or critical silences the predictor,
    whatever the risk level and the patterns are. *)
Lemma make_prediction_no_bet results patterns risk manipulation :
  2 <= level_rank (manipulation_level manipulation) ->
  exists pr, make_prediction results patterns risk manipulation = Ok pr /\ no_bet pr.
Proof.
  intros [Hl|Hl]%level_rank_2; unfold make_prediction, no_bet; rewrite Hl.
  - destruct (bool_decide (risk_level risk = critical)); eexists; (split; [done|]); auto.
  - rewrite orb_true_r. eexists. split; [done|]. auto.
Qed.

Lemma no_bet_color pr : no_bet pr -> color pr = None /\ confidence pr = 0%Q.
Proof. by intros [-> | ->]. Qed.

Lemma no_bet_strategy pr :
  no_bet pr ->
  strategy pr = "PARAR COMPLETAMENTE" \/ strategy pr = "AGUARDAR NORMALIZAÇÃO".
Proof. intros [-> | ->]; [by left|by right]. Qed.

(** The strategies of the frequency bet. *)
Lemma frequency_prediction_strategy results :
  strategy (frequency_prediction results) = "AGUARDAR MELHORES CONDIÇÕES"
  \/ strategy (frequency_prediction results) = "APOSTAR NA PRINCIPAL COR".
Proof.
  unfold frequency_prediction. cbv zeta.
  destruct (most_common1 _) as [[??]|]; [by right|by left].
Qed.

Lemma frequency_prediction_confidence results :
  (0 <= confidence (frequency_prediction results) <= 75)%Q.
Proof.
  unfold frequency_prediction. cbv zeta.
  destruct (most_common1 _) as [[c n]|]; simpl; [|done].
  split; [|apply Q.le_min_r]. apply Q.min_glb; [|done].
  apply Qmult_le_0_compat; [|done]. unfold ratio, Qle. simpl. lia.
Qed.

Lemma frequency_prediction_color results c :
  color (frequency_prediction results) = Some c -> is_CV c.
Proof.
  unfold frequency_prediction. cbv zeta.
  destruct (most_common1 _) as [[c' n]|] eqn:Hm; [|done]. intros [= ->].
  apply most_common1_spec in Hm as (Hc & _). by eapply non_empate_CV.
Qed.

(** ** No exception on well-formed patterns *)

Lemma compensation_prediction_ok patterns risk manipulation :
  Forall (fun p => wf_pattern p = true) patterns ->
  exists o, compensation_prediction patterns risk manipulation = Ok o.
Proof.
  intros Hwf. unfold compensation_prediction. cbv zeta.
  destruct (head _) as [p|] eqn:Hhead; [|by eexists].
  destruct (_ && _); [|by eexists].
  apply head_filter_Some in Hhead as [Hin Ht]. rewrite Forall_forall in Hwf.
  destruct (wf_pending p (Hwf _ Hin) Ht) as [c ->]. by eexists.
Qed.

Lemma cycle_prediction_ok results patterns risk manipulation :
  Forall (fun p => wf_pattern p = true) patterns ->
  exists o, cycle_prediction results patterns risk manipulation = Ok o.
Proof.
  intros Hwf. unfold cycle_prediction. cbv zeta.
  destruct (head _) as [p|] eqn:Hhead; [|by eexists].
  destruct (_ && _); [|by eexists].
  apply head_filter_Some in Hhead as [Hin [Ht _]]. rewrite Forall_forall in Hwf.
  destruct (wf_cycle p (Hwf _ Hin) Ht) as [[w ->] [n ->]]. simpl.
  destruct (predict_next_in_cycle results w); by eexists.
Qed.

(** The two indexing branches are the only places that can raise. *)
Lemma make_prediction_ok_of results patterns risk manipulation :
  (exists o, compensation_prediction patterns risk manipulation = Ok o) ->
  (exists o, cycle_prediction results patterns risk manipulation = Ok o) ->
  exists pr, make_prediction results patterns risk manipulation = Ok pr.
Proof.
  intros [o1 H1] [o2 H2]. unfold make_prediction, bet_prediction.
  destruct (_ || _); [by eexists|]. destruct (bool_decide _); [by eexists|].
  rewrite H1. simpl. destruct o1; [by eexists|].
  rewrite H2. simpl. destruct o2; by eexists.
Qed.

(** C7. On well-formed patterns [make_prediction] returns a
    prediction: no dictionary access raises [KeyError]. *)
Theorem make_prediction_total results patterns risk manipulation :
  Forall (fun p => wf_pattern p = true) patterns ->
  exists pr, make_prediction results patterns risk manipulation = Ok pr.
Proof.
  intros Hwf. apply make_prediction_ok_of;
    [by apply compensation_prediction_ok|by apply cycle_prediction_ok].
Qed.

Lemma make_prediction_total_witness :
  exists pr,
    make_prediction [C; C; V]
      [mkPattern compensation_pending 1 medium "" "" 60 (PendingExtra 12 6 V)]
      (mkRisk low 0 []) (mkManipulation low 0 []) = Ok pr.
Proof. apply make_prediction_total. by repeat constructor. Defined.

(** A [compensation_pending] dictionary without 'favored_color', which
    no detector builds, makes the compensation branch raise. *)
Example make_prediction_keyerror :
  make_prediction [C]
    [mkPattern compensation_pending 1 high "" "" 80 NoExtra]
    (mkRisk low 0 []) (mkManipulation low 0 [])
  = Raise (KeyError "favored_color").
Proof. reflexivity. Qed.

(** ** The decision chain *)

Lemma calm_test risk manipulation :
  bool_decide (risk_level risk = low) && bool_decide (manipulation_level manipulation = low) = true
  <-> calm risk manipulation.
Proof. unfold calm. by rewrite andb_true_iff, !bool_decide_eq_true. Qed.

Lemma compensation_prediction_spec patterns risk manipulation o :
  compensation_prediction patterns risk manipulation = Ok o <->
  by_compensation patterns risk manipulation o.
Proof.
  unfold compensation_prediction. cbv zeta.
  destruct (head _) as [p|] eqn:Hh.
  - apply head_filter_first in Hh.
    destruct (_ && _) eqn:Hc.
    + apply calm_test in Hc. split.
      * destruct (favored_color p) as [c|] eqn:Hf; [|done]. intros [= <-]. by econstructor.
      * intros [p' c ? Hp' Hf| Hno | Hnc]; [|by destruct (first_such_not_none _ _ _ Hh)|done].
        rewrite (first_such_unique _ _ _ _ Hh Hp'), Hf. done.
    + assert (~ calm risk manipulation) as Hnc by (rewrite <- calm_test; congruence).
      split; [intros [= <-]; by apply compensation_not_calm|].
      by intros [| |].
  - apply head_filter_None in Hh. split; [intros [= <-]; by apply compensation_none|].
    intros [p c ? Hp _| |]; [|done..]. by destruct (first_such_not_none _ _ _ Hp).
Qed.

Lemma cycle_prediction_spec results patterns risk manipulation o :
  cycle_prediction results patterns risk manipulation = Ok o <->
  by_cycle results patterns risk manipulation o.
Proof.
  unfold cycle_prediction. cbv zeta.
  destruct (head _) as [p|] eqn:Hh.
  - apply head_filter_first in Hh.
    destruct (_ && _) eqn:Hc.
    + apply calm_test in Hc. split.
      * destruct (pattern p) as [w|] eqn:Hw; [simpl|done].
        destruct (predict_next_in_cycle results w) as [c|] eqn:Hn.
        -- destruct (repetitions p) as [n|] eqn:Hr; [|done]. intros [= <-]. by econstructor.
        -- intros [= <-]. by econstructor.
      * intros [p' w n c ? Hp' Hw Hr Hn|p' w ? Hp' Hw Hn|Hno|Hnc];
          [| |by destruct (first_such_not_none _ _ _ Hh)|done];
          rewrite (first_such_unique _ _ _ _ Hh Hp'), Hw; simpl; rewrite Hn, ?Hr; done.
    + assert (~ calm risk manipulation) as Hnc by (rewrite <- calm_test; congruence).
      split; [intros [= <-]; by apply cycle_not_calm|].
      by intros [| | |].
  - apply head_filter_None in Hh. split; [intros [= <-]; by apply cycle_none|].
    intros [p ???? Hp|p ?? Hp| |]; [| |done..]; by destruct (first_such_not_none _ _ _ Hp).
Qed.

Lemma bet_prediction_spec results patterns risk manipulation pr :
  bet_prediction results patterns risk manipulation = Ok pr <->
  bets results patterns risk manipulation pr.
Proof.
  unfold bet_prediction. split.
  - destruct (compensation_prediction _ _ _) as [o1|] eqn:H1; [|done].
    apply compensation_prediction_spec in H1. simpl.
    destruct o1; [intros [= <-]; by apply bets_compensation|].
    destruct (cycle_prediction _ _ _ _) as [o2|] eqn:H2; [|done].
    apply cycle_prediction_spec in H2. simpl.
    destruct o2; intros [= <-]; [by apply bets_cycle|by apply bets_frequency].
  - intros [pr' H1|pr' H1 H2|H1 H2]; apply compensation_prediction_spec in H1;
      rewrite H1; simpl; [done|..]; apply cycle_prediction_spec in H2; by rewrite H2.
Qed.

(** The guards of the two early returns split the inputs three ways. *)
Lemma make_prediction_cases results patterns risk manipulation :
  ((risk_level risk = critical \/ manipulation_level manipulation = critical)
   /\ make_prediction results patterns risk manipulation = Ok stop_prediction)
  \/ (risk_level risk <> critical /\ manipulation_level manipulation = high
      /\ make_prediction results patterns risk manipulation = Ok wait_prediction)
  \/ (risk_level risk <> critical
      /\ level_rank (manipulation_level manipulation) < 2
      /\ make_prediction results patterns risk manipulation
         = bet_prediction results patterns risk manipulation).
Proof.
  unfold make_prediction.
  destruct (risk_level risk), (manipulation_level manipulation); simpl;
    first [left; split; [auto|done] | right; left; done
          | right; right; split_and!; [done|lia|done]].
Qed.

(** C6. [make_prediction] implements the decision chain: it returns
    the stop recommendation when a level is critical, the wait
    recommendation when the manipulation level is high, and otherwise the
    first of the three bets that applies: the favoured colour of the first
    pending compensation and then the continuation of the first cycle
    seen twice (both only when risk and manipulation are low), and the
    most frequent colour.  It returns nothing else, and it raises exactly
    when the pattern a bet reads lacks a key. *)
Theorem make_prediction_refines results patterns risk manipulation pr :
  make_prediction results patterns risk manipulation = Ok pr <->
  chooses results patterns risk manipulation pr.
Proof.
  destruct (make_prediction_cases results patterns risk manipulation)
    as [[Hc ->]|[(Hr & Hm & ->)|(Hr & Hm & ->)]].
  - split; [intros [= <-]; by constructor|].
    intros [|? Hh|? ? Hlt _]; [done|exfalso..]; destruct Hc as [|Hc]; try done;
      rewrite Hc in *; simpl in *; try done; lia.
  - split; [intros [= <-]; by constructor|].
    intros [[|Hc]| |? ? Hlt _]; [done| |done|]; rewrite Hm in *; simpl in *; try done; lia.
  - rewrite bet_prediction_spec. split; [by constructor|].
    intros [[|Hc]|? Hh|]; [done| | |done]; rewrite ?Hc, ?Hh in *; simpl in *; lia.
Qed.

Lemma make_prediction_refines_witness :
  make_prediction [C; C; V]
    [mkPattern compensation_pending 1 medium "" "" 60 (PendingExtra 12 6 V)]
    (mkRisk low 0 []) (mkManipulation low 0 [])
  = Ok (compensation_bet
          (mkPattern compensation_pending 1 medium "" "" 60 (PendingExtra 12 6 V)) V).
Proof.
  apply make_prediction_refines. apply chooses_bet; [done|simpl; lia|].
  apply bets_compensation, compensation_bets; [done| |done]. by exists [], [].
Defined.

(** ** Cycle continuation *)

(** C31. For a non-empty pattern and a history with a non-tie outcome
    [predict_next_in_cycle] always returns a colour: the entry of the
    pattern at index (number of non-tie outcomes) modulo (length of the
    pattern), wherever the history departs from the pattern. *)
Theorem predict_next_in_cycle_total results w :
  w <> [] -> non_empate results <> [] ->
  exists c, predict_next_in_cycle results w = Some c
    /\ w !! (length (non_empate results) `mod` length w) = Some c.
Proof.
  intros Hw Hne. unfold predict_next_in_cycle. cbv zeta.
  rewrite !bool_decide_eq_false_2 by done. simpl.
  assert (0 < length w) by (destruct w; [done|simpl; lia]).
  assert (length (non_empate results) `mod` length w < length w) as Hlt
    by (apply Nat.mod_upper_bound; lia).
  rewrite decide_True by done.
  destruct (lookup_lt_is_Some_2 w _ Hlt) as [c Hc]. by exists c.
Qed.

Lemma predict_next_in_cycle_total_witness :
  exists c, predict_next_in_cycle [C; V; E; C; C; V] [V; V; C] = Some c
    /\ [V; V; C] !! (length (non_empate [C; V; E; C; C; V]) `mod` length [V; V; C])
       = Some c.
Proof. by apply predict_next_in_cycle_total. Defined.

(** ** The frequency bet *)

Lemma frequency_confidence_bounds n len :
  0 < len -> len <= 2 * n -> n <= len -> (50 <= frequency_confidence n len <= 75)%Q.
Proof.
  intros Hlen Hn Hle. unfold frequency_confidence.
  assert (1 # 2 <= ratio n len)%Q by (apply ratio_ge; lia).
  split; [apply Q.min_glb; lra|apply Q.le_min_r].
Qed.

Lemma frequency_confidence_le n1 n2 len :
  n1 <= n2 -> (frequency_confidence n1 len <= frequency_confidence n2 len)%Q.
Proof.
  intros Hn. unfold frequency_confidence.
  assert (ratio n1 len <= ratio n2 len)%Q by (unfold ratio, Qle; simpl; nia).
  apply Q.min_le_compat_r. lra.
Qed.

Lemma frequency_confidence_saturated n len :
  0 < len -> 3 * len <= 4 * n -> (frequency_confidence n len == 75)%Q.
Proof.
  intros Hlen Hn. unfold frequency_confidence.
  assert (3 # 4 <= ratio n len)%Q by (apply ratio_ge; lia).
  apply Q.min_r. lra.
Qed.

(** The frequency bet on a history with a non-tie outcome: the colour
    it names, and its count, which is the larger of the two counts. *)
Lemma frequency_prediction_dominant results :
  non_empate results <> [] ->
  exists c,
    frequency_prediction results =
      {| color := Some c;
         confidence := frequency_confidence (count c (non_empate results))
                         (length (non_empate results));
         reasoning :=
           "Aposta baseada em frequência histórica de " +:+ dquote
           +:+ to_str c +:+ dquote +:+ " (" +:+ fmt_nat (count c (non_empate results))
           +:+ "/" +:+ fmt_nat (length (non_empate results)) +:+ ")";
         strategy := "APOSTAR NA PRINCIPAL COR" |}
    /\ is_CV c
    /\ count c (non_empate results)
       = count C (non_empate results) `max` count V (non_empate results).
Proof.
  intros Hne. unfold frequency_prediction. cbv zeta.
  destruct (most_common1_is_Some _ Hne) as [[c n] Hm]. rewrite Hm.
  destruct (most_common1_spec _ _ _ Hm) as (Hc & -> & Hmax).
  exists c. split_and!; [done|by eapply non_empate_CV|].
  pose proof (Hmax C). pose proof (Hmax V).
  destruct (non_empate_CV _ _ Hc) as [-> | ->]; lia.
Qed.

(** The confidence of the frequency bet does not decrease when the
    dominant colour's count grows among the same number of non-tie
    outcomes. *)
Theorem frequency_confidence_mono results1 results2 :
  non_empate results1 <> [] ->
  length (non_empate results1) = length (non_empate results2) ->
  count C (non_empate results1) `max` count V (non_empate results1)
    <= count C (non_empate results2) `max` count V (non_empate results2) ->
  (confidence (frequency_prediction results1)
   <= confidence (frequency_prediction results2))%Q.
Proof.
  intros Hne Hlen Hle.
  assert (non_empate results2 <> []) as Hne2
    by (intros Heq; rewrite Heq in Hlen; by destruct (non_empate results1)).
  destruct (frequency_prediction_dominant _ Hne) as (c1 & -> & _ & ->).
  destruct (frequency_prediction_dominant _ Hne2) as (c2 & -> & _ & ->).
  simpl. rewrite Hlen. by apply frequency_confidence_le.
Qed.

Lemma frequency_confidence_mono_witness :
  (confidence (frequency_prediction [C; V; C; E; V])
   <= confidence (frequency_prediction [C; C; E; C; V]))%Q.
Proof. apply frequency_confidence_mono; [done|done|vm_compute; lia]. Defined.

(** C26. On a history with a non-tie outcome the frequency bet names a
    colour among 'C' and 'V' that occurs at least as often as the other,
    with the strategy to bet on the main colour and a confidence of
    min(100 * count / total, 75), which lies between 50 and 75. *)
Theorem frequency_prediction_spec results :
  non_empate results <> [] ->
  exists c n,
    color (frequency_prediction results) = Some c
    /\ confidence (frequency_prediction results)
       = frequency_confidence n (length (non_empate results))
    /\ strategy (frequency_prediction results) = "APOSTAR NA PRINCIPAL COR"
    /\ is_CV c /\ n = count c (non_empate results)
    /\ count (other c) (non_empate results) <= n
    /\ (50 <= frequency_confidence n (length (non_empate results)) <= 75)%Q.
Proof.
  intros Hne. unfold frequency_prediction. cbv zeta.
  destruct (most_common1_is_Some _ Hne) as [[c n] Hm]. rewrite Hm.
  destruct (most_common1_spec _ _ _ Hm) as (Hc & Hn & Hmax).
  exists c, n. do 6 (split; [done || by eapply non_empate_CV|]).
  pose proof (count_CV _ (non_empate_is_CV results)) as Hsum.
  pose proof (Hmax C). pose proof (Hmax V).
  pose proof (count_le_length c (non_empate results)).
  apply frequency_confidence_bounds; [|lia..].
  destruct (non_empate results); [done|simpl; lia].
Qed.

Lemma frequency_prediction_spec_witness :
  exists c n,
    color (frequency_prediction [V; E; C; C]) = Some c
    /\ confidence (frequency_prediction [V; E; C; C])
       = frequency_confidence n (length (non_empate [V; E; C; C]))
    /\ strategy (frequency_prediction [V; E; C; C]) = "APOSTAR NA PRINCIPAL COR"
    /\ is_CV c /\ n = count c (non_empate [V; E; C; C])
    /\ count (other c) (non_empate [V; E; C; C]) <= n
    /\ (50 <= frequency_confidence n (length (non_empate [V; E; C; C])) <= 75)%Q.
Proof. by apply frequency_prediction_spec. Defined.

(** C35. When 'C' and 'V' are equally frequent the frequency bet names
    the colour of the oldest non-tie outcome. *)
Theorem frequency_tie_break results x l :
  non_empate results = x :: l -> count C (x :: l) = count V (x :: l) ->
  color (frequency_prediction results) = Some x.
Proof.
  intros Hne Heq. unfold frequency_prediction. cbv zeta. rewrite Hne.
  destruct (most_common1_is_Some (x :: l)) as [[c n] Hm]; [done|]. rewrite Hm. simpl. f_equal.
  apply (most_common1_tie_break _ _ _ _ Hm).
  destruct (most_common1_spec _ _ _ Hm) as (Hc & -> & _).
  assert (is_CV c) as [->| ->] by (apply (non_empate_CV results); by rewrite Hne).
  all: assert (is_CV x) as [->| ->] by (apply (non_empate_CV results); rewrite Hne; left); lia.
Qed.

Lemma frequency_tie_break_witness :
  color (frequency_prediction [E; V; C; C; V]) = Some V.
Proof. by apply (frequency_tie_break _ V [C; C; V]). Defined.

(** C40. The confidence of the frequency bet saturates: whenever the
    dominant colour holds three quarters or more of the non-tie outcomes
    the confidence is 75, so it does not strictly increase with the
    dominant share. *)
Theorem frequency_confidence_saturates results :
  let ne := non_empate results in
  ne <> [] -> 3 * length ne <= 4 * (count C ne `max` count V ne) ->
  (confidence (frequency_prediction results) == 75)%Q.
Proof.
  intros ne Hne Hshare.
  destruct (frequency_prediction_dominant _ Hne) as (c & -> & _ & Hc).
  simpl. fold ne in Hc |- *. rewrite Hc.
  apply frequency_confidence_saturated; [|done].
  destruct (non_empate results) eqn:E; [done|subst ne; simpl; lia].
Qed.

Lemma frequency_confidence_saturates_witness :
  (confidence (frequency_prediction [C; C; C; V]) == 75)%Q
  /\ (confidence (frequency_prediction [C; C; C; C]) == 75)%Q.
Proof.
  split; apply frequency_confidence_saturates; (done || (vm_compute; lia)).
Defined.

(** ** Well-formed recommendations *)

Lemma wf_prediction_bet c conf reason strat :
  (50 <= conf <= 75)%Q ->
  strat ∈ ["APOSTAR COMPENSAÇÃO"; "SEGUIR CICLO"; "APOSTAR NA PRINCIPAL COR"] ->
  wf_prediction (mkPrediction (Some c) conf reason strat) = true.
Proof.
  intros [Hlo Hhi] Hs. unfold wf_prediction. cbn [color confidence strategy].
  apply Qle_bool_iff in Hlo, Hhi. by rewrite Hlo, Hhi, bool_decide_eq_true_2.
Qed.

Lemma first_such_elem {A} (P : A -> Prop) (l : list A) (x : A) :
  first_such P l x -> x ∈ l.
Proof. intros (l1 & l2 & -> & _). apply elem_of_app. right. left. Qed.

Lemma frequency_prediction_wf results : wf_prediction (frequency_prediction results) = true.
Proof.
  destruct (decide (non_empate results = [])) as [Hnil|Hne].
  { unfold frequency_prediction. by rewrite Hnil. }
  destruct (frequency_prediction_dominant results Hne) as (c & -> & _ & Hmax).
  apply wf_prediction_bet; [|by apply (bool_decide_unpack _)].
  pose proof (count_CV _ (non_empate_is_CV results)).
  pose proof (count_le_length c (non_empate results)).
  apply frequency_confidence_bounds; [|lia..].
  destruct (non_empate results); simpl in *; [done|lia].
Qed.

(** Every bet of the decision chain is well formed. *)
Lemma bets_wf results patterns risk manipulation pr :
  Forall (fun p => wf_pattern p = true) patterns ->
  bets results patterns risk manipulation pr -> wf_prediction pr = true.
Proof.
  intros Hwf [pr' Hc|pr' _ Hc|_ _]; [| |apply frequency_prediction_wf].
  - inversion Hc as [p c _ Hp%first_such_elem _| |]; subst.
    rewrite Forall_forall in Hwf. apply Hwf, wf_pattern_spec in Hp as (Hs0 & Hs1 & _).
    apply wf_prediction_bet; [|by apply (bool_decide_unpack _)].
    split; [apply Q.min_glb; lra|apply Q.le_min_l].
  - inversion Hc as [p w n c _ _ _ _ _| | |]; subst.
    apply wf_prediction_bet; [|by apply (bool_decide_unpack _)].
    split; [apply (Qnat_le 50)|apply (Qnat_le _ 75)]; lia.
Qed.

Lemma make_prediction_wf results patterns risk manipulation pr :
  Forall (fun p => wf_pattern p = true) patterns ->
  make_prediction results patterns risk manipulation = Ok pr ->
  wf_prediction pr = true.
Proof.
  intros Hwf.
  destruct (make_prediction_cases results patterns risk manipulation)
    as [[_ ->]|[(_ & _ & ->)|(_ & _ & ->)]]; [by intros [= <-]..|].
  intros Hb%bet_prediction_spec. by eapply bets_wf.
Qed.

(** ** The predictor does not see how a rational is written *)

Section Equivalent.
Context (ps qs : list Pattern) (Hpq : Forall2 pattern_equiv ps qs).

Lemma compensation_bet_proper p q c :
  pattern_equiv p q -> prediction_equiv (compensation_bet p c) (compensation_bet q c).
Proof.
  intros (_ & Hs & _ & Hd & _). unfold compensation_bet.
  split_and!; cbn [color confidence reasoning strategy]; [done|by rewrite Hs|by rewrite Hd|done].
Qed.

Lemma compensation_prediction_proper risk manipulation :
  result_rel (option_Forall2 prediction_equiv)
    (compensation_prediction ps risk manipulation)
    (compensation_prediction qs risk manipulation).
Proof.
  unfold compensation_prediction. cbv zeta.
  destruct (head_filter_Forall2 (fun p => type p = compensation_pending) pattern_equiv ps qs)
    as [p q Hp|]; [by intros x y ->%pattern_equiv_type|done| |by repeat constructor].
  destruct (_ && _); [|by repeat constructor].
  unfold favored_color. rewrite (pattern_equiv_extra _ _ Hp).
  destruct (match extra q with PendingExtra _ _ c => Some c | _ => None end) as [c|];
    simpl; [|constructor].
  do 2 constructor. by apply compensation_bet_proper.
Qed.

Lemma cycle_prediction_proper results risk manipulation :
  result_rel (option_Forall2 prediction_equiv)
    (cycle_prediction results ps risk manipulation)
    (cycle_prediction results qs risk manipulation).
Proof.
  unfold cycle_prediction. cbv zeta.
  destruct (head_filter_Forall2
              (fun p => type p = hidden_cycle /\ 2 <= default 0 (repetitions p))
              pattern_equiv ps qs) as [p q Hp|];
    [by intros x y Hxy; unfold repetitions;
       rewrite (pattern_equiv_extra _ _ Hxy), (pattern_equiv_type _ _ Hxy)
    |done| |by repeat constructor].
  destruct (_ && _); [|by repeat constructor].
  unfold pattern, repetitions. rewrite (pattern_equiv_extra _ _ Hp).
  destruct (getitem "pattern" _) as [w|]; simpl; [|constructor].
  destruct (predict_next_in_cycle results w); [|by repeat constructor].
  destruct (getitem "repetitions" _); simpl; by repeat constructor.
Qed.

Lemma bet_prediction_proper results risk manipulation :
  result_rel prediction_equiv
    (bet_prediction results ps risk manipulation)
    (bet_prediction results qs risk manipulation).
Proof.
  unfold bet_prediction.
  destruct (compensation_prediction_proper risk manipulation) as [? ? [pr1 pr2 H1|]|];
    simpl; [by constructor| |constructor].
  destruct (cycle_prediction_proper results risk manipulation) as [? ? [pr1 pr2 H2|]|];
    simpl; by constructor.
Qed.

End Equivalent.

#[export] Instance make_prediction_proper :
  Proper (eq ==> Forall2 pattern_equiv ==> eq ==> eq ==> result_rel prediction_equiv)
    make_prediction.
Proof.
  intros results ? <- ps qs Hpq risk ? <- manipulation ? <-. unfold make_prediction.
  destruct (_ || _); [by constructor|]. destruct (bool_decide _); [by constructor|].
  by apply bet_prediction_proper.
Qed.
