(* ===== verification/Floats.v ===== *)
(** * Floats: the floats of the program on binary64

    The model computes with exact rationals where the program computes
    with floats.  This file evaluates, on the kernel's binary64 numbers,
    every comparison of a float that decides a branch of the program, and
    shows that it gives the answer of the rational model on every input
    the program can produce: the counts of the micro patterns (at most 3
    and 5), and the imbalances of the windows of 12, 15 and 18.  The
    other comparisons of the program are between integers.

    It also evaluates the one float the page shows, the confidence of a
    bet, with its format [:.1f], and shows that the text is the text the
    model writes for the exact confidence: for the frequency bet on
    fewer than 80 non-tie outcomes, for the compensation bet on the
    three windows, and for the cycle bet. *)

From Corelib Require Import PrimInt63 PrimFloat.
From Stdlib Require Import ZArith QArith Qminmax Qabs.
From Stdlib.Floats Require Import SpecFloat FloatOps.
From stdpp Require Import base decidable list strings.
From S2P Require Import Prelude Format Model Micro Compensation Scoring Predict.

#[local] Set Warnings "-inexact-float".

(** A Python integer as a float; exact for the numbers involved. *)
Fixpoint int_of_nat (n : nat) : int :=
  match n with
  | O => 0%uint63
  | S n' => PrimInt63.add (int_of_nat n') 1%uint63
  end.

Definition float_of_nat (n : nat) : float :=
  PrimFloat.of_uint63 (int_of_nat n).

(** [a / b] on integers: the quotient rounded to the nearest float. *)
Definition fdiv (a b : nat) : float :=
  PrimFloat.div (float_of_nat a) (float_of_nat b).

(** Lines 172 and 175: [pattern['strength'] >= 0.8], the strength being
    [count / total] (lines 21 and 35). *)
Definition strength_test (count total : nat) : bool :=
  PrimFloat.leb 0.8%float (fdiv count total).

(** Line 85: [balance_ratio < 0.1], and line 97: [balance_ratio > 0.4],
    the ratio being [imbalance / window_size] (line 83). *)
Definition balance_below (imbalance window_size : nat) : bool :=
  PrimFloat.ltb (fdiv imbalance window_size) 0.1%float.

Definition balance_above (imbalance window_size : nat) : bool :=
  PrimFloat.ltb 0.4%float (fdiv imbalance window_size).

(** Line 108: [60 + (balance_ratio * 20)]. *)
Definition pending_predictability (imbalance window_size : nat) : float :=
  PrimFloat.add 60%float (PrimFloat.mul (fdiv imbalance window_size) 20%float).

(** Lines 208-215: the points [detect_manipulation] adds for a
    predictability. *)
Definition manipulation_points (predictability : float) : nat :=
  if PrimFloat.leb 90%float predictability then 80
  else if PrimFloat.leb 80%float predictability then 60
  else if PrimFloat.leb 70%float predictability then 40
  else 0.

(** Lines 270 and 274: the confidence of the frequency bet,
    [min(count / len(non_empate) * 100, 75)]. *)
Definition frequency_confidence_float (count total : nat) : float :=
  let confidence := PrimFloat.mul (fdiv count total) 100%float in
  if PrimFloat.ltb 75%float confidence then 75%float else confidence.

(** Line 244: the confidence of the compensation bet,
    [min(75, 55 + strength * 20)], the strength being the balance ratio
    (line 105). *)
Definition compensation_confidence_float (imbalance window_size : nat) : float :=
  let confidence :=
    PrimFloat.add 55%float (PrimFloat.mul (fdiv imbalance window_size) 20%float) in
  if PrimFloat.ltb confidence 75%float then confidence else 75%float.

(** The value of a finite float with mantissa [m] and exponent [e]. *)
Definition float_value (m : positive) (e : Z) : Q :=
  match e with
  | Z0 => Z.pos m # 1
  | Z.pos p => (Z.pos m * 2 ^ Z.pos p)%Z # 1
  | Z.neg p => Z.pos m # 2 ^ p
  end.

(** Line 364: [f"{x:.1f}"] on a float, the decimal nearest to the value
    the float has, ties to even. *)
Definition format_1f (x : float) : string :=
  match Prim2SF x with
  | S754_zero s => if s then "-0.0" else "0.0"
  | S754_infinity s => if s then "-inf" else "inf"
  | S754_nan => "nan"
  | S754_finite s m e =>
      (if s then "-" else "")
      +:+ fmt_tenths (round_half_even (float_value m e * 10))
  end.

(** ** Specification vocabulary *)

(** A boolean property of all numbers up to [n]. *)
Definition all_upto (n : nat) (P : nat -> bool) : bool :=
  forallb P (seq 0 (S n)).

(** * Theorems *)

Lemma all_upto_spec (n : nat) (P : nat -> bool) :
  all_upto n P = true -> forall d, d <= n -> P d = true.
Proof.
  unfold all_upto. rewrite forallb_forall. intros H d Hd.
  apply H, in_seq. lia.
Qed.

Lemma bool_eq_true (a b : bool) : Bool.eqb a b = true -> a = b.
Proof. by destruct a, b. Qed.

Implicit Types (n d W : nat).

(** The tests [strength >= 0.8] on the strengths of the micro patterns. *)
Lemma strength_test_exact n :
  (n <= 3 -> strength_test n 3 = (strength (micro_double n) >=? 8 # 10)%py)
  /\ (n <= 5 ->
      strength_test n 5 = (strength (micro_alternation_pattern n) >=? 8 # 10)%py).
Proof.
  split; intros Hn; apply bool_eq_true;
    revert n Hn; apply all_upto_spec; by vm_compute.
Qed.

(** The tests [balance_ratio < 0.1] and [balance_ratio > 0.4]. *)
Lemma balance_tests_exact W d :
  W ∈ [12; 15; 18] -> d <= W ->
  balance_below d W = (ratio d W <? 1 # 10)%py
  /\ balance_above d W = (ratio d W >? 4 # 10)%py.
Proof.
  intros HW Hd. repeat apply elem_of_cons in HW as [->|HW];
    [..|by apply elem_of_nil in HW];
    (split; apply bool_eq_true; revert d Hd; apply all_upto_spec; by vm_compute).
Qed.

(** The tests [predictability >= 90], [>= 80] and [>= 70] on the
    predictability [60 + balance_ratio * 20] of a pending compensation. *)
Lemma pending_points_exact W d c v f :
  W ∈ [12; 15; 18] -> d <= W ->
  manipulation_points (pending_predictability d W)
  = points manipulation_rule (compensation_pending_pattern W c v d (ratio d W) f).
Proof.
  intros HW Hd. repeat apply elem_of_cons in HW as [->|HW];
    [..|by apply elem_of_nil in HW];
    (apply Nat.eqb_eq; revert d Hd; apply all_upto_spec; by vm_compute).
Qed.

(** C25. Every comparison of a float that decides a branch takes on
    binary64 the branch it takes in the rational model: the tests of the
    strength of a micro pattern against 0.8 for the counts the detector
    can report, and, for a window of 12, 15 or 18 and any imbalance, the
    tests of the balance ratio against 0.1 and 0.4 and the tests of the
    predictability of a pending compensation against 90, 80 and 70. *)
Theorem float_comparisons_exact results W :
  W ∈ [12; 15; 18] ->
  let n2 := double_pattern_count (lastn 6 results) in
  let n5 := micro_alternations (lastn 8 (non_empate results)) in
  let ne := non_empate results in
  let d := imbalance_of ne W in
  strength_test n2 3 = (strength (micro_double n2) >=? 8 # 10)%py
  /\ strength_test n5 5 = (strength (micro_alternation_pattern n5) >=? 8 # 10)%py
  /\ balance_below d W = (ratio d W <? 1 # 10)%py
  /\ balance_above d W = (ratio d W >? 4 # 10)%py
  /\ forall f,
       manipulation_points (pending_predictability d W)
       = points manipulation_rule
           (compensation_pending_pattern W (c_count ne W) (v_count ne W) d
              (ratio d W) f).
Proof.
  intros HW n2 n5 ne d.
  pose proof (imbalance_le ne W) as Hd.
  destruct (balance_tests_exact W d HW Hd) as [??].
  split_and!; [| |done|done|by intros; apply pending_points_exact].
  - by apply strength_test_exact, double_pattern_count_le.
  - by apply strength_test_exact, micro_alternations_le.
Qed.

(** ** The confidence on the page *)

Lemma frequency_text_exact n total :
  0 < total < 80 -> n <= total ->
  format_1f (frequency_confidence_float n total) = fmt1 (frequency_confidence n total).
Proof.
  intros [Hpos Ht] Hn.
  assert (all_upto 79 (fun total => all_upto total (fun n =>
            Nat.eqb total 0
            || String.eqb (format_1f (frequency_confidence_float n total))
                 (fmt1 (frequency_confidence n total)))) = true) as H
    by (by vm_compute).
  pose proof (all_upto_spec _ _ H total ltac:(lia)) as Htotal. cbv beta in Htotal.
  pose proof (all_upto_spec _ _ Htotal n Hn) as Heq. cbv beta in Heq.
  apply orb_true_iff in Heq as [H0%Nat.eqb_eq|Heq]; [lia|]. by apply String.eqb_eq.
Qed.

Lemma compensation_text_exact W d c v f :
  W ∈ [12; 15; 18] -> d <= W ->
  format_1f (compensation_confidence_float d W)
  = fmt1 (confidence
            (compensation_bet (compensation_pending_pattern W c v d (ratio d W) f) f)).
Proof.
  intros HW Hd. repeat apply elem_of_cons in HW as [->|HW];
    [..|by apply elem_of_nil in HW];
    (apply String.eqb_eq; revert d Hd; apply all_upto_spec; by vm_compute).
Qed.

Lemma cycle_text_exact n :
  n <= 70 -> format_1f (float_of_nat n) = fmt1 (Qnat n).
Proof. intros Hn. apply String.eqb_eq. revert n Hn. apply all_upto_spec. by vm_compute. Qed.

(** What the user reads is within one twentieth of the exact
    confidence. *)
Corollary frequency_text_reads n total :
  0 < total < 80 -> n <= total ->
  exists r, read1 (format_1f (frequency_confidence_float n total)) = Some r
    /\ (Qabs (r - frequency_confidence n total) <= 1 # 20)%Q.
Proof. intros Ht Hn. rewrite frequency_text_exact by done. apply fmt1_near. Qed.

(** C18. The confidence the page shows for a frequency bet: on a history
    with fewer than 80 non-tie outcomes the text [:.1f] gives for the
    binary64 confidence is the text of the exact confidence of the
    model, rounded to one decimal with ties to even. *)
Theorem confidence_text_exact results c n :
  most_common1 (Counter (non_empate results)) = Some (c, n) ->
  length (non_empate results) < 80 ->
  format_1f (frequency_confidence_float n (length (non_empate results)))
  = fmt1 (confidence (frequency_prediction results)).
Proof.
  intros Hmc Hlen. unfold frequency_prediction. cbv zeta. rewrite Hmc. simpl.
  apply most_common1_spec in Hmc as (Hc & -> & _).
  apply frequency_text_exact; [|apply count_le_length].
  split; [|done]. destruct (non_empate results); [by apply elem_of_nil in Hc|simpl; lia].
Qed.

Lemma confidence_text_exact_witness :
  format_1f (frequency_confidence_float 2 (length (non_empate [C; V; E; C])))
  = fmt1 (confidence (frequency_prediction [C; V; E; C])).
Proof. apply (confidence_text_exact [C; V; E; C] C 2); [done|simpl; lia]. Defined.

(** From 80 non-tie outcomes on the two texts can differ: 49/80 * 100 is
    a little more than 61.25 on binary64. *)
Example confidence_text_80 :
  format_1f (frequency_confidence_float 49 80) = "61.3"
  /\ fmt1 (frequency_confidence 49 80) = "61.2".
Proof. by vm_compute. Qed.

Lemma float_comparisons_exact_witness :
  balance_above (imbalance_of (replicate 8 V ++ replicate 12 C) 15) 15
  = (ratio (imbalance_of (replicate 8 V ++ replicate 12 C) 15) 15 >? 4 # 10)%py.
Proof.
  destruct (float_comparisons_exact (replicate 8 V ++ replicate 12 C) 15)
    as (_ & _ & _ & H & _); [by right; left|exact H].
Defined.
