(* ===== verification/Pipeline.v ===== *)
(** * Pipeline: the analysis [main] runs on the history

    The four detectors are run on the same history, their results are
    concatenated in a fixed order, scored twice and turned into one
    recommendation.  The theorems of this file are about that
    composition: what the engine as a whole can and cannot output. *)

From Stdlib Require Import QArith Qminmax Lqa.
From stdpp Require Import base decidable list strings.
From S2P Require Import Prelude Model Micro Cycles Compensation Ties Scoring Predict.

(** What [main] displays: the values bound at lines 331-340. *)
Record Analysis : Type := mkAnalysis {
  an_patterns : list Pattern;
  an_risk : RiskAssessment;
  an_manipulation : ManipulationAssessment;
  an_prediction : Prediction
}.

(** Lines 331-336. *)
Definition all_patterns (history : list Outcome) : list Pattern :=
  let micro_patterns := analyze_micro_patterns history in
  let hidden_cycles := detect_hidden_cycles history in
  let compensation_patterns := analyze_compensation_patterns history in
  let strategic_ties := analyze_strategic_ties history in
  micro_patterns ++ hidden_cycles ++ compensation_patterns ++ strategic_ties.

(** Lines 328-340. *)
Definition analyze (history : list Outcome) : result Analysis :=
  let patterns := all_patterns history in
  let risk := assess_risk patterns in
  let manipulation := detect_manipulation patterns risk in
  (prediction <- make_prediction history patterns risk manipulation ;;
   Ok {| an_patterns := patterns; an_risk := risk;
         an_manipulation := manipulation; an_prediction := prediction |})%py.

(** ** The contract of a detector *)

(** What the pipeline relies on from each detector: it reads the history
    through [observed] (all outcomes, or the non-tie ones), reports
    nothing when it observes fewer than [threshold] outcomes, and reports
    only well-formed patterns. *)
Class Detector (detect : list Outcome -> list Pattern) : Type := {
  observed : list Outcome -> list Outcome;
  threshold : nat;
  detector_short results :
    length (observed results) < threshold -> detect results = [];
  detector_wf results :
    Forall (fun p => wf_pattern p = true) (detect results)
}.

(** ** Specification vocabulary *)

(** A pattern list that leaves the manipulation level below high:
    nothing, or one tie after a sequence. *)
Definition quiet (ps : list Pattern) : Prop :=
  ps = [] \/ exists pos c n, ps = [after_sequence_pattern pos c n].

(** What the predictor amounts to inside the pipeline: the two early
    returns, and the frequency bet. *)
Definition verdict (history : list Outcome) (risk : RiskAssessment)
    (manipulation : ManipulationAssessment) : Prediction :=
  if bool_decide (risk_level risk = critical)
     || bool_decide (manipulation_level manipulation = critical)
  then stop_prediction
  else if bool_decide (manipulation_level manipulation = high)
  then wait_prediction
  else frequency_prediction history.

(** What the analysis guarantees of its result: every dictionary in it
    is well formed. *)
Definition wf_analysis (a : Analysis) : bool :=
  forallb wf_pattern (an_patterns a) && wf_risk (an_risk a)
  && wf_manipulation (an_manipulation a) && wf_prediction (an_prediction a).

(** * Theorems *)

Implicit Types (history results : list Outcome) (p : Pattern).

(** ** What the pipeline gets from the contract *)

Section Client.
Context (d1 d2 d3 d4 : list Outcome -> list Pattern).
Context `{!Detector d1, !Detector d2, !Detector d3, !Detector d4}.

(** The concatenation of what four detectors report is well formed. *)
Lemma composed_wf results :
  Forall (fun p => wf_pattern p = true)
    (d1 results ++ d2 results ++ d3 results ++ d4 results).
Proof. rewrite !Forall_app. split_and!; apply detector_wf. Qed.

(** The predictor does not raise on it, whatever the assessments. *)
Lemma composed_prediction_ok results risk manipulation :
  exists pr,
    make_prediction results (d1 results ++ d2 results ++ d3 results ++ d4 results)
      risk manipulation = Ok pr.
Proof.
  apply make_prediction_ok_of;
    [apply compensation_prediction_ok|apply cycle_prediction_ok]; apply composed_wf.
Qed.

(** The recommendation it makes of it is well formed. *)
Lemma composed_analysis_wf results :
  let patterns := d1 results ++ d2 results ++ d3 results ++ d4 results in
  let risk := assess_risk patterns in
  let manipulation := detect_manipulation patterns risk in
  exists pr,
    make_prediction results patterns risk manipulation = Ok pr
    /\ wf_analysis {| an_patterns := patterns; an_risk := risk;
                      an_manipulation := manipulation; an_prediction := pr |} = true.
Proof.
  intros patterns risk manipulation. pose proof (composed_wf results) as Hwf.
  destruct (composed_prediction_ok results risk manipulation) as [pr Hpr].
  exists pr. split; [done|]. unfold wf_analysis, risk, manipulation.
  cbn [an_patterns an_risk an_manipulation an_prediction].
  rewrite assess_risk_wf, detect_manipulation_wf,
    (make_prediction_wf _ _ _ _ _ Hwf Hpr), !andb_true_r.
  apply forallb_forall. intros p Hp%list_elem_of_In.
  rewrite Forall_forall in Hwf. by apply Hwf.
Qed.

(** It is empty when every detector is below its threshold. *)
Lemma composed_short results :
  length (observed (detect := d1) results) < threshold (detect := d1) ->
  length (observed (detect := d2) results) < threshold (detect := d2) ->
  length (observed (detect := d3) results) < threshold (detect := d3) ->
  length (observed (detect := d4) results) < threshold (detect := d4) ->
  d1 results ++ d2 results ++ d3 results ++ d4 results = [].
Proof. intros. by rewrite !detector_short. Qed.

End Client.

(** ** The four detectors implement the contract *)

#[export] Instance micro_detector : Detector analyze_micro_patterns :=
  {| observed := id; threshold := 6;
     detector_short := micro_short; detector_wf := analyze_micro_patterns_wf |}.

#[export] Instance cycle_detector : Detector detect_hidden_cycles.
Proof.
  refine {| observed := non_empate; threshold := 12; detector_short := cycles_short |}.
  intros results. eapply Forall_impl; [apply detect_hidden_cycles_wf|]. by intros p [??].
Defined.

#[export] Instance compensation_detector : Detector analyze_compensation_patterns :=
  {| observed := non_empate; threshold := 20;
     detector_short := compensation_short;
     detector_wf := analyze_compensation_patterns_wf |}.

#[export] Instance tie_detector : Detector analyze_strategic_ties :=
  {| observed := id; threshold := 8;
     detector_short := ties_short; detector_wf := analyze_strategic_ties_wf |}.

(** C29. Every pattern the four detectors report is well formed: its
    strength lies in [0,1], its predictability is at least 60, and it
    carries the keys of its type. *)
Theorem all_patterns_wf history :
  Forall (fun p => wf_pattern p = true) (all_patterns history).
Proof. apply composed_wf; apply _. Qed.

(** C30. Each detector reports nothing below its threshold: six
    outcomes for the micro patterns, twelve non-tie outcomes for the
    hidden cycles, twenty non-tie outcomes for the compensation windows,
    eight outcomes for the strategic ties; so below six outcomes the
    pattern list is empty. *)
Theorem detectors_short history :
  (length history < 6 -> analyze_micro_patterns history = [])
  /\ (length (non_empate history) < 12 -> detect_hidden_cycles history = [])
  /\ (length (non_empate history) < 20 -> analyze_compensation_patterns history = [])
  /\ (length history < 8 -> analyze_strategic_ties history = [])
  /\ (length history < 6 -> all_patterns history = []).
Proof.
  pose proof (non_empate_length history).
  split_and!; intros Hlen.
  - by apply (detector_short (detect := analyze_micro_patterns)).
  - by apply (detector_short (detect := detect_hidden_cycles)).
  - by apply (detector_short (detect := analyze_compensation_patterns)).
  - by apply (detector_short (detect := analyze_strategic_ties)).
  - apply (composed_short analyze_micro_patterns detect_hidden_cycles
             analyze_compensation_patterns analyze_strategic_ties); simpl; lia.
Qed.

Lemma detectors_short_witness : all_patterns [C; C; V; E; C] = [].
Proof.
  destruct (detectors_short [C; C; V; E; C]) as (_ & _ & _ & _ & H).
  apply H. simpl. lia.
Defined.

(** ** Predictable patterns silence the predictor *)

Lemma micro_predictable history p :
  p ∈ analyze_micro_patterns history -> (80 <= predictability p)%Q.
Proof. by intros [(n & _ & ->)|(n & _ & ->)]%elem_of_micro. Qed.

Lemma cycles_predictable history p :
  p ∈ detect_hidden_cycles history -> (80 <= predictability p)%Q.
Proof.
  intros Hp. pose proof (detect_hidden_cycles_wf history) as Hwf.
  rewrite Forall_forall in Hwf. by apply Hwf.
Qed.

Lemma analyze_no_bet_if_predictable history p :
  p ∈ all_patterns history -> (80 <= predictability p)%Q ->
  exists a, analyze history = Ok a /\ no_bet (an_prediction a).
Proof.
  intros Hp H80. unfold analyze. cbv zeta.
  edestruct make_prediction_no_bet as (pr & -> & Hnb);
    [by eapply manipulation_high_if_predictable|].
  by eexists.
Qed.

(** C1. Once the history holds twelve non-tie outcomes the
    recommendation never names a colour: the cycle detector reports a
    cycle, its predictability of 80 or more makes the manipulation level
    high or critical, and [make_prediction] returns early with the
    strategy to stop or to wait for normalisation. *)
Theorem analyze_no_bet_from_12 history :
  12 <= length (non_empate history) ->
  exists a, analyze history = Ok a /\ no_bet (an_prediction a).
Proof.
  intros H. destruct (nil_or_elem (detect_hidden_cycles history)) as [Hnil|[p Hp]];
    [by apply detect_hidden_cycles_nonempty in Hnil|].
  apply (analyze_no_bet_if_predictable history p); [|by eapply cycles_predictable].
  unfold all_patterns. cbv zeta. rewrite !elem_of_app. auto.
Qed.

Lemma analyze_no_bet_from_12_witness :
  exists a,
    analyze [C; C; V; C; V; V; E; C; C; C; V; V; V] = Ok a
    /\ no_bet (an_prediction a).
Proof. apply analyze_no_bet_from_12. vm_compute. lia. Defined.

(** ** The risk assessment never decides *)

(** Every pattern but a pending compensation has a predictability of
    at least 75. *)
Lemma all_patterns_predictable history p :
  p ∈ all_patterns history ->
  type p = compensation_pending \/ (70 <= predictability p)%Q.
Proof.
  unfold all_patterns. cbv zeta. rewrite !elem_of_app.
  intros [Hp|[Hp|[Hp|Hp]]].
  - right. apply micro_predictable in Hp. lra.
  - right. apply cycles_predictable in Hp. lra.
  - apply elem_of_compensation in Hp as (_ & W & _ & Hp).
    apply elem_of_balance_report in Hp as [(_ & _ & ->)|(_ & ->)]; [by right|by left].
  - right. by apply elem_of_ties in Hp as [(? & ? & ? & ->)|(? & ? & ? & ->)].
Qed.

Lemma all_patterns_points history :
  Forall (fun p => points risk_rule p = 0 \/ 40 <= points manipulation_rule p)
    (all_patterns history).
Proof.
  apply Forall_forall. intros p [Ht|H70]%all_patterns_predictable.
  - left. unfold points, risk_rule. by rewrite Ht.
  - right. by apply manipulation_points_ge_70.
Qed.

(** ** When the predictor is not silenced *)

Lemma ties_after_or_predictable history p :
  p ∈ analyze_strategic_ties history ->
  (exists pos c n, p = after_sequence_pattern pos c n) \/ (80 <= predictability p)%Q.
Proof. intros [?|(pos & c & x & ->)]%elem_of_ties; [by left|by right]. Qed.

Lemma low_predictability_patterns history :
  (forall p, p ∈ all_patterns history -> ~ (80 <= predictability p)%Q) ->
  length (non_empate history) < 12 /\
  all_patterns history = analyze_strategic_ties history /\
  Forall (fun p => exists pos c n, p = after_sequence_pattern pos c n) (all_patterns history).
Proof.
  unfold all_patterns. cbv zeta. intros Hlow.
  assert (analyze_micro_patterns history = []) as Hmicro.
  { destruct (nil_or_elem (analyze_micro_patterns history)) as [|[p Hp]]; [done|].
    destruct (Hlow p); [rewrite !elem_of_app; auto|by eapply micro_predictable]. }
  assert (detect_hidden_cycles history = []) as Hcyc.
  { destruct (nil_or_elem (detect_hidden_cycles history)) as [|[p Hp]]; [done|].
    destruct (Hlow p); [rewrite !elem_of_app; auto|by eapply cycles_predictable]. }
  assert (length (non_empate history) < 12) as Hlen.
  { destruct (decide (length (non_empate history) < 12)) as [|Hge]; [done|].
    by destruct (detect_hidden_cycles_nonempty history); [lia|]. }
  rewrite Hmicro, Hcyc, compensation_short in * by lia. simpl in *.
  split_and!; [done..|]. apply Forall_forall. intros p Hp.
  destruct (ties_after_or_predictable _ _ Hp) as [|H80]; [done|]. by destruct (Hlow p).
Qed.

Lemma total_after_sequence ps :
  Forall (fun p => exists pos c n, p = after_sequence_pattern pos c n) ps ->
  total manipulation_rule ps = 40 * length ps /\ total risk_rule ps = 40 * length ps.
Proof.
  induction 1 as [|p ps (pos & c & n & ->) _ [IH1 IH2]]; [done|].
  rewrite !total_cons, IH1, IH2. simpl length. split; (etrans; [|symmetry; apply Nat.mul_succ_r]).
  - replace (points manipulation_rule (after_sequence_pattern pos c n)) with 40 by done. lia.
  - replace (points risk_rule (after_sequence_pattern pos c n)) with 40 by done. lia.
Qed.

(** On a quiet pattern list no pattern bet applies. *)
Lemma bet_prediction_quiet history ps risk manipulation :
  quiet ps ->
  bet_prediction history ps risk manipulation = Ok (frequency_prediction history).
Proof. by intros [->|(pos & c & n & ->)]. Qed.

Lemma make_prediction_verdict history ps risk manipulation :
  (level_rank (manipulation_level manipulation) < 2 ->
   bet_prediction history ps risk manipulation = Ok (frequency_prediction history)) ->
  make_prediction history ps risk manipulation = Ok (verdict history risk manipulation).
Proof.
  unfold make_prediction, verdict.
  destruct (risk_level risk), (manipulation_level manipulation); simpl; try done;
    intros H; apply H; lia.
Qed.

Lemma verdict_no_bet history risk manipulation :
  2 <= level_rank (manipulation_level manipulation) ->
  no_bet (verdict history risk manipulation).
Proof.
  unfold verdict, no_bet.
  destruct (risk_level risk), (manipulation_level manipulation); simpl; auto; lia.
Qed.

Lemma verdict_frequency history risk manipulation :
  level_rank (manipulation_level manipulation) < 2 -> risk_level risk <> critical ->
  verdict history risk manipulation = frequency_prediction history.
Proof.
  unfold verdict.
  destruct (risk_level risk), (manipulation_level manipulation); simpl; try done; lia.
Qed.

Lemma quiet_patterns history :
  level_rank (manipulation_level
    (detect_manipulation (all_patterns history) (assess_risk (all_patterns history)))) < 2 ->
  length (non_empate history) < 12 /\ quiet (all_patterns history).
Proof.
  intros Hm.
  destruct (low_predictability_patterns history) as (Hlen & _ & Hforms).
  { intros p Hp H80.
    pose proof (manipulation_high_if_predictable _
                  (assess_risk (all_patterns history)) p Hp H80). lia. }
  split; [done|].
  destruct (total_after_sequence _ Hforms) as [Ht _].
  rewrite detect_manipulation_eq in Hm. simpl in Hm.
  unfold quiet. destruct (all_patterns history) as [|p [|q ps]]; [by left| |].
  - right. apply Forall_cons in Hforms as [(pos & c & n & ->) _]. by exists pos, c, n.
  - exfalso. simpl in Ht. rewrite Ht in Hm. unfold manipulation_level_of in Hm.
    repeat case_decide; simpl in Hm; lia.
Qed.

Lemma quiet_risk ps : quiet ps -> risk_level (assess_risk ps) <> critical.
Proof. by intros [->|(pos & c & n & ->)]. Qed.

(** The analysis of any history ends in one of two ways: the
    recommendation names no colour (stop, or wait for normalisation), or
    it is the frequency bet, the history holds fewer than twelve non-tie
    outcomes and the detectors found nothing or a single tie after a
    sequence. *)
Lemma analyze_outcome history :
  exists a, analyze history = Ok a /\
    (no_bet (an_prediction a)
     \/ (an_prediction a = frequency_prediction history
         /\ length (non_empate history) < 12 /\ quiet (an_patterns a))).
Proof.
  unfold analyze. cbv zeta.
  set (ps := all_patterns history). set (r := assess_risk ps).
  set (m := detect_manipulation ps r).
  rewrite make_prediction_verdict
    by (intros; apply bet_prediction_quiet; by apply quiet_patterns).
  eexists. split; [done|]. simpl.
  destruct (decide (2 <= level_rank (manipulation_level m))) as [Hm|Hm];
    [left; by apply verdict_no_bet|right].
  destruct (quiet_patterns history) as [Hlen Hq]; [fold ps r m; lia|].
  split_and!; [|done..]. apply verdict_frequency; [lia|by apply quiet_risk].
Qed.

(** C2. The analysis in closed form: the patterns of the four
    detectors, their two assessments, and as recommendation the stop
    when a level is critical, the wait when the manipulation level is
    high, and the frequency bet otherwise.  The two pattern bets of
    [make_prediction] play no part. *)
Theorem analyze_closed_form history :
  let patterns := all_patterns history in
  let risk := assess_risk patterns in
  let manipulation := detect_manipulation patterns risk in
  analyze history =
    Ok {| an_patterns := patterns; an_risk := risk; an_manipulation := manipulation;
          an_prediction := verdict history risk manipulation |}.
Proof.
  intros ps r m. unfold analyze. cbv zeta. fold ps r m.
  rewrite make_prediction_verdict; [done|].
  intros Hm. apply bet_prediction_quiet. by apply quiet_patterns.
Qed.

(** C21. The risk assessment never decides the recommendation: a critical
    risk level comes with a critical manipulation level, because every
    pattern that adds to the risk score adds at least 40 to the
    manipulation score and no pattern adds more than 70 to the risk; so
    [make_prediction] returns what it returns for any risk assessment
    that is not critical. *)
Theorem risk_never_decides history risk :
  risk_level risk <> critical ->
  let patterns := all_patterns history in
  let manipulation := detect_manipulation patterns (assess_risk patterns) in
  make_prediction history patterns (assess_risk patterns) manipulation
  = make_prediction history patterns risk manipulation.
Proof.
  intros Hr ps m.
  rewrite !make_prediction_verdict
    by (intros; apply bet_prediction_quiet; by apply quiet_patterns).
  f_equal. unfold verdict, m. rewrite (bool_decide_eq_false_2 _ Hr).
  destruct (decide (risk_level (assess_risk ps) = critical)) as [Hc|Hc].
  - rewrite (risk_critical_manipulation ps (assess_risk ps) (all_patterns_points _) Hc).
    by rewrite (bool_decide_eq_true_2 _ Hc).
  - by rewrite (bool_decide_eq_false_2 _ Hc).
Qed.

Lemma risk_never_decides_witness :
  let patterns := all_patterns [C; C; E; C; C; E; C; C; E; C; C; E] in
  let manipulation := detect_manipulation patterns (assess_risk patterns) in
  make_prediction [C; C; E; C; C; E; C; C; E; C; C; E] patterns (assess_risk patterns)
    manipulation
  = make_prediction [C; C; E; C; C; E; C; C; E; C; C; E] patterns (mkRisk low 0 [])
      manipulation.
Proof. by apply risk_never_decides. Defined.

(** C4. A recommendation that names a colour is always the frequency
    bet, made on a history with fewer than twelve non-tie outcomes in
    which the detectors found nothing or a single tie after a sequence;
    the colour is 'C' or 'V'. *)
Theorem analyze_bet history a c :
  analyze history = Ok a -> color (an_prediction a) = Some c ->
  an_prediction a = frequency_prediction history
  /\ length (non_empate history) < 12 /\ quiet (an_patterns a) /\ is_CV c.
Proof.
  intros Ha Hc.
  destruct (analyze_outcome history) as (a' & Ha' & [[Hnb _]%no_bet_color|(Hpr & Hlen & Hq)]);
    assert (a' = a) as -> by congruence; [congruence|].
  split_and!; [done..|]. rewrite Hpr in Hc. by eapply frequency_prediction_color.
Qed.

Lemma analyze_bet_witness :
  exists a,
    analyze [C; C; V] = Ok a
    /\ an_prediction a = frequency_prediction [C; C; V]
    /\ length (non_empate [C; C; V]) < 12 /\ quiet (an_patterns a) /\ is_CV C.
Proof.
  eexists. split; [reflexivity|].
  by apply (analyze_bet [C; C; V] _ C).
Defined.

(** C20. The analysis never recommends the compensation bet nor the
    cycle bet: the patterns those branches of [make_prediction] need
    raise the manipulation level to high or critical first. *)
Theorem analyze_never_compensation_or_cycle history a :
  analyze history = Ok a ->
  strategy (an_prediction a) <> "APOSTAR COMPENSAÇÃO"
  /\ strategy (an_prediction a) <> "SEGUIR CICLO".
Proof.
  intros Ha.
  destruct (analyze_outcome history) as (a' & Ha' & [Hs%no_bet_strategy|(Hpr & _)]);
    assert (a' = a) as -> by congruence.
  - by destruct Hs as [-> | ->].
  - rewrite Hpr. by destruct (frequency_prediction_strategy history) as [-> | ->].
Qed.

Lemma analyze_never_compensation_or_cycle_witness :
  exists a,
    analyze (Nat.iter 10 (fun l => C :: C :: V :: l) []) = Ok a
    /\ strategy (an_prediction a) <> "APOSTAR COMPENSAÇÃO"
    /\ strategy (an_prediction a) <> "SEGUIR CICLO".
Proof.
  eexists. split; [reflexivity|].
  by apply (analyze_never_compensation_or_cycle (Nat.iter 10 (fun l => C :: C :: V :: l) [])).
Defined.

(** The branches are live in [make_prediction] itself: a pending
    compensation under low assessments is bet on. *)
Example make_prediction_compensation :
  (pr <- make_prediction [C; C; V]
           [compensation_pending_pattern 12 9 3 6 (6 # 12) V]
           (mkRisk low 0 []) (mkManipulation low 0 []) ;;
   Ok (color pr, strategy pr))%py
  = Ok (Some V, "APOSTAR COMPENSAÇÃO").
Proof. reflexivity. Qed.

(** The confidence of every recommendation the analysis returns
    lies between 0 and 75. *)
Theorem analyze_confidence_bounded history a :
  analyze history = Ok a -> (0 <= confidence (an_prediction a) <= 75)%Q.
Proof.
  intros Ha.
  destruct (analyze_outcome history) as (a' & Ha' & [[_ Hc]%no_bet_color|(Hpr & _)]);
    assert (a' = a) as -> by congruence.
  - by rewrite Hc.
  - rewrite Hpr. apply frequency_prediction_confidence.
Qed.

Lemma analyze_confidence_bounded_witness :
  exists a,
    analyze [C; V; V; E; V] = Ok a
    /\ (0 <= confidence (an_prediction a) <= 75)%Q.
Proof.
  eexists. split; [reflexivity|].
  by apply (analyze_confidence_bounded [C; V; V; E; V]).
Defined.

(** C19. The analysis of any history returns a result, no stage raising
    an exception, and the result is well formed: the patterns have their
    strength in [0,1], a predictability of at least 60 and the keys of
    their type; both scores are at most 100 and each level is the one
    its score gives; the recommendation has either no colour, confidence
    0 and a strategy to wait or to stop, or a colour, a confidence
    between 50 and 75 and one of the three betting strategies. *)
Theorem analyze_typed history :
  exists a, analyze history = Ok a /\ wf_analysis a = true.
Proof.
  destruct (composed_analysis_wf analyze_micro_patterns detect_hidden_cycles
              analyze_compensation_patterns analyze_strategic_ties history)
    as (pr & Hpr & Hwf).
  unfold analyze. cbv zeta. unfold all_patterns in *. cbv zeta in *.
  rewrite Hpr. by eexists.
Qed.

(** On the empty history the analysis finds no pattern, both levels
    are low with score 0, and the recommendation names no colour and
    waits for better conditions. *)
Theorem analyze_empty :
  analyze [] = Ok {| an_patterns := []; an_risk := mkRisk low 0 [];
                     an_manipulation := mkManipulation low 0 [];
                     an_prediction := initial_prediction |}.
Proof. reflexivity. Qed.

(** The four recommendations of the closed form are all returned: on a
    single tie, on a single outcome, on eight equal outcomes and on
    twelve alternating ones. *)
Example verdicts_reachable :
  (a <- analyze [E] ;; Ok (strategy (an_prediction a)))%py
    = Ok "AGUARDAR MELHORES CONDIÇÕES"
  /\ (a <- analyze [C] ;; Ok (strategy (an_prediction a)))%py
    = Ok "APOSTAR NA PRINCIPAL COR"
  /\ (a <- analyze (replicate 8 C) ;; Ok (strategy (an_prediction a)))%py
    = Ok "AGUARDAR NORMALIZAÇÃO"
  /\ (a <- analyze [C; V; C; V; C; V; C; V; C; V; C; V] ;;
      Ok (strategy (an_prediction a)))%py
    = Ok "PARAR COMPLETAMENTE".
Proof. by vm_compute. Qed.
