(* ===== verification/Page.v ===== *)
(** * Page: what [main] puts on the page

    One run of the script: the widgets are created and the buttons
    update the history, an empty history ends the run with a hint, and
    otherwise the history is displayed and analysed and the four parts
    of the analysis are written out.  The output is the list of the
    calls the run makes to Streamlit, in order. *)

From Corelib Require Import PrimFloat.
From Stdlib Require Import QArith String.
From stdpp Require Import base decidable list strings.
From S2P Require Import Prelude Format Model Host Scoring Predict Floats Pipeline.

(** The calls [main] makes to Streamlit, as data: the title, a row of
    columns with their relative widths, a button with its label and
    key, and the texts.  This is the interface of the library as the
    script uses it; the [with] block of the spinner is one call. *)
Inductive Output : Type :=
| Title (body : string)
| Columns (spec : list nat)
| Button (label : string) (key : option string)
| Header (body : string)
| Write (body : string)
| Markdown (body : string)
| Info (body : string)
| Spinner (text : string).

(** The value of a 'level' or 'risk' key, as the string it is. *)
Definition level_name (l : Level) : string :=
  match l with
  | low => "low"
  | medium => "medium"
  | high => "high"
  | critical => "critical"
  end.

(** [level.upper()]. *)
Definition upper (l : Level) : string :=
  match l with
  | low => "LOW"
  | medium => "MEDIUM"
  | high => "HIGH"
  | critical => "CRITICAL"
  end.

(** Lines 342-347. *)
Definition write_patterns (patterns : list Pattern) : list Output :=
  Header "Padrões Detectados" ::
  (if bool_decide (patterns <> [])
   then map (fun p => Write ("- " +:+ description p +:+ " (Tipo: " +:+ type_name (type p)
                             +:+ ", Risco: " +:+ level_name (Model.risk p) +:+ ")"))
          patterns
   else [Write "Nenhum padrão significativo detectado."]).

(** Lines 349-353. *)
Definition write_risk (risk : RiskAssessment) : list Output :=
  Header "Avaliação de Risco" ::
  Write ("Nível: **" +:+ upper (risk_level risk) +:+ "** - Score: "
         +:+ fmt_nat (risk_score risk)) ::
  map (fun f => Write ("- " +:+ f)) (factors risk).

(** Lines 355-359. *)
Definition write_manipulation (manipulation : ManipulationAssessment)
    : list Output :=
  Header "Avaliação de Manipulação" ::
  Write ("Nível: **" +:+ upper (manipulation_level manipulation) +:+ "** - Score: "
         +:+ fmt_nat (manipulation_score manipulation)) ::
  map (fun s => Write ("- " +:+ s)) (signs manipulation).

(** Lines 294-314: the title, the two rows of columns ([columns(3)] is
    three columns of equal width) and the five buttons, in the order of
    the calls. *)
Definition widgets : list Output :=
  [Title "Casino Analyzer - Insira os Resultados Rapidamente";
   Columns [1; 1; 1];
   Button "C (Jogador)" (Some "btn_c");
   Button "V (Banqueiro)" (Some "btn_v");
   Button "E (Empate)" (Some "btn_e");
   Columns [2; 2; 1];
   Button "Limpar Histórico" None;
   Button "Apagar Último Resultado" None].

(** Lines 361-369. *)
Definition write_prediction (prediction : Prediction) : list Output :=
  Header "Predição" ::
  match color prediction with
  | Some c =>
      [Write ("Aposta sugerida: **" +:+ to_str c +:+ "**");
       Write ("Confiança: **" +:+ fmt1 (confidence prediction) +:+ "%**");
       Write ("Razão: " +:+ reasoning prediction);
       Write ("Estratégia: " +:+ strategy prediction)]
  | None =>
      [Write "Sem predição confiável disponível no momento.";
       Write (reasoning prediction)]
  end.

(** Lines 342-369. *)
Definition write_analysis (a : Analysis) : list Output :=
  write_patterns (an_patterns a) ++ write_risk (an_risk a)
  ++ write_manipulation (an_manipulation a) ++ write_prediction (an_prediction a).

(** Lines 293-369: one run of the script, from the session state and
    what the buttons report to the new history and the texts written.
    A run that raises is the exception alone, without the calls made
    before it; [main_ok] shows that no run raises. *)
Definition main (session_state : option (list Outcome)) (b : Buttons)
    : list Outcome * result (list Output) :=
  let history := press b (init_history session_state) in
  (history,
   if bool_decide (history <> []) then
     (a <- analyze history ;;
      Ok (widgets
          ++ Write "### Histórico Atual (Mais recente à esquerda):"
          :: Markdown (history_display history)
          :: Spinner "Analisando dados..."
          :: write_analysis a))%py
   else
     Ok (widgets
         ++ [Info "Clique nos botões acima para inserir resultados e iniciar a análise."])).

(** ** Specification vocabulary *)

(** The page of a history: what a run writes once the buttons have left
    the history, with the recommendation the pipeline arrives at. *)
Definition page_of (history : list Outcome) : list Output :=
  if bool_decide (history <> []) then
    let patterns := all_patterns history in
    let risk := assess_risk patterns in
    let manipulation := detect_manipulation patterns risk in
    widgets
    ++ Write "### Histórico Atual (Mais recente à esquerda):"
    :: Markdown (history_display history)
    :: Spinner "Analisando dados..."
    :: write_patterns patterns ++ write_risk risk ++ write_manipulation manipulation
    ++ write_prediction (verdict history risk manipulation)
  else
    widgets
    ++ [Info "Clique nos botões acima para inserir resultados e iniciar a análise."].

(** The frequency bet as the page writes it, with the confidence as the
    program formats it. *)
Definition bet_lines (c : Outcome) (count total : nat) : list Output :=
  [Header "Predição";
   Write ("Aposta sugerida: **" +:+ to_str c +:+ "**");
   Write ("Confiança: **" +:+ format_1f (frequency_confidence_float count total) +:+ "%**");
   Write ("Razão: Aposta baseada em frequência histórica de " +:+ dquote
          +:+ to_str c +:+ dquote +:+ " (" +:+ fmt_nat count +:+ "/" +:+ fmt_nat total
          +:+ ")");
   Write "Estratégia: APOSTAR NA PRINCIPAL COR"].

(** * Theorems *)

Implicit Types (session_state : option (list Outcome)) (b : Buttons).
Implicit Types (history : list Outcome) (a : Analysis).

(** The new history does not depend on the analysis. *)
Lemma main_history session_state b :
  (main session_state b).1 = press b (init_history session_state).
Proof. done. Qed.

Lemma main_analysed session_state b a :
  press b (init_history session_state) <> [] ->
  analyze (press b (init_history session_state)) = Ok a ->
  (main session_state b).2 =
    Ok (widgets
        ++ Write "### Histórico Atual (Mais recente à esquerda):"
        :: Markdown (history_display (press b (init_history session_state)))
        :: Spinner "Analisando dados..."
        :: write_analysis a).
Proof.
  intros Hne Ha. unfold main. cbv zeta. cbv [snd].
  by rewrite bool_decide_eq_true_2, Ha.
Qed.

(** The page a run writes is the page of the history the buttons
    leave. *)
Lemma main_page session_state b :
  (main session_state b).2 = Ok (page_of (press b (init_history session_state))).
Proof.
  unfold main, page_of. cbv zeta. cbv [snd]. case_bool_decide; [|done].
  unfold analyze. cbv zeta.
  rewrite make_prediction_verdict; [done|].
  intros Hm. apply bet_prediction_quiet. by apply quiet_patterns.
Qed.

(** C16. A run of [main] in closed form: the history is the one the
    button tests leave, and the page is a function of that history
    alone: the widgets and the hint when it is empty, and otherwise the
    widgets, the history line, the spinner, the patterns of the four
    detectors, the two assessments and the recommendation, which is the
    stop, the wait or the frequency bet.  No run raises. *)
Theorem main_closed_form session_state b :
  main session_state b
  = (press b (init_history session_state),
     Ok (page_of (press b (init_history session_state)))).
Proof. apply injective_projections; [apply main_history|apply main_page]. Qed.

(** A run of the script never raises: whatever the session state and
    the buttons, it writes a page. *)
Lemma main_ok session_state b :
  exists out, (main session_state b).2 = Ok out.
Proof.
  destruct (decide (press b (init_history session_state) = [])) as [Hnil|Hne].
  - unfold main. cbv zeta. cbv [snd]. rewrite bool_decide_eq_false_2 by auto. by eexists.
  - destruct (analyze_outcome (press b (init_history session_state))) as (a & Ha & _).
    rewrite (main_analysed _ _ a) by done. by eexists.
Qed.

(** On an empty history the run creates the widgets and writes the
    hint, and nothing else: the analysis is not run. *)
Theorem main_empty session_state b :
  press b (init_history session_state) = [] ->
  main session_state b =
    ([], Ok (widgets
             ++ [Info "Clique nos botões acima para inserir resultados e iniciar a análise."])).
Proof.
  intros Hnil. unfold main. cbv zeta. rewrite Hnil. done.
Qed.

Lemma main_empty_witness :
  main (Some [C]) (buttons_of ClickUndo) =
    ([], Ok (widgets
             ++ [Info "Clique nos botões acima para inserir resultados e iniciar a análise."])).
Proof. by apply main_empty. Defined.

(** The page is a function of the history the buttons leave. *)
Lemma main_press session_state b :
  main session_state b
  = main (Some (press b (init_history session_state))) (buttons_of NoClick).
Proof. done. Qed.

(** A rerun without interaction changes nothing: it leaves the
    history and writes the same page once more. *)
Theorem main_rerun session_state b :
  main (Some (main session_state b).1) (buttons_of NoClick) = main session_state b.
Proof. by rewrite (main_press session_state b). Qed.

(** C33. Removing the last outcome brings the previous page back:
    entering an outcome and clicking undo shows what a rerun without
    interaction would have shown. *)
Theorem main_undo session_state r :
  main (Some (main session_state (buttons_of (enter r))).1) (buttons_of ClickUndo)
  = main session_state (buttons_of NoClick).
Proof.
  rewrite (main_press (Some (main _ _).1)), (main_press session_state (buttons_of NoClick)).
  rewrite main_history. cbn [init_history].
  pose proof (undo_after_enter r (init_history session_state)) as Hundo.
  unfold click in Hundo. by rewrite Hundo.
Qed.

Lemma write_prediction_no_bet pr :
  no_bet pr ->
  write_prediction pr =
    [Header "Predição"; Write "Sem predição confiável disponível no momento.";
     Write (reasoning pr)].
Proof. by intros [-> | ->]. Qed.

(** C22. Once the history holds twelve non-tie outcomes the page ends
    with the line that no reliable prediction is available, followed by
    the reason: critical conditions or high manipulation.  No bet is
    shown again until the history is cleared or shortened. *)
Theorem main_no_prediction_from_12 session_state b :
  12 <= length (non_empate (press b (init_history session_state))) ->
  exists out1 reason,
    (main session_state b).2 =
      Ok (out1 ++ [Header "Predição";
                   Write "Sem predição confiável disponível no momento.";
                   Write reason])
    /\ (reason = reasoning stop_prediction \/ reason = reasoning wait_prediction).
Proof.
  intros H12. set (history := press b (init_history session_state)) in *.
  destruct (analyze_outcome history) as (a & Ha & [Hnb|(_ & Hlt & _)]); [|lia].
  assert (history <> []) as Hne by (intros Heq; rewrite Heq in H12; simpl in H12; lia).
  rewrite (main_analysed _ _ a) by done. unfold write_analysis.
  rewrite (write_prediction_no_bet _ Hnb), !app_assoc, !app_comm_cons, !app_assoc.
  eexists _, _. split; [done|]. destruct Hnb as [-> | ->]; auto.
Qed.

Lemma main_no_prediction_from_12_witness :
  exists out1 reason,
    (main (Some [C; C; V; C; V; V; E; C; C; C; V; V]) (buttons_of ClickV)).2 =
      Ok (out1 ++ [Header "Predição";
                   Write "Sem predição confiável disponível no momento.";
                   Write reason])
    /\ (reason = reasoning stop_prediction \/ reason = reasoning wait_prediction).
Proof. apply main_no_prediction_from_12. vm_compute. lia. Defined.

(** ** The texts do not depend on how the model writes a rational

    The program holds floats, which have one representation; the model
    holds rationals, which have many.  Equivalent recommendations are
    written as the same text. *)

#[export] Instance write_prediction_proper :
  Proper (prediction_equiv ==> eq) write_prediction.
Proof.
  intros p q (Hc & Hconf & Hr & Hs). unfold write_prediction.
  by rewrite Hc, Hr, Hs, (fmt1_proper _ _ Hconf).
Qed.

(** ** The bet on the page *)

Lemma write_frequency_prediction history c :
  color (frequency_prediction history) = Some c ->
  length (non_empate history) < 80 ->
  write_prediction (frequency_prediction history)
  = bet_lines c (count c (non_empate history)) (length (non_empate history)).
Proof.
  intros Hc Hlen.
  destruct (decide (non_empate history = [])) as [Hnil|Hne].
  { unfold frequency_prediction in Hc. by rewrite Hnil in Hc. }
  destruct (frequency_prediction_dominant history Hne) as (c' & Hfp & _).
  rewrite Hfp in Hc |- *. injection Hc as ->.
  unfold write_prediction, bet_lines. cbv [color confidence reasoning strategy].
  rewrite frequency_text_exact; [done| |apply count_le_length].
  destruct (non_empate history); [done|simpl in *; lia].
Qed.

(** C17. When a run shows a bet it is the frequency bet on fewer than
    twelve non-tie outcomes, and the page ends with its five lines: the
    colour, the confidence as [:.1f] formats the binary64 number
    [min(count / total * 100, 75)], the reason and the strategy. *)
Theorem main_bet session_state b a c :
  let history := press b (init_history session_state) in
  let ne := non_empate history in
  analyze history = Ok a -> color (an_prediction a) = Some c ->
  length ne < 12
  /\ exists out1,
       (main session_state b).2 = Ok (out1 ++ bet_lines c (count c ne) (length ne)).
Proof.
  intros history ne Ha Hc.
  destruct (analyze_outcome history) as (a' & Ha' & Hcases).
  assert (a' = a) as -> by congruence.
  destruct Hcases as [[Hnb|Hnb]|(Hfp & Hlt & _)]; [by rewrite Hnb in Hc..|].
  split; [done|]. rewrite Hfp in Hc.
  assert (history <> []) as Hne.
  { intros Hnil. unfold frequency_prediction in Hc. by rewrite Hnil in Hc. }
  rewrite (main_analysed _ _ a) by done. unfold write_analysis.
  rewrite Hfp, (write_frequency_prediction _ c) by (done || (unfold ne; lia)).
  rewrite !app_assoc, !app_comm_cons, !app_assoc. by eexists.
Qed.

Lemma main_bet_witness :
  length (non_empate [C; V; E; C]) < 12
  /\ exists out1,
       (main (Some [C; V; E]) (buttons_of ClickC)).2
       = Ok (out1 ++ bet_lines C (count C (non_empate [C; V; E; C]))
                      (length (non_empate [C; V; E; C]))).
Proof.
  eapply (main_bet (Some [C; V; E]) (buttons_of ClickC) _ C); [by vm_compute|done].
Defined.

(** A first click: the page shows the history, no pattern, both levels
    low, and the frequency bet on the single outcome. *)
Example main_first_click :
  main None (buttons_of ClickC) =
    ([C],
     Ok (widgets ++
        [Write "### Histórico Atual (Mais recente à esquerda):";
         Markdown "🟦C";
         Spinner "Analisando dados...";
         Header "Padrões Detectados";
         Write "Nenhum padrão significativo detectado.";
         Header "Avaliação de Risco";
         Write "Nível: **LOW** - Score: 0";
         Header "Avaliação de Manipulação";
         Write "Nível: **LOW** - Score: 0";
         Header "Predição";
         Write "Aposta sugerida: **C**";
         Write "Confiança: **75.0%**";
         Write ("Razão: Aposta baseada em frequência histórica de " +:+ dquote
                +:+ "C" +:+ dquote +:+ " (1/1)");
         Write "Estratégia: APOSTAR NA PRINCIPAL COR"])).
Proof. reflexivity. Qed.
