(* ===== verification/App.v ===== *)
(** * App: the script under Streamlit's reruns

    Streamlit runs the script once when the page is opened and once more
    after every interaction, with the session state the previous run
    left.  This file gives that loop as an interaction tree over the
    events of a run (the page it shows, the interaction it waits for),
    and shows what the loop does on every sequence of interactions: it
    shows the page of the history after every interaction, no run raises,
    and it stops only when the user leaves.  The specification is a
    coinductive predicate, [serves]; the loop satisfies it, it determines
    the loop up to silent steps, and it gives the log of every finite
    session. *)

From Stdlib Require Import String.
From Paco Require Import paco.
From ITree Require Import ITree ITreeFacts Events.State Events.StateFacts.
From stdpp Require Import base decidable list.
From S2P Require Import Prelude Model Host Pipeline Page.

Declare Scope app_scope.
Delimit Scope app_scope with app.
Notation "x <- t ;; k" := (ITree.bind t (fun x => k))
  (at level 100, t at next level, right associativity) : app_scope.
#[local] Open Scope app_scope.
#[local] Arguments main : simpl never.

(** The session state between two runs: [None] before the first run,
    when the key 'history' is not yet there. *)
Definition Session : Type := option (list Outcome).

(** What a run exchanges with Streamlit: the page it has written, the
    exception that ended it, and, once the run is over, the next
    interaction, which is the values of the buttons for the next run.
    The answer [None], for a user who leaves, is a device of the model:
    it gives the sessions an end, so that finite sessions have a
    result. *)
Variant pageE : Type -> Type :=
| Show (page : list Output) : pageE unit
| Crash (e : exn) : pageE unit
| Interact : pageE (option Buttons).

(** One run under the host.  The script calls [main] (lines 370-371);
    that the host then shows what the run wrote, or the exception that
    ended it, and keeps the session state for the next run is Streamlit's
    part, taken from its description. *)
Definition script (session_state : Session) (b : Buttons)
    : itree pageE Session :=
  _ <- match (main session_state b).2 with
       | Ok page => ITree.trigger (Show page)
       | Raise e => ITree.trigger (Crash e)
       end ;;
  Ret (Some (main session_state b).1).

(** A run followed by the wait for the next interaction. *)
Definition rerun (sb : Session * Buttons)
    : itree pageE (Session * Buttons + Session) :=
  session_state <- script sb.1 sb.2 ;;
  interaction <- ITree.trigger Interact ;;
  match interaction with
  | Some b => Ret (inl (session_state, b))
  | None => Ret (inr session_state)
  end.

(** The loop from a session state and the buttons of the next run. *)
Definition loop (session_state : Session) (b : Buttons)
    : itree pageE Session :=
  ITree.iter rerun (session_state, b).

(** The application: the first run finds no session state and no button
    pressed. *)
Definition app : itree pageE Session := loop None (buttons_of NoClick).

(** ** Specification vocabulary *)

(** What the user has seen: a page or an exception per run. *)
Definition Log : Type := list (result (list Output)).

(** A user who makes the interactions of a list, in order, and leaves. *)
Definition user : pageE ~> Monads.stateT (list Buttons * Log) (itree void1) :=
  fun _ e s =>
    match e with
    | Show page => Ret ((s.1, s.2 ++ [Ok page]), tt)
    | Crash e => Ret ((s.1, s.2 ++ [Raise e]), tt)
    | Interact =>
        match s.1 with
        | [] => Ret (s, None)
        | b :: bs => Ret ((bs, s.2), Some b)
        end
    end.

(** The histories of a session: the one a run has left, and the ones
    the button tests of the later runs leave. *)
Fixpoint histories (history : list Outcome) (bs : list Buttons)
    : list (list Outcome) :=
  history ::
  match bs with
  | [] => []
  | b :: bs' => histories (press b history) bs'
  end.

(** The log of a session: the page of each of its histories. *)
Definition pages (history : list Outcome) (bs : list Buttons) : Log :=
  (fun h => Ok (page_of h)) <$> histories history bs.

(** A tree that serves a history: it shows the page of the history,
    waits, returns the history when the user leaves, and otherwise serves
    the history the button tests of the interaction leave. *)
Variant servesF (r : list Outcome -> itree pageE Session -> Prop)
    (history : list Outcome) (t : itree pageE Session) : Prop :=
| serves_page next :
    t ≳ Vis (Show (page_of history)) (fun _ =>
          Vis Interact (fun interaction =>
            match interaction with
            | Some b => next b
            | None => Ret (Some history)
            end)) ->
    (forall b, r (press b history) (next b)) ->
    servesF r history t.

Definition serves : list Outcome -> itree pageE Session -> Prop :=
  paco2 servesF bot2.

(** * Theorems *)

Implicit Types (st : Session) (b : Buttons) (bs : list Buttons) (log : Log).
Implicit Types (history h : list Outcome).

(** ** The loop as a process *)

Lemma rerun_step st b :
  rerun (st, b)
  ≅ Vis (Show (page_of (press b (init_history st)))) (fun _ =>
      Vis Interact (fun interaction =>
        Ret match interaction with
            | Some b' => inl (Some (press b (init_history st)), b')
            | None => inr (Some (press b (init_history st)))
            end)).
Proof.
  unfold rerun, script. cbn [fst snd]. rewrite main_page, main_history.
  unfold ITree.trigger. rewrite bind_bind, bind_vis.
  apply eqit_Vis. intros []. rewrite !bind_ret_l, bind_vis.
  apply eqit_Vis. intros [b'|]; rewrite bind_ret_l; reflexivity.
Qed.

(** The loop unfolds into a page, a wait, and the loop again. *)
Lemma loop_step st b :
  loop st b
  ≳ Vis (Show (page_of (press b (init_history st)))) (fun _ =>
      Vis Interact (fun interaction =>
        match interaction with
        | Some b' => loop (Some (press b (init_history st))) b'
        | None => Ret (Some (press b (init_history st)))
        end)).
Proof.
  unfold loop. rewrite unfold_iter, rerun_step, bind_vis.
  apply eqit_Vis. intros []. rewrite bind_vis.
  apply eqit_Vis. intros [b'|]; rewrite bind_ret_l; [apply tau_euttge|reflexivity].
Qed.

Lemma servesF_mon : monotone2 servesF.
Proof. intros h t r r' [next Ht Hn] LE. econstructor; eauto. Qed.
#[local] Hint Resolve servesF_mon : paco.

(** The loop serves the history its first run leaves. *)
Lemma loop_serves st b : serves (press b (init_history st)) (loop st b).
Proof.
  revert st b. pcofix CIH. intros st b. pfold.
  apply (serves_page _ _ _ (loop (Some (press b (init_history st)))));
    [apply loop_step|]. intros b'. right. apply (CIH (Some _)).
Qed.

(** ** The specification against a list of interactions *)

Lemma serves_trace bs : forall h t log,
  serves h t ->
  interp_state user t (bs, log)
  ≈ Ret (([], log ++ pages h bs), Some (fold_left (fun h b => press b h) bs h)).
Proof.
  unfold pages.
  induction bs as [|b bs IH]; intros h t log H; punfold H;
    destruct H as [next Ht Hn]; rewrite Ht, interp_state_vis; cbn;
    rewrite bind_ret_l, tau_eutt, interp_state_vis; cbn;
    rewrite bind_ret_l, tau_eutt; cbn [fst snd].
  - rewrite interp_state_ret. reflexivity.
  - destruct (Hn b) as [H'|[]]. rewrite (IH _ _ _ H'), <- app_assoc. reflexivity.
Qed.

(** ** The specification determines the application *)

(** Two trees that serve the same history are the same process, up to
    silent steps. *)
Lemma serves_unique h t u : serves h t -> serves h u -> t ≈ u.
Proof.
  revert h t u. einit. ecofix CIH. intros h t u Ht Hu.
  punfold Ht. punfold Hu. destruct Ht as [next Ht Hn], Hu as [next' Hu Hn'].
  rewrite Ht, Hu. evis. intros []. evis. intros [b|]; [|reflexivity].
  destruct (Hn b) as [H1|[]], (Hn' b) as [H2|[]]. eauto with paco.
Qed.

(** ** The pages of a session *)

Lemma length_histories bs : forall h, length (histories h bs) = S (length bs).
Proof. induction bs as [|b bs IH]; intros h; simpl; [done|by rewrite IH]. Qed.

Lemma last_histories bs : forall h,
  last (histories h bs) = Some (fold_left (fun h b => press b h) bs h).
Proof.
  induction bs as [|b bs IH]; intros h; [done|].
  cbn [histories fold_left]. rewrite <- IH. by destruct bs.
Qed.

(** The histories of a session of single clicks are those of [Host.session]. *)
Lemma fold_press_session (clicks : list Click) h :
  fold_left (fun h b => press b h) (buttons_of <$> clicks) h = session clicks h.
Proof.
  unfold session. revert h.
  induction clicks as [|c clicks IH]; intros h; simpl; [done|apply IH].
Qed.

(** The histories of any session are those of the clicks the runs
    report, one after the other. *)
Lemma fold_press_clicks (bs : list Buttons) h :
  fold_left (fun h b => press b h) bs h = session (bs ≫= clicks_of) h.
Proof.
  revert h. induction bs as [|b bs IH]; intros h; simpl; [done|].
  unfold session in *. by rewrite IH, fold_left_app, <- press_clicks.
Qed.

(** C14. The application serves, for ever: it shows the page of the empty
    history and waits, and after every interaction it shows the page of
    the history the button tests leave and waits again.  No run raises,
    no run is silent, and the application stops only when the user
    leaves, returning the history. *)
Theorem app_serves : serves [] app.
Proof. exact (loop_serves None (buttons_of NoClick)). Qed.

(** C15. Against a user who makes a list of interactions and leaves, the
    application terminates; it has shown one page per run, the pages of
    the histories the button tests produce in turn from the empty
    history, and it returns the last of these histories. *)
Theorem app_trace bs :
  interp_state user app (bs, [])
  ≈ Ret (([], pages [] bs), Some (fold_left (fun h b => press b h) bs [])).
Proof. exact (serves_trace bs [] app [] (loop_serves None (buttons_of NoClick))). Qed.
